(** * Recipe Curation Engine: a shallow embedding of the scraper pipeline

    The development follows the Python modules under [scripts/scraper]:
    [quality_validator.py], [recipe_enrichment.py], [duplicate_detector.py],
    [diversity_tracker.py] and the orchestrator [enhanced_recipe_scraper.py].

    Conventions of the embedding.
    - A recipe is a Python dict; it is a record whose fields are [option]s,
      [None] standing for an absent key.  Only the keys the curation engine
      reads or writes are carried.
    - Python [int] is [Z]; nutrition values (the scrapers produce
      non-negative ints and floats) are exact rationals [Q], so every
      comparison against a bound is the exact comparison Python performs.
    - Text is a [string] of bytes; [lower], [strip] and [split] are the ASCII
      versions of the Python methods.
    - [defaultdict] and [Counter] are [gmap]s read through a default; a read
      of a missing [defaultdict] key stores the default, as in Python.
    - The three title ratios of fuzzywuzzy and the outcome of scikit-learn's
      [fit_transform] are parameters of the detector and of the pipeline;
      the module [FuzzyWuzzy] gives the ratios as the package computes them
      with [difflib]. *)

From Stdlib Require Import ZArith QArith String Ascii List Bool Lia Lqa.
From stdpp Require Import base option list gmap strings sorting.

Local Open Scope string_scope.
Local Open Scope list_scope.

(** ** Python text primitives *)

Module PyStr.

Definition ascii_lower (c : ascii) : ascii :=
  let n := nat_of_ascii c in
  if (65 <=? n)%nat && (n <=? 90)%nat then ascii_of_nat (n + 32) else c.

(** [s.lower()] *)
Fixpoint lower (s : string) : string :=
  match s with
  | EmptyString => EmptyString
  | String c s' => String (ascii_lower c) (lower s')
  end.

(** [needle in hay] on strings *)
Fixpoint contains (needle hay : string) : bool :=
  String.prefix needle hay
  || match hay with
     | EmptyString => false
     | String _ hay' => contains needle hay'
     end.

(** [any(k in text for k in keywords)] *)
Definition any_in (keywords : list string) (text : string) : bool :=
  existsb (fun k => contains k text) keywords.

(** [sum(1 for k in keywords if k in text)] *)
Definition count_in (keywords : list string) (text : string) : Z :=
  Z.of_nat (length (filter (fun k => contains k text = true) keywords)).

(** [x in l] on a list of strings *)
Definition mem (x : string) (l : list string) : bool := bool_decide (x ∈ l).

(** [sep.join(l)] *)
Fixpoint join (sep : string) (l : list string) : string :=
  match l with
  | [] => ""
  | [x] => x
  | x :: rest => x +:+ sep +:+ join sep rest
  end.

(** ASCII white space as [str.isspace] sees it *)
Definition is_space (c : ascii) : bool :=
  let n := nat_of_ascii c in
  ((9 <=? n)%nat && (n <=? 13)%nat) || ((28 <=? n)%nat && (n <=? 32)%nat).

Fixpoint lstrip (s : string) : string :=
  match s with
  | EmptyString => EmptyString
  | String c s' => if is_space c then lstrip s' else s
  end.

Definition rev (s : string) : string :=
  string_of_list_ascii (List.rev (list_ascii_of_string s)).

(** [s.strip()] *)
Definition strip (s : string) : string := rev (lstrip (rev (lstrip s))).

Definition flush (cur : list ascii) : list string :=
  match cur with
  | [] => []
  | _ => [string_of_list_ascii (List.rev cur)]
  end.

Fixpoint split_go (cur : list ascii) (s : string) : list string :=
  match s with
  | EmptyString => flush cur
  | String c s' =>
      if is_space c then flush cur ++ split_go [] s'
      else split_go (c :: cur) s'
  end.

(** [s.split()] : the maximal runs of non-space characters *)
Definition split (s : string) : list string := split_go [] s.

(** [s.split(c)[0]] : the text before the first [c] *)
Fixpoint before (c : ascii) (s : string) : string :=
  match s with
  | EmptyString => EmptyString
  | String d s' => if Ascii.eqb c d then EmptyString else String d (before c s')
  end.

(** [len(s) > 0], the truth value of a string *)
Definition truthy (s : string) : bool :=
  match s with EmptyString => false | _ => true end.

Fixpoint insert_sorted (x : string) (l : list string) : list string :=
  match l with
  | [] => [x]
  | y :: l' => if String.leb x y then x :: l else y :: insert_sorted x l'
  end.

(** [sorted(l)] on strings *)
Definition sorted (l : list string) : list string :=
  fold_right insert_sorted [] l.

(** [c.isdigit()] on ASCII *)
Definition is_digit (c : ascii) : bool :=
  let n := nat_of_ascii c in (48 <=? n)%nat && (n <=? 57)%nat.

(** [''.join([c for c in s if keep(c)])] *)
Fixpoint filter_chars (keep : ascii -> bool) (s : string) : string :=
  match s with
  | EmptyString => EmptyString
  | String c s' => if keep c then String c (filter_chars keep s') else filter_chars keep s'
  end.

Fixpoint remove_from (word : string) (skip : nat) (s : string) : string :=
  match s with
  | EmptyString => EmptyString
  | String c s' =>
      match skip with
      | S k => remove_from word k s'
      | O =>
          if String.prefix word s
          then remove_from word (String.length word - 1) s'
          else String c (remove_from word 0 s')
      end
  end.

(** [s.replace(word, '')] : the occurrences of [word], found from the left
    and not overlapping, are dropped *)
Definition remove (word s : string) : string :=
  match word with
  | EmptyString => s
  | _ => remove_from word 0 s
  end.

(** [list(set(l))] : the distinct elements, in the iteration order of the
    set (here the order of [gset]; Python leaves it unspecified) *)
Definition list_set (l : list string) : list string :=
  elements (list_to_set l : gset string).

End PyStr.

(** ** Rationals as Python numbers *)

Definition Qltb (x y : Q) : bool := negb (Qle_bool y x).
Definition Qgtb (x y : Q) : bool := Qltb y x.
Definition Qis_zero (x : Q) : bool := Qeq_bool x 0.

(** ** Data model *)

Record Ingredient := mkIngredient {
  ing_name : option string;
  ing_amount : option Q;
  ing_unit : option string
}.

(** [ing.get('name', '')] *)
Definition ingredient_name (i : Ingredient) : string := default "" (ing_name i).

(** Messages of the validator; the f-string interpolations are kept as
    constructor arguments. *)
Inductive ValidationMsg :=
| MissingRequiredField (field : string)
| TooFewIngredients
| NoInstructions
| CarbsTooLow (carbs minimum : Q)
| CarbsTooHigh (carbs maximum : Q)
| FiberTooLow (fiber minimum : Q)
| ProteinLow (protein minimum : Q)
| HighSugar (sugar ratio : Q)
| LowFiberCarbRatio (ratio : Q)
| HighSaturatedFat (sat_fat ratio : Q)
| HighSodium (sodium : Q)
| TotalTimeExceeds (total maximum : Z)
| NoIngredientsFound
| ManyUncommonIngredients (first3 : list string)
| GlycemicIndexHigh
| GlycemicIndexUnknown
| ContainsAllergens (allergens : list string).

Record Recipe := mkRecipe {
  (* candidate, as scraped *)
  title : option string;
  description : option string;
  ingredients : option (list Ingredient);
  instructions : option (list string);
  nutrition : option (gmap string Q);
  prepTime : option Z;
  cookTime : option Z;
  tags : option (list string);
  sourceSite : option string;
  (* enriched attributes *)
  cuisine : option string;
  seasonalTags : option (list string);
  trimesterSuitability : option (list string);
  batchFriendly : option bool;
  freezerFriendly : option bool;
  shoppingList : option (list (string * list Ingredient));
  cookingMethods : option (list string);
  timeCategory : option string;
  (* orchestrator annotations *)
  potentialDuplicate : option bool;
  duplicateOf : option string;
  surplus : option bool;
  surplusReasons : option (list string);
  scraper : option string;
  validationStatus : option (bool * list ValidationMsg)
}.

(** The dict with no key at all. *)
Definition empty_recipe : Recipe :=
  mkRecipe None None None None None None None None None
           None None None None None None None None
           None None None None None None.

(** [recipe.get('nutrition', {}).get(key, d)] *)
Definition nutrition_get (r : Recipe) (key : string) (d : Q) : Q :=
  default d (default ∅ (nutrition r) !! key).

(** [' '.join(ing.get('name', '').lower() for ing in ingredients)] *)
Definition names_text (ings : list Ingredient) : string :=
  PyStr.join " " (map (fun i => PyStr.lower (ingredient_name i)) ings).

(** [recipe.get('prepTime', 0) + recipe.get('cookTime', 0)] *)
Definition total_time (r : Recipe) : Z :=
  (default 0 (prepTime r) + default 0 (cookTime r))%Z.

(** ** quality_validator.py *)

Module QualityValidator.

Record Guidelines := mkGuidelines {
  min_carbs : Q;
  max_carbs : Q;
  min_fiber : Q;
  min_protein : Q
}.

(** [GD_GUIDELINES['snacks']] and [GD_GUIDELINES['meals']] *)
Definition snacks_guidelines : Guidelines := mkGuidelines 15 30 3 5.
Definition meals_guidelines : Guidelines := mkGuidelines 30 45 5 15.

(** [GD_GUIDELINES['general']] *)
Definition max_prep_time : Z := 45.
Definition max_sugar_ratio : Q := 4 # 10.
Definition min_fiber_carb_ratio : Q := 1 # 10.
Definition max_saturated_fat_ratio : Q := 3 # 10.

(** [GD_GUIDELINES.get(meal_type, GD_GUIDELINES['meals'])] *)
Definition guidelines_for (meal_type : string) : Guidelines :=
  if String.eqb meal_type "snacks" then snacks_guidelines else meals_guidelines.

Definition GI_low : list string :=
  [ "quinoa"; "steel cut oats"; "rolled oats"; "barley"; "bulgur";
    "sweet potato"; "yam"; "most vegetables"; "beans"; "lentils";
    "chickpeas"; "black beans"; "kidney beans"; "whole grain bread";
    "whole wheat pasta"; "brown rice"; "wild rice"; "nuts"; "seeds";
    "greek yogurt"; "plain yogurt"; "milk"; "cheese"; "eggs";
    "chicken"; "fish"; "turkey"; "lean beef"; "tofu"; "tempeh";
    "apples"; "pears"; "berries"; "citrus"; "stone fruits" ].

Definition GI_medium : list string :=
  [ "whole wheat bread"; "pita bread"; "couscous"; "basmati rice";
    "sweet corn"; "raisins"; "bananas"; "grapes"; "mango";
    "whole grain crackers"; "popcorn"; "honey"; "maple syrup" ].

Definition GI_high : list string :=
  [ "white bread"; "white rice"; "instant rice"; "rice cakes";
    "corn flakes"; "instant oatmeal"; "white potato"; "french fries";
    "pretzels"; "crackers"; "watermelon"; "white pasta"; "bagels";
    "sugar"; "candy"; "soda"; "juice"; "sports drinks" ].

(** [COMMON_INGREDIENTS], flattened in the order of its categories *)
Definition all_common : list string :=
  [ "chicken"; "turkey"; "beef"; "pork"; "fish"; "salmon"; "tuna";
    "eggs"; "tofu"; "tempeh"; "beans"; "lentils"; "chickpeas";
    "greek yogurt"; "cottage cheese"; "nuts"; "seeds" ]
  ++ [ "quinoa"; "brown rice"; "wild rice"; "oats"; "barley"; "bulgur";
       "whole wheat flour"; "whole grain bread"; "whole wheat pasta" ]
  ++ [ "spinach"; "kale"; "lettuce"; "broccoli"; "cauliflower"; "carrots";
       "bell peppers"; "tomatoes"; "cucumber"; "zucchini"; "onions";
       "garlic"; "mushrooms"; "green beans"; "asparagus"; "brussels sprouts" ]
  ++ [ "olive oil"; "avocado"; "nuts"; "seeds"; "nut butter"; "tahini";
       "coconut oil"; "flaxseed"; "chia seeds"; "salmon"; "sardines" ]
  ++ [ "salt"; "pepper"; "herbs"; "spices"; "lemon"; "lime"; "vinegar";
       "mustard"; "hot sauce"; "soy sauce"; "ginger"; "turmeric" ].

Definition common_allergens : list (string * list string) :=
  [ ("dairy", ["milk"; "cheese"; "yogurt"; "butter"; "cream"; "whey"]);
    ("eggs", ["egg"; "eggs"]);
    ("nuts", ["almond"; "walnut"; "pecan"; "cashew"; "pistachio"; "nut"]);
    ("peanuts", ["peanut"]);
    ("soy", ["soy"; "tofu"; "tempeh"; "edamame"]);
    ("wheat", ["wheat"; "flour"; "bread"; "pasta"]);
    ("shellfish", ["shrimp"; "crab"; "lobster"; "scallop"]);
    ("fish", ["salmon"; "tuna"; "cod"; "tilapia"; "fish"]) ].

Inductive GI := GI_is_low | GI_is_medium | GI_is_high | GI_is_unknown.

(** [_determine_meal_type] *)
Definition _determine_meal_type (r : Recipe) : string :=
  let calories := nutrition_get r "calories" 0 in
  let tags := default [] (tags r) in
  if PyStr.mem "snack" tags || PyStr.mem "appetizer" tags then "snacks"
  else if existsb (fun tag => PyStr.mem tag tags)
                  ["breakfast"; "lunch"; "dinner"; "main"] then "meals"
  else if Qltb 0 calories && Qle_bool calories 200 then "snacks"
  else "meals".

(** the truth value of [recipe.get(field)] for the four required fields *)
Definition field_present (r : Recipe) (field : string) : bool :=
  if String.eqb field "title" then
    match title r with Some (String _ _) => true | _ => false end
  else if String.eqb field "ingredients" then
    match ingredients r with Some (_ :: _) => true | _ => false end
  else if String.eqb field "instructions" then
    match instructions r with Some (_ :: _) => true | _ => false end
  else if String.eqb field "nutrition" then
    match nutrition r with
    | Some n => negb (bool_decide (n = ∅))
    | None => false
    end
  else false.

(** [_validate_required_fields] *)
Definition _validate_required_fields (r : Recipe) : list ValidationMsg :=
  let required_fields := ["title"; "ingredients"; "instructions"; "nutrition"] in
  let errors :=
    map MissingRequiredField
        (filter (fun f => field_present r f = false) required_fields) in
  let errors :=
    if field_present r "ingredients"
       && (length (default [] (ingredients r)) <? 3)%nat
    then errors ++ [TooFewIngredients] else errors in
  if field_present r "instructions"
     && (length (default [] (instructions r)) <? 1)%nat
  then errors ++ [NoInstructions] else errors.

(** [_validate_nutrition]; the three ratios are float quotients in the
    source and exact quotients here, they only feed warnings *)
Definition _validate_nutrition (n : gmap string Q) (g : Guidelines)
  : list ValidationMsg * list ValidationMsg :=
  let get k := default 0%Q (n !! k) in
  let carbs := get "carbs" in
  let errors :=
    if Qltb carbs (min_carbs g) then [CarbsTooLow carbs (min_carbs g)]
    else if Qgtb carbs (max_carbs g) then [CarbsTooHigh carbs (max_carbs g)]
    else [] in
  let fiber := get "fiber" in
  let errors :=
    if Qltb fiber (min_fiber g) then errors ++ [FiberTooLow fiber (min_fiber g)]
    else errors in
  let protein := get "protein" in
  let warnings :=
    if Qltb protein (min_protein g) then [ProteinLow protein (min_protein g)]
    else [] in
  let sugar := get "sugar" in
  let warnings :=
    if Qgtb carbs 0 && Qgtb (sugar / carbs) max_sugar_ratio
    then warnings ++ [HighSugar sugar (sugar / carbs)] else warnings in
  let warnings :=
    if Qgtb carbs 0 && Qltb (fiber / carbs) min_fiber_carb_ratio
    then warnings ++ [LowFiberCarbRatio (fiber / carbs)] else warnings in
  let total_fat := get "fat" in
  let sat_fat := get "saturatedFat" in
  let warnings :=
    if Qgtb total_fat 0 && Qgtb sat_fat 0
       && Qgtb (sat_fat / total_fat) max_saturated_fat_ratio
    then warnings ++ [HighSaturatedFat sat_fat (sat_fat / total_fat)]
    else warnings in
  let sodium := get "sodium" in
  let warnings :=
    if Qgtb sodium 600 then warnings ++ [HighSodium sodium] else warnings in
  (errors, warnings).

(** [_validate_ingredients] *)
Definition _validate_ingredients (ings : list Ingredient) : list ValidationMsg :=
  match ings with
  | [] => [NoIngredientsFound]
  | _ =>
      let ingredient_names := map (fun i => PyStr.lower (ingredient_name i)) ings in
      let uncommon :=
        filter (fun nm => negb (PyStr.any_in all_common nm)
                          && (3 <? String.length nm)%nat = true)
               ingredient_names in
      if (3 <? length uncommon)%nat
      then [ManyUncommonIngredients (take 3 uncommon)] else []
  end.

(** [_estimate_glycemic_index]; the counts are small integers, for which
    the float quotient compares with 1.5 and 2.5 as the exact quotient does *)
Definition _estimate_glycemic_index (r : Recipe) : GI :=
  match default [] (ingredients r) with
  | [] => GI_is_unknown
  | ings =>
      let ingredient_text := names_text ings in
      let low_count := PyStr.count_in GI_low ingredient_text in
      let medium_count := PyStr.count_in GI_medium ingredient_text in
      let high_count := PyStr.count_in GI_high ingredient_text in
      let instructions_text :=
        PyStr.lower (PyStr.join " " (default [] (instructions r))) in
      let low_count :=
        if PyStr.contains "raw" instructions_text
           || PyStr.contains "fresh" instructions_text
        then (low_count + 1)%Z else low_count in
      let high_count :=
        if PyStr.contains "deep fry" instructions_text
           || PyStr.contains "fried" instructions_text
        then (high_count + 1)%Z else high_count in
      let total := (low_count + medium_count + high_count)%Z in
      if (total =? 0)%Z then GI_is_unknown
      else
        let score :=
          (inject_Z (low_count * 1 + medium_count * 2 + high_count * 3)
           / inject_Z total)%Q in
        if Qle_bool score (15 # 10) then GI_is_low
        else if Qle_bool score (25 # 10) then GI_is_medium
        else GI_is_high
  end.

(** [_check_allergens] *)
Definition _check_allergens (ings : list Ingredient) : list string :=
  let ingredient_text := names_text ings in
  map fst (filter (fun '(_, keywords) => PyStr.any_in keywords ingredient_text = true)
                  common_allergens).

Record ValidationStats := mkValidationStats {
  total_validated : Z;
  passed : Z;
  failed : Z;
  warned : Z
}.

Definition initial_stats : ValidationStats := mkValidationStats 0 0 0 0.

(** the [(is_valid, errors, warnings)] of [validate_recipe] *)
Definition validate (r : Recipe) : bool * list ValidationMsg * list ValidationMsg :=
  let meal_type := _determine_meal_type r in
  let guidelines := guidelines_for meal_type in
  let errors := _validate_required_fields r in
  let '(nutrition_errors, nutrition_warnings) :=
    _validate_nutrition (default ∅ (nutrition r)) guidelines in
  let errors := errors ++ nutrition_errors in
  let warnings := nutrition_warnings in
  let prep_time := total_time r in
  let warnings :=
    if (max_prep_time <? prep_time)%Z
    then warnings ++ [TotalTimeExceeds prep_time max_prep_time] else warnings in
  let warnings := warnings ++ _validate_ingredients (default [] (ingredients r)) in
  let gi := _estimate_glycemic_index r in
  let errors :=
    match gi with GI_is_high => errors ++ [GlycemicIndexHigh] | _ => errors end in
  let warnings :=
    match gi with GI_is_unknown => warnings ++ [GlycemicIndexUnknown] | _ => warnings end in
  let allergens := _check_allergens (default [] (ingredients r)) in
  let warnings :=
    match allergens with
    | [] => warnings
    | _ => warnings ++ [ContainsAllergens allergens]
    end in
  (match errors with [] => true | _ => false end, errors, warnings).

(** [validate_recipe], with the validator's running statistics *)
Definition validate_recipe (vs : ValidationStats) (r : Recipe)
  : ValidationStats * (bool * list ValidationMsg * list ValidationMsg) :=
  let '(is_valid, errors, warnings) := validate r in
  let vs :=
    mkValidationStats
      (total_validated vs + 1)
      (if is_valid then passed vs + 1 else passed vs)
      (if is_valid then failed vs else failed vs + 1)
      (match warnings with [] => warned vs | _ => warned vs + 1 end)%Z in
  (vs, (is_valid, errors, warnings)).

(** *** The estimate in the words of the specification *)

(** the low, medium and high counts: vocabulary matches in the lower-cased
    ingredient names, one more low for "raw" or "fresh" and one more high
    for "fried" or "deep fry" in the instructions *)
Definition spec_gi_counts (ings : list Ingredient) (instrs : list string) : Z * Z * Z :=
  let names := names_text ings in
  let text := PyStr.lower (PyStr.join " " instrs) in
  let mentions (words : list string) : Z :=
    if PyStr.any_in words text then 1%Z else 0%Z in
  (PyStr.count_in GI_low names + mentions ["raw"; "fresh"],
   PyStr.count_in GI_medium names,
   PyStr.count_in GI_high names + mentions ["fried"; "deep fry"])%Z.

(** unknown without any match, else the bucket of the weighted average *)
Definition spec_estimate_gi (ings : list Ingredient) (instrs : list string) : GI :=
  let '(low, medium, high) := spec_gi_counts ings instrs in
  let total := (low + medium + high)%Z in
  if (total =? 0)%Z then GI_is_unknown
  else
    let score := (inject_Z (low * 1 + medium * 2 + high * 3) / inject_Z total)%Q in
    if Qle_bool score (3 # 2) then GI_is_low
    else if Qle_bool score (5 # 2) then GI_is_medium
    else GI_is_high.

(** [validate_batch]: the results keyed by [recipe.get('title', 'Unknown')],
    without their timestamps, and the statistics after the batch *)
Definition validate_batch (vs : ValidationStats) (recipes : list Recipe)
  : ValidationStats * gmap string (bool * list ValidationMsg * list ValidationMsg) :=
  foldl (fun '(vs, results) recipe =>
           let recipe_id := default "Unknown" (title recipe) in
           let '(vs, verdict) := validate_recipe vs recipe in
           (vs, <[recipe_id := verdict]> results))
        (vs, ∅) recipes.

End QualityValidator.

(** ** diversity_tracker.py *)

Module DiversityTracker.

(** [COLLECTION_TARGETS] *)
Definition targets_by_meal_type : gmap string Z :=
  list_to_map [("breakfast", 90); ("lunch", 90); ("dinner", 90); ("snacks", 90)]%Z.

Definition targets_by_cuisine : gmap string Z :=
  list_to_map [("mediterranean", 60); ("asian", 60); ("latin", 50);
               ("indian", 40); ("italian", 40); ("american", 40);
               ("middle_eastern", 30); ("other", 40)]%Z.

(** [COLLECTION_TARGETS['by_meal_type'].get(meal_type, 90)] *)
Definition meal_type_target (meal_type : string) : Z :=
  default 90%Z (targets_by_meal_type !! meal_type).

(** [COLLECTION_TARGETS['by_cuisine'].get(cuisine, 40)] *)
Definition cuisine_target (cuisine : string) : Z :=
  default 40%Z (targets_by_cuisine !! cuisine).

(** [DIVERSITY_REQUIREMENTS['min_cuisines_per_meal_type']] *)
Definition min_cuisines_per_meal_type : nat := 4.

(** *** [defaultdict(int)], [Counter] and the nested [defaultdict] *)

(** the value a read of [m[k]] yields *)
Definition counter (m : gmap string Z) (k : string) : Z := default 0%Z (m !! k).

(** the dict after a read of [m[k]]: a missing key is stored with 0 *)
Definition dd_touch (m : gmap string Z) (k : string) : gmap string Z :=
  match m !! k with
  | Some _ => m
  | None => <[k := 0%Z]> m
  end.

(** [m[k] += 1] *)
Definition dd_incr (m : gmap string Z) (k : string) : gmap string Z :=
  <[k := (counter m k + 1)%Z]> m.

(** the inner dict a read of [mx[k]] yields *)
Definition row (mx : gmap string (gmap string Z)) (k : string) : gmap string Z :=
  default ∅ (mx !! k).

Definition mx_touch (mx : gmap string (gmap string Z)) (k : string)
  : gmap string (gmap string Z) :=
  match mx !! k with
  | Some _ => mx
  | None => <[k := ∅]> mx
  end.

(** [mx[k][j] += 1] *)
Definition mx_incr (mx : gmap string (gmap string Z)) (k j : string)
  : gmap string (gmap string Z) :=
  <[k := dd_incr (row mx k) j]> mx.

(** [self.stats], without the collection timestamp *)
Record Stats := mkStats {
  total_count : Z;
  by_meal_type : gmap string Z;
  by_cuisine : gmap string Z;
  by_season : gmap string Z;
  by_prep_time : gmap string Z;
  by_special_diet : gmap string Z;
  by_source : gmap string Z;
  cuisine_meal_matrix : gmap string (gmap string Z);
  seasonal_meal_matrix : gmap string (gmap string Z);
  protein_sources : gmap string Z;
  grain_sources : gmap string Z;
  unique_ingredients : gset string;
  recipe_signatures : gset string
}.

(** an element of [self.recipes], without [added_at] *)
Record Entry := mkEntry {
  entry_title : option string;
  entry_meal_type : string;
  entry_cuisine : string;
  entry_seasons : list string
}.

Record Tracker := mkTracker {
  stats : Stats;
  recipes : list Entry
}.

(** [_initialize_stats] *)
Definition _initialize_stats : Stats :=
  mkStats 0 ∅ ∅ ∅ ∅ ∅ ∅ ∅ ∅ ∅ ∅ ∅ ∅.

(** [DiversityTracker()] *)
Definition init : Tracker := mkTracker _initialize_stats [].

(** [_get_meal_type] *)
Definition _get_meal_type (r : Recipe) : string :=
  let tags := default [] (tags r) in
  let title := PyStr.lower (default "" (title r)) in
  match List.find (fun meal => PyStr.mem meal tags || PyStr.contains meal title)
                  ["breakfast"; "lunch"; "dinner"; "snacks"] with
  | Some meal => meal
  | None =>
      let calories := nutrition_get r "calories" 0 in
      if Qltb calories 200 then "snacks"
      else if PyStr.contains "morning" title || PyStr.contains "pancake" title
              || PyStr.contains "muffin" title then "breakfast"
      else "dinner"
  end.

Definition stop_words : list string := ["the"; "a"; "an"; "and"; "or"; "of"].

(** [_create_recipe_signature] *)
Definition _create_recipe_signature (r : Recipe) : string :=
  let title := PyStr.strip (PyStr.lower (default "" (title r))) in
  let main_ingredients :=
    map (fun ing =>
           let ing_name := PyStr.strip (PyStr.lower (ingredient_name ing)) in
           PyStr.join " " (filter (fun word => PyStr.mem word stop_words = false)
                                  (PyStr.split ing_name)))
        (take 5 (default [] (ingredients r))) in
  PyStr.join "|" (title :: PyStr.sorted main_ingredients).

Definition proteins : list string :=
  [ "chicken"; "turkey"; "beef"; "pork"; "lamb"; "fish"; "salmon";
    "tuna"; "shrimp"; "tofu"; "tempeh"; "beans"; "lentils"; "chickpeas";
    "eggs"; "greek yogurt"; "cottage cheese"; "nuts"; "quinoa" ].

Definition grains : list string :=
  [ "rice"; "brown rice"; "wild rice"; "quinoa"; "oats"; "barley";
    "bulgur"; "wheat"; "pasta"; "bread"; "couscous"; "farro";
    "millet"; "buckwheat"; "corn"; "polenta" ].

Definition diet_tags : list string :=
  [ "vegetarian"; "vegan"; "gluten-free"; "dairy-free";
    "keto-friendly"; "paleo-friendly" ].

(** the text [_track_ingredient_diversity] searches *)
Definition ingredients_text (r : Recipe) : string :=
  PyStr.lower (PyStr.join " " (map ingredient_name (default [] (ingredients r)))).

(** the names [_track_ingredient_diversity] adds to [unique_ingredients] *)
Definition ingredient_keys (r : Recipe) : list string :=
  filter (fun nm => PyStr.truthy nm = true)
         (map (fun ing => PyStr.strip (PyStr.lower (ingredient_name ing)))
              (default [] (ingredients r))).

(** [_update_stats], [_track_ingredient_diversity] included; every
    statement of the body writes its own entry of [self.stats] *)
Definition _update_stats (st : Stats) (r : Recipe) (meal_type cuisine : string)
    (seasons : list string) (prep_time : string) (tags : list string) : Stats :=
  {| total_count := total_count st + 1;
     by_meal_type := dd_incr (by_meal_type st) meal_type;
     by_cuisine :=
       if PyStr.truthy cuisine then dd_incr (by_cuisine st) cuisine
       else by_cuisine st;
     cuisine_meal_matrix :=
       if PyStr.truthy cuisine then mx_incr (cuisine_meal_matrix st) meal_type cuisine
       else cuisine_meal_matrix st;
     by_season := foldl dd_incr (by_season st) seasons;
     seasonal_meal_matrix :=
       foldl (fun mx season => mx_incr mx meal_type season)
             (seasonal_meal_matrix st) seasons;
     by_prep_time :=
       if PyStr.truthy prep_time then dd_incr (by_prep_time st) prep_time
       else by_prep_time st;
     by_special_diet :=
       foldl dd_incr (by_special_diet st)
             (filter (fun diet => PyStr.mem diet tags = true) diet_tags);
     by_source := dd_incr (by_source st) (default "unknown" (sourceSite r));
     protein_sources :=
       foldl dd_incr (protein_sources st)
             (filter (fun p => PyStr.contains p (ingredients_text r) = true) proteins);
     grain_sources :=
       foldl dd_incr (grain_sources st)
             (filter (fun g => PyStr.contains g (ingredients_text r) = true) grains);
     unique_ingredients :=
       unique_ingredients st ∪ list_to_set (ingredient_keys r);
     recipe_signatures :=
       recipe_signatures st ∪ {[ _create_recipe_signature r ]} |}%Z.

(** the three [defaultdict] reads of the checks in [add_recipe] *)
Definition touch_reads (st : Stats) (meal_type cuisine : string) : Stats :=
  {| total_count := total_count st;
     by_meal_type := dd_touch (by_meal_type st) meal_type;
     by_cuisine :=
       if PyStr.truthy cuisine then dd_touch (by_cuisine st) cuisine
       else by_cuisine st;
     cuisine_meal_matrix :=
       if PyStr.truthy meal_type then mx_touch (cuisine_meal_matrix st) meal_type
       else cuisine_meal_matrix st;
     by_season := by_season st;
     seasonal_meal_matrix := seasonal_meal_matrix st;
     by_prep_time := by_prep_time st;
     by_special_diet := by_special_diet st;
     by_source := by_source st;
     protein_sources := protein_sources st;
     grain_sources := grain_sources st;
     unique_ingredients := unique_ingredients st;
     recipe_signatures := recipe_signatures st |}.

(** the first check: the meal-type quota is met *)
Definition meal_type_full (st : Stats) (meal_type : string) : bool :=
  (meal_type_target meal_type <=? counter (by_meal_type st) meal_type)%Z.

(** the second check: the cuisine is a non-empty string and its quota is met *)
Definition cuisine_full (st : Stats) (cuisine : string) : bool :=
  PyStr.truthy cuisine
  && (cuisine_target cuisine <=? counter (by_cuisine st) cuisine)%Z.

(** the third check, which only adds a reason *)
Definition needs_cuisine_diversity (st : Stats) (meal_type cuisine : string) : bool :=
  PyStr.truthy meal_type
  && (let cuisines := row (cuisine_meal_matrix st) meal_type in
      let cuisine_count :=
        length (filter (fun '(_, count) => (0 <? count)%Z = true)
                       (map_to_list cuisines)) in
      (cuisine_count <? min_cuisines_per_meal_type)%nat
      && bool_decide (is_Some (cuisines !! cuisine))).

(** [add_recipe]: the tracker afterwards and [(should_add, reasons)] *)
Definition add_recipe (t : Tracker) (r : Recipe) : Tracker * (bool * list string) :=
  let st := stats t in
  let meal_type := _get_meal_type r in
  let cuisine := default "other" (cuisine r) in
  let seasons := default [] (seasonalTags r) in
  let prep_time := default "quick-meals" (timeCategory r) in
  let tags := default [] (tags r) in
  let should_add := negb (meal_type_full st meal_type) && negb (cuisine_full st cuisine) in
  let reasons :=
    (if meal_type_full st meal_type
     then ["Already have enough " +:+ meal_type +:+ " recipes"] else [])
    ++ (if cuisine_full st cuisine
        then ["Already have enough " +:+ cuisine +:+ " cuisine recipes"] else [])
    ++ (if needs_cuisine_diversity st meal_type cuisine
        then ["Need more cuisine diversity in " +:+ meal_type] else []) in
  let st := touch_reads st meal_type cuisine in
  if should_add then
    (mkTracker (_update_stats st r meal_type cuisine seasons prep_time tags)
               (recipes t ++ [mkEntry (title r) meal_type cuisine seasons]),
     (true, reasons))
  else (mkTracker st (recipes t), (false, reasons)).

(** [check_duplicate] *)
Definition check_duplicate (t : Tracker) (r : Recipe) : bool :=
  bool_decide (_create_recipe_signature r ∈ recipe_signatures (stats t)).

(** the trackers a run can hold: the fresh one and those [add_recipe] leaves *)
Inductive reachable : Tracker -> Prop :=
| reachable_init : reachable init
| reachable_add t r : reachable t -> reachable (add_recipe t r).1.

(** every counter of the ledger reads the same in both *)
Record same_counters (s1 s2 : Stats) : Prop := mkSameCounters {
  same_total : total_count s1 = total_count s2;
  same_meal_type : forall k, counter (by_meal_type s1) k = counter (by_meal_type s2) k;
  same_cuisine : forall k, counter (by_cuisine s1) k = counter (by_cuisine s2) k;
  same_season : forall k, counter (by_season s1) k = counter (by_season s2) k;
  same_prep_time : forall k, counter (by_prep_time s1) k = counter (by_prep_time s2) k;
  same_special_diet :
    forall k, counter (by_special_diet s1) k = counter (by_special_diet s2) k;
  same_cuisine_meal :
    forall k j, counter (row (cuisine_meal_matrix s1) k) j
                = counter (row (cuisine_meal_matrix s2) k) j;
  same_seasonal_meal :
    forall k j, counter (row (seasonal_meal_matrix s1) k) j
                = counter (row (seasonal_meal_matrix s2) k) j
}.

(** *** [get_next_priorities] *)

(** [COLLECTION_TARGETS['by_meal_type'].items()] *)
Definition meal_type_quotas : list (string * Z) :=
  [("breakfast", 90); ("lunch", 90); ("dinner", 90); ("snacks", 90)]%Z.

(** [COLLECTION_TARGETS['by_cuisine'].items()] *)
Definition cuisine_quotas : list (string * Z) :=
  [("mediterranean", 60); ("asian", 60); ("latin", 50); ("indian", 40);
   ("italian", 40); ("american", 40); ("middle_eastern", 30); ("other", 40)]%Z.

Inductive GapKind := MealTypeGap | CuisineGap.

(** an element of [all_gaps]; the scores are quotients of integers below
    100, on which the float order is the exact order *)
Record Gap := mkGap {
  gap_kind : GapKind;
  gap_value : string;
  gap_needed : Z;
  gap_priority_score : Q
}.

(** the loop that fills [meal_gaps] *)
Definition meal_gaps (st : Stats) : list Gap :=
  omap (fun '(meal_type, target) =>
          let current := counter (by_meal_type st) meal_type in
          if (current <? target)%Z then
            let gap_percentage := (inject_Z (target - current) / inject_Z target)%Q in
            Some (mkGap MealTypeGap meal_type (target - current) (gap_percentage * 2))
          else None)
       meal_type_quotas.

(** the loop that fills [cuisine_gaps] *)
Definition cuisine_gaps (st : Stats) : list Gap :=
  omap (fun '(cuisine, target) =>
          let current := counter (by_cuisine st) cuisine in
          if (current <? target)%Z then
            let gap_percentage := (inject_Z (target - current) / inject_Z target)%Q in
            Some (mkGap CuisineGap cuisine (target - current) gap_percentage)
          else None)
       cuisine_quotas.

Fixpoint insert_gap (g : Gap) (l : list Gap) : list Gap :=
  match l with
  | [] => [g]
  | g' :: l' =>
      if Qle_bool (gap_priority_score g') (gap_priority_score g)
      then g :: l
      else g' :: insert_gap g l'
  end.

(** [all_gaps.sort(key=priority_score, reverse=True)], a stable sort *)
Definition sort_gaps (l : list Gap) : list Gap := fold_right insert_gap [] l.

(** an element of the list [get_next_priorities] returns *)
Record Priority := mkPriority {
  priority : string;
  focus : string;
  needed : Z;
  search_terms : list string
}.

(** the cuisines with fewer than 3 recipes in the row of a meal type *)
Definition underrepresented_cuisines (mx : gmap string (gmap string Z))
    (meal_type : string) : list string :=
  filter (fun c => (counter (row mx meal_type) c <? 3)%Z = true) (map fst cuisine_quotas).

(** the meal types with fewer than 5 recipes of a cuisine *)
Definition needed_meals (mx : gmap string (gmap string Z)) (cuisine : string)
  : list string :=
  filter (fun meal => (counter (row mx meal) cuisine <? 5)%Z = true)
         (map fst meal_type_quotas).

(** the recommendation built for one gap *)
Definition priority_of (mx : gmap string (gmap string Z)) (g : Gap) : Priority :=
  match gap_kind g with
  | MealTypeGap =>
      let cuisines := underrepresented_cuisines mx (gap_value g) in
      mkPriority (gap_value g +:+ " recipes")
                 ("Especially " +:+ PyStr.join ", " (take 3 cuisines) +:+ " cuisines")
                 (gap_needed g)
                 (map (fun c => gap_value g +:+ " " +:+ c) (take 2 cuisines))
  | CuisineGap =>
      let meals := needed_meals mx (gap_value g) in
      mkPriority (gap_value g +:+ " cuisine recipes")
                 ("Especially for " +:+ PyStr.join ", " meals)
                 (gap_needed g)
                 (map (fun m => gap_value g +:+ " " +:+ m) (take 2 meals))
  end.

(** the matrix after a read of [mx[k][j]] *)
Definition mx_touch_cell (mx : gmap string (gmap string Z)) (k j : string)
  : gmap string (gmap string Z) :=
  <[k := dd_touch (row mx k) j]> mx.

(** the matrix after the reads made for one gap *)
Definition touch_gap_reads (mx : gmap string (gmap string Z)) (g : Gap)
  : gmap string (gmap string Z) :=
  match gap_kind g with
  | MealTypeGap =>
      foldl (fun mx c => mx_touch_cell mx (gap_value g) c)
            (mx_touch mx (gap_value g)) (map fst cuisine_quotas)
  | CuisineGap =>
      foldl (fun mx meal => mx_touch_cell mx meal (gap_value g))
            mx (map fst meal_type_quotas)
  end.

(** [get_next_priorities(limit)] for [limit >= 0]: the tracker after the
    [defaultdict] reads, and the priorities *)
Definition get_next_priorities (t : Tracker) (limit : nat) : Tracker * list Priority :=
  let st := stats t in
  let all_gaps := sort_gaps (meal_gaps st ++ cuisine_gaps st) in
  let selected := take limit all_gaps in
  let st' :=
    {| total_count := total_count st;
       by_meal_type := foldl dd_touch (by_meal_type st) (map fst meal_type_quotas);
       by_cuisine := foldl dd_touch (by_cuisine st) (map fst cuisine_quotas);
       cuisine_meal_matrix := foldl touch_gap_reads (cuisine_meal_matrix st) selected;
       by_season := by_season st;
       seasonal_meal_matrix := seasonal_meal_matrix st;
       by_prep_time := by_prep_time st;
       by_special_diet := by_special_diet st;
       by_source := by_source st;
       protein_sources := protein_sources st;
       grain_sources := grain_sources st;
       unique_ingredients := unique_ingredients st;
       recipe_signatures := recipe_signatures st |} in
  (mkTracker st' (recipes t), map (priority_of (cuisine_meal_matrix st)) selected).

End DiversityTracker.

(** ** recipe_enrichment.py *)

Module RecipeEnricher.

(** [SEASONAL_INGREDIENTS], the four seasons in the order of the dict *)
Definition SEASONAL_INGREDIENTS : list (string * list string) :=
  [ ("spring",
     [ "asparagus"; "artichoke"; "peas"; "spring onions"; "radish";
       "strawberries"; "rhubarb"; "spinach"; "lettuce"; "arugula";
       "fennel"; "leeks"; "mint"; "parsley"; "dill" ]);
    ("summer",
     [ "tomatoes"; "corn"; "zucchini"; "cucumber"; "bell peppers";
       "eggplant"; "berries"; "peaches"; "watermelon"; "melon";
       "basil"; "cilantro"; "green beans"; "okra"; "summer squash" ]);
    ("fall",
     [ "pumpkin"; "butternut squash"; "acorn squash"; "sweet potato";
       "apples"; "pears"; "cranberries"; "brussels sprouts"; "cauliflower";
       "kale"; "swiss chard"; "pomegranate"; "persimmon"; "figs" ]);
    ("winter",
     [ "cabbage"; "winter squash"; "root vegetables"; "carrots"; "parsnips";
       "turnips"; "beets"; "citrus"; "oranges"; "grapefruit"; "lemons";
       "collard greens"; "endive"; "radicchio"; "dates" ]) ].

(** [SEASONAL_INGREDIENTS['year_round']] *)
Definition year_round : list string :=
  [ "onions"; "garlic"; "potatoes"; "mushrooms"; "broccoli";
    "carrots"; "celery"; "bananas"; "avocados"; "nuts"; "seeds" ].

Record CuisinePattern := mkPattern {
  pattern_cuisine : string;
  pattern_ingredients : list string;
  pattern_dishes : list string
}.

Definition CUISINE_PATTERNS : list CuisinePattern :=
  [ mkPattern "mediterranean"
      [ "olive oil"; "feta"; "olives"; "oregano"; "basil";
        "tomatoes"; "garlic"; "lemon"; "yogurt"; "chickpeas";
        "tahini"; "hummus"; "pita"; "couscous"; "bulgur" ]
      [ "greek salad"; "tzatziki"; "tabbouleh"; "shakshuka"; "falafel" ];
    mkPattern "asian"
      [ "soy sauce"; "ginger"; "sesame"; "rice vinegar"; "miso";
        "tofu"; "bok choy"; "noodles"; "rice"; "sriracha";
        "fish sauce"; "coconut milk"; "curry"; "lemongrass" ]
      [ "stir fry"; "pad thai"; "pho"; "curry"; "sushi"; "teriyaki" ];
    mkPattern "latin"
      [ "cilantro"; "lime"; "jalapeno"; "chili"; "cumin";
        "black beans"; "corn"; "avocado"; "salsa"; "tortilla";
        "queso"; "chorizo"; "plantain"; "mole"; "adobo" ]
      [ "tacos"; "enchiladas"; "burrito"; "quesadilla"; "ceviche" ];
    mkPattern "indian"
      [ "curry"; "turmeric"; "cumin"; "coriander"; "garam masala";
        "cardamom"; "naan"; "basmati rice"; "dal"; "paneer";
        "ghee"; "chutney"; "tandoori"; "masala" ]
      [ "curry"; "biryani"; "tikka masala"; "samosa"; "dosa" ];
    mkPattern "italian"
      [ "pasta"; "parmesan"; "mozzarella"; "basil"; "oregano";
        "marinara"; "pesto"; "risotto"; "prosciutto"; "balsamic";
        "ricotta"; "polenta"; "gnocchi" ]
      [ "pasta"; "pizza"; "risotto"; "lasagna"; "caprese" ];
    mkPattern "american"
      [ "bbq sauce"; "ranch"; "cheddar"; "bacon"; "maple syrup";
        "cornbread"; "coleslaw"; "buffalo sauce" ]
      [ "burger"; "sandwich"; "mac and cheese"; "chili"; "meatloaf" ];
    mkPattern "middle_eastern"
      [ "tahini"; "sumac"; "zaatar"; "pomegranate"; "dates";
        "pistachios"; "rose water"; "harissa"; "preserved lemon" ]
      [ "shawarma"; "kebab"; "baba ganoush"; "fattoush" ] ].

Record Trimester := mkTrimester {
  trimester_name : string;
  trimester_avoid : list string;
  trimester_beneficial : list string;
  trimester_tags : list string
}.

Definition TRIMESTER_CONSIDERATIONS : list Trimester :=
  [ mkTrimester "first_trimester"
      [ "raw fish"; "high mercury fish"; "excessive caffeine" ]
      [ "ginger"; "bland foods"; "small portions"; "crackers";
        "citrus"; "vitamin b6 foods" ]
      [ "morning-sickness-friendly"; "gentle-stomach"; "small-portions" ];
    mkTrimester "second_trimester"
      [ "high mercury fish"; "raw eggs"; "unpasteurized cheese" ]
      [ "iron rich"; "calcium rich"; "protein"; "omega-3";
        "whole grains"; "variety" ]
      [ "energy-boost"; "nutrient-dense"; "balanced" ];
    mkTrimester "third_trimester"
      [ "heavy meals"; "spicy foods"; "gas-producing foods" ]
      [ "small frequent meals"; "fiber"; "hydrating foods"; "easy to digest" ]
      [ "easy-digest"; "heartburn-friendly"; "light-meals" ] ].

Definition BATCH_FRIENDLY_INDICATORS : list string :=
  [ "casserole"; "soup"; "stew"; "chili"; "curry"; "lasagna";
    "meatballs"; "burrito"; "enchilada"; "sauce"; "marinade" ].

Definition FREEZER_FRIENDLY_INDICATORS : list string :=
  [ "freeze"; "frozen"; "make ahead"; "batch"; "meal prep";
    "freezer friendly"; "store frozen" ].

Record EnrichmentStats := mkEnrichmentStats {
  total_enriched : Z;
  seasonal_tagged : Z;
  cuisine_tagged : Z;
  trimester_tagged : Z;
  batch_tagged : Z
}.

Definition initial_stats : EnrichmentStats := mkEnrichmentStats 0 0 0 0 0.

(** [_get_ingredients_text] *)
Definition _get_ingredients_text (r : Recipe) : string :=
  PyStr.lower (PyStr.join " " (map ingredient_name (default [] (ingredients r)))).

(** [_classify_seasonal] *)
Definition _classify_seasonal (ingredients_text : string) : list string :=
  let seasons :=
    map fst (filter (fun '(_, ings) => (2 <=? PyStr.count_in ings ingredients_text)%Z = true)
                    SEASONAL_INGREDIENTS) in
  match seasons with
  | [] =>
      if (3 <=? PyStr.count_in year_round ingredients_text)%Z
      then ["year-round"] else []
  | _ => seasons
  end.

(** the entry [most_common(1)] returns: the first of the highest scores *)
Fixpoint most_common (scores : list (string * Z)) : option (string * Z) :=
  match scores with
  | [] => None
  | (c, n) :: rest =>
      match most_common rest with
      | Some (c', n') => if (n <? n')%Z then Some (c', n') else Some (c, n)
      | None => Some (c, n)
      end
  end.

(** [_classify_cuisine]; a cuisine enters the [Counter] with its first hit *)
Definition _classify_cuisine (ingredients_text title description : string)
  : option string :=
  let combined_text := ingredients_text +:+ " " +:+ title +:+ " " +:+ description in
  let cuisine_scores :=
    filter (fun '(_, n) => (0 <? n)%Z = true)
           (map (fun p =>
                   (pattern_cuisine p,
                    PyStr.count_in (pattern_ingredients p) combined_text
                    + 3 * PyStr.count_in (pattern_dishes p) combined_text)%Z)
                CUISINE_PATTERNS) in
  match most_common cuisine_scores with
  | Some (top_cuisine, score) => if (3 <=? score)%Z then Some top_cuisine else None
  | None => None
  end.

(** [_assess_trimester_suitability]: [(suitable, tags)] *)
Definition _assess_trimester_suitability (ingredients_text : string)
  : list string * list string :=
  let suitable :=
    filter (fun t => negb (PyStr.any_in (trimester_avoid t) ingredients_text)
                     && (2 <=? PyStr.count_in (trimester_beneficial t) ingredients_text)%Z
                     = true)
           TRIMESTER_CONSIDERATIONS in
  let tags := flat_map (fun t => take 1 (trimester_tags t)) suitable in
  let tags := if (length suitable =? 3)%nat then ["pregnancy-friendly"] else tags in
  (map trimester_name suitable, PyStr.list_set tags).

Definition newline : ascii := ascii_of_nat 10.

Fixpoint drop_chars (n : nat) (s : string) : string :=
  match n, s with
  | S n', String _ s' => drop_chars n' s'
  | _, _ => s
  end.

(** [re.search(a + '.*' + b, text)] for literal [a] and [b]: an occurrence
    of [a] followed by [b] before the line ends *)
Fixpoint search_gap (a b text : string) : bool :=
  (String.prefix a text
   && PyStr.contains b (PyStr.before newline (drop_chars (String.length a) text)))
  || match text with
     | EmptyString => false
     | String _ text' => search_gap a b text'
     end.

(** [_is_batch_friendly] *)
Definition _is_batch_friendly (title instructions : string) : bool :=
  let combined_text := title +:+ " " +:+ instructions in
  PyStr.any_in BATCH_FRIENDLY_INDICATORS combined_text
  || search_gap "double" "recipe" combined_text
  || search_gap "make" "batch" combined_text
  || PyStr.any_in ["serves 8"; "serves 10"; "serves 12"; "large batch"] combined_text.

(** [_is_freezer_friendly] *)
Definition _is_freezer_friendly (title instructions description : string) : bool :=
  let combined_text := title +:+ " " +:+ instructions +:+ " " +:+ description in
  PyStr.any_in FREEZER_FRIENDLY_INDICATORS combined_text.

Definition protein_keywords : list string :=
  ["chicken"; "beef"; "pork"; "fish"; "tofu"; "beans"; "eggs"].
Definition produce_keywords : list string := ["vegetable"; "fruit"] ++ year_round.
Definition grain_keywords : list string :=
  ["rice"; "pasta"; "bread"; "flour"; "oats"; "quinoa"].
Definition dairy_keywords : list string :=
  ["milk"; "cheese"; "yogurt"; "butter"; "cream"].
Definition pantry_keywords : list string := ["oil"; "vinegar"; "sauce"; "spice"].

(** the category the [if]/[elif] chain of [_generate_shopping_list] picks *)
Definition shopping_category (ing : Ingredient) : string :=
  let ing_name := PyStr.lower (ingredient_name ing) in
  if PyStr.any_in protein_keywords ing_name then "proteins"
  else if PyStr.any_in produce_keywords ing_name then "produce"
  else if PyStr.any_in grain_keywords ing_name then "grains"
  else if PyStr.any_in dairy_keywords ing_name then "dairy"
  else if PyStr.any_in pantry_keywords ing_name then "pantry"
  else "other".

(** [ing_data] *)
Definition shopping_item (ing : Ingredient) : Ingredient :=
  mkIngredient (Some (ingredient_name ing))
               (Some (default 0%Q (ing_amount ing)))
               (Some (default "" (ing_unit ing))).

(** [_generate_shopping_list] *)
Definition _generate_shopping_list (ings : list Ingredient)
  : list (string * list Ingredient) :=
  filter (fun '(_, items) => items <> [])
         (map (fun category =>
                 (category,
                  map shopping_item
                      (filter (fun ing => shopping_category ing = category) ings)))
              ["proteins"; "produce"; "grains"; "dairy"; "pantry"; "other"]).

Definition cooking_verbs : list (string * string) :=
  [ ("bake", "baking"); ("roast", "roasting"); ("grill", "grilling");
    ("saute", "sauteing"); ("steam", "steaming"); ("boil", "boiling");
    ("simmer", "simmering"); ("stir fry", "stir-frying");
    ("slow cook", "slow-cooking"); ("pressure cook", "pressure-cooking");
    ("air fry", "air-frying") ].

(** [_extract_cooking_methods] *)
Definition _extract_cooking_methods (instructions : string) : list string :=
  take 3 (map snd (filter (fun '(verb, _) => PyStr.contains verb instructions = true)
                          cooking_verbs)).

(** [_categorize_prep_time] *)
Definition _categorize_prep_time (total : Z) : option string :=
  if (total <=? 15)%Z then Some "15-min-meals"
  else if (total <=? 30)%Z then Some "30-min-meals"
  else if (total <=? 45)%Z then Some "quick-meals"
  else if (120 <=? total)%Z then Some "slow-cooking"
  else None.

(** [_identify_special_diets], on the nutrition, the ingredients and the
    tags of the dict it is passed *)
Definition _identify_special_diets (r : Recipe) : list string :=
  let ingredients_text := _get_ingredients_text r in
  let existing_tags := default [] (tags r) in
  (if Qltb (nutrition_get r "carbs" 999) 10 && Qgtb (nutrition_get r "fat" 0) 15
   then ["keto-friendly"] else [])
  ++ (if negb (PyStr.any_in (["wheat"; "bread"; "pasta"; "rice"; "oats"]
                             ++ ["milk"; "cheese"; "yogurt"]) ingredients_text)
         && negb (PyStr.mem "vegetarian" existing_tags)
      then ["paleo-friendly"] else [])
  ++ (if negb (PyStr.any_in ["sugar"; "honey"; "maple"; "dairy"; "grain";
                             "legume"; "alcohol"] ingredients_text)
      then ["whole30-compatible"] else []).

(** What a call of [enrich_recipe] leaves behind: the dict it was passed,
    the dict it returns, and the enricher's statistics. *)
Record Outcome := mkOutcome {
  input_after : Recipe;
  enriched : Recipe;
  stats_after : EnrichmentStats
}.

(** the caller's dict once the list under ['tags'] holds [l] *)
Definition with_tags (r : Recipe) (l : list string) : Recipe :=
  {| title := title r; description := description r;
     ingredients := ingredients r; instructions := instructions r;
     nutrition := nutrition r; prepTime := prepTime r; cookTime := cookTime r;
     tags := Some l; sourceSite := sourceSite r; cuisine := cuisine r;
     seasonalTags := seasonalTags r;
     trimesterSuitability := trimesterSuitability r;
     batchFriendly := batchFriendly r; freezerFriendly := freezerFriendly r;
     shoppingList := shoppingList r; cookingMethods := cookingMethods r;
     timeCategory := timeCategory r;
     potentialDuplicate := potentialDuplicate r; duplicateOf := duplicateOf r;
     surplus := surplus r; surplusReasons := surplusReasons r;
     scraper := scraper r; validationStatus := validationStatus r |}.

(** [enrich_recipe].  [recipe.copy()] is a shallow copy: when the input has
    a ['tags'] key, the copy holds the very list object of the input, and
    every [extend] and [append] below lands in both dicts, up to the final
    [enriched['tags'] = list(set(...))], which rebinds the key of the copy
    only.  Without the key the copy gets a fresh list. *)
Definition enrich_recipe (es : EnrichmentStats) (r : Recipe) : Outcome :=
  let shared := bool_decide (is_Some (tags r)) in
  let tag_list := default [] (tags r) in
  let ingredients_text := _get_ingredients_text r in
  let title_l := PyStr.lower (default "" (title r)) in
  let description_l := PyStr.lower (default "" (description r)) in
  let instructions_text := PyStr.lower (PyStr.join " " (default [] (instructions r))) in
  (* 1 *)
  let seasonal_tags := _classify_seasonal ingredients_text in
  let tag_list := tag_list ++ seasonal_tags in
  (* 2 *)
  let new_cuisine := _classify_cuisine ingredients_text title_l description_l in
  let tag_list :=
    match new_cuisine with
    | Some c => tag_list ++ ["cuisine-" +:+ c]
    | None => tag_list
    end in
  (* 3 *)
  let '(suitable, trimester_tag_list) := _assess_trimester_suitability ingredients_text in
  let tag_list := tag_list ++ trimester_tag_list in
  (* 4 *)
  let is_batch_friendly := _is_batch_friendly title_l instructions_text in
  let is_freezer_friendly :=
    _is_freezer_friendly title_l instructions_text description_l in
  let tag_list := if is_batch_friendly then tag_list ++ ["batch-cooking"] else tag_list in
  let tag_list := if is_freezer_friendly then tag_list ++ ["freezer-friendly"] else tag_list in
  (* 5 *)
  let shopping := _generate_shopping_list (default [] (ingredients r)) in
  (* 6 *)
  let cooking_methods := _extract_cooking_methods instructions_text in
  let tag_list := tag_list ++ map (fun m => "method-" +:+ m) cooking_methods in
  (* 7 *)
  let time_category := _categorize_prep_time (total_time r) in
  let tag_list :=
    match time_category with
    | Some c => tag_list ++ [c]
    | None => tag_list
    end in
  (* 8 *)
  let diet_tag_list := _identify_special_diets (with_tags r tag_list) in
  let tag_list := tag_list ++ diet_tag_list in
  {| input_after := if shared then with_tags r tag_list else r;
     enriched :=
       {| title := title r; description := description r;
          ingredients := ingredients r; instructions := instructions r;
          nutrition := nutrition r; prepTime := prepTime r; cookTime := cookTime r;
          tags := Some (PyStr.list_set tag_list);
          sourceSite := sourceSite r;
          cuisine := match new_cuisine with Some c => Some c | None => cuisine r end;
          seasonalTags := Some seasonal_tags;
          trimesterSuitability := Some suitable;
          batchFriendly := Some is_batch_friendly;
          freezerFriendly := Some is_freezer_friendly;
          shoppingList := Some shopping;
          cookingMethods := Some cooking_methods;
          timeCategory :=
            match time_category with Some c => Some c | None => timeCategory r end;
          potentialDuplicate := potentialDuplicate r; duplicateOf := duplicateOf r;
          surplus := surplus r; surplusReasons := surplusReasons r;
          scraper := scraper r; validationStatus := validationStatus r |};
     stats_after :=
       {| total_enriched := total_enriched es + 1;
          seasonal_tagged :=
            match seasonal_tags with [] => seasonal_tagged es | _ => seasonal_tagged es + 1 end;
          cuisine_tagged :=
            match new_cuisine with Some _ => cuisine_tagged es + 1 | None => cuisine_tagged es end;
          trimester_tagged :=
            match trimester_tag_list with
            | [] => trimester_tagged es
            | _ => trimester_tagged es + 1
            end;
          batch_tagged :=
            if is_batch_friendly then batch_tagged es + 1 else batch_tagged es |}%Z |}.

End RecipeEnricher.

(** ** Floating-point arithmetic

    The scores of the detector are Python floats.  The detector is written
    over the operations it uses; of IEEE arithmetic, only two facts are
    needed: a product does not depend on the order of its factors, and the
    denominator [norm + 1e-10] (a square root, plus a positive constant) is
    never zero. *)

Class FloatArith (F : Type) := {
  f_of_Q : Q -> F;
  f_add : F -> F -> F;
  f_sub : F -> F -> F;
  f_mul : F -> F -> F;
  f_div : F -> F -> F;
  f_sqrt : F -> F;
  f_leb : F -> F -> bool;
  f_is_zero : F -> bool;
  f_mul_comm : forall x y, f_mul x y = f_mul y x;
  f_norm_nonzero :
    forall x, f_is_zero (f_add (f_sqrt x) (f_of_Q (1 # 10000000000))) = false
}.

(** ** duplicate_detector.py *)

Module DuplicateDetector.

(** [DUPLICATE_THRESHOLDS['combined_threshold']] *)
Definition combined_threshold : Q := 75 # 100.

(** [SIMILARITY_WEIGHTS] *)
Definition weight_title : Q := 3 # 10.
Definition weight_ingredients : Q := 4 # 10.
Definition weight_nutrition : Q := 2 # 10.
Definition weight_cooking_method : Q := 1 # 10.

Definition descriptors : list string :=
  [ "fresh"; "frozen"; "canned"; "dried"; "chopped"; "diced";
    "sliced"; "minced"; "ground"; "whole"; "large"; "small";
    "medium"; "organic"; "low-fat"; "fat-free"; "boneless";
    "skinless"; "cooked"; "raw"; "unsalted"; "salted" ].

Definition key_nutrients : list string :=
  ["calories"; "carbs"; "protein"; "fat"; "fiber"; "sugar"; "sodium"].

Definition method_words : list string := ["bake"; "grill"; "roast"; "steam"; "fry"].

Definition left_paren : ascii := ascii_of_nat 40.

(** [_extract_main_ingredient] *)
Definition _extract_main_ingredient (ingredient_name : string) : string :=
  let words := PyStr.split ingredient_name in
  let main_words := filter (fun w => PyStr.mem w descriptors = false) words in
  let result := PyStr.join " " main_words in
  if PyStr.contains "(" result
  then PyStr.strip (PyStr.before left_paren result)
  else result.

(** the set [names1] (or [names2]) of [_calculate_ingredient_similarity] *)
Definition main_ingredient_set (ings : list Ingredient) : gset string :=
  list_to_set
    (map _extract_main_ingredient
         (filter (fun nm => PyStr.truthy nm = true)
                 (map (fun ing => PyStr.strip (PyStr.lower (ingredient_name ing))) ings))).

Definition is_method_tag (tag : string) : bool :=
  PyStr.contains "method-" tag
  || existsb (fun method => PyStr.contains method tag) method_words.

(** the set [method_tags1] (or [method_tags2]) of [_calculate_method_similarity] *)
Definition method_tag_set (r : Recipe) : gset string :=
  list_to_set (filter (fun tag => is_method_tag tag = true) (default [] (tags r))).

(** the pairs [(val1, val2)] kept by the loop of
    [_calculate_nutrition_similarity] *)
Definition comparable_values (nutrition1 nutrition2 : gmap string Q) : list (Q * Q) :=
  filter (fun '(val1, val2) => (Qis_zero val1 && Qis_zero val2) = false)
         (map (fun nutrient =>
                 (default 0%Q (nutrition1 !! nutrient),
                  default 0%Q (nutrition2 !! nutrient)))
              key_nutrients).

(** [self.existing_recipes] and [self.recipe_index]; the TF-IDF vectors
    [_build_index] stores belong to scikit-learn and no score reads them *)
Record Detector := mkDetector {
  existing_recipes : list Recipe;
  recipe_index : gmap string Z
}.

(** [DuplicateDetector()] *)
Definition init : Detector := mkDetector [] ∅.

Definition measurement_words : list string :=
  ["cup"; "cups"; "tbsp"; "tsp"; "oz"; "lb"; "gram"; "ml"].

(** [_get_ingredient_text] *)
Definition _get_ingredient_text (r : Recipe) : string :=
  let ingredient_names :=
    filter (fun name => PyStr.truthy name = true)
           (map (fun ing =>
                   let name := PyStr.strip (PyStr.lower (ingredient_name ing)) in
                   let name :=
                     foldl (fun name word => PyStr.remove word name) name measurement_words in
                   let name := PyStr.filter_chars (fun c => negb (PyStr.is_digit c)) name in
                   PyStr.join " " (PyStr.split name))
                (default [] (ingredients r))) in
  PyStr.join " " ingredient_names.

(** the title index [_build_index] assigns: a later recipe replaces an
    earlier one of the same lower-cased title *)
Definition _build_index (recipes : list Recipe) : gmap string Z :=
  foldl (fun index '(i, recipe) =>
           <[PyStr.lower (default "" (title recipe)) := Z.of_nat i]> index)
        ∅ (imap pair recipes).

Section Index.

(** whether [TfidfVectorizer.fit_transform] returns on these texts;
    scikit-learn raises [ValueError] when tokenisation and stop-word removal
    leave no term *)
Variable vectorizer_fits : list string -> bool.

(** whether [_build_index] returns once it has assigned the title index *)
Definition _build_index_returns (recipes : list Recipe) : bool :=
  match recipes with
  | [] => true
  | _ =>
      let ingredient_texts := map _get_ingredient_text recipes in
      if existsb PyStr.truthy ingredient_texts
      then vectorizer_fits ingredient_texts
      else true
  end.

(** [add_recipe]: the detector afterwards and whether the call returned;
    every 50th recipe rebuilds the index, and a rebuild that raises leaves
    the recipe appended and the title index assigned *)
Definition add_recipe (d : Detector) (r : Recipe) : Detector * bool :=
  let recipes := existing_recipes d ++ [r] in
  let index :=
    <[PyStr.lower (default "" (title r)) := (Z.of_nat (length recipes) - 1)%Z]>
      (recipe_index d) in
  if (Z.of_nat (length recipes) mod 50 =? 0)%Z
  then (mkDetector recipes (_build_index recipes), _build_index_returns recipes)
  else (mkDetector recipes index, true).

(** [DuplicateDetector(existing_recipes)], [None] when the constructor raises *)
Definition make (existing : list Recipe) : option Detector :=
  if _build_index_returns existing
  then Some (mkDetector existing (_build_index existing))
  else None.

(** the detectors a run can hold *)
Inductive reachable : Detector -> Prop :=
| reachable_make existing d : make existing = Some d -> reachable d
| reachable_add d r : reachable d -> reachable (add_recipe d r).1.

End Index.

Section Scores.

Context {F : Type} {FA : FloatArith F}.

(** fuzzywuzzy's [fuzz.ratio], [fuzz.token_sort_ratio] and
    [fuzz.partial_ratio], integers from 0 to 100 *)
Variables fuzz_ratio fuzz_token_sort_ratio fuzz_partial_ratio
  : string -> string -> Z.

Definition f_of_Z (z : Z) : F := f_of_Q (inject_Z z).

(** [a / b] in Python, [None] for [ZeroDivisionError] *)
Definition py_truediv (a b : Z) : option F :=
  if (b =? 0)%Z then None else Some (f_div (f_of_Z a) (f_of_Z b)).

(** a float quotient, [None] when the divisor is zero *)
Definition checked_div (x y : F) : option F :=
  if f_is_zero y then None else Some (f_div x y).

Definition f_sum (l : list F) : F := foldl f_add (f_of_Q 0) l.

(** [_calculate_title_similarity] *)
Definition _calculate_title_similarity (title1 title2 : string) : option F :=
  let t1 := PyStr.lower title1 in
  let t2 := PyStr.lower title2 in
  basic_ratio ← py_truediv (fuzz_ratio t1 t2) 100;
  token_ratio ← py_truediv (fuzz_token_sort_ratio t1 t2) 100;
  partial_ratio ← py_truediv (fuzz_partial_ratio t1 t2) 100;
  Some (f_add (f_add (f_mul basic_ratio (f_of_Q (5 # 10)))
                     (f_mul token_ratio (f_of_Q (3 # 10))))
              (f_mul partial_ratio (f_of_Q (2 # 10)))).

(** [intersection / union if union > 0 else 0.0] *)
Definition jaccard (s1 s2 : gset string) : option F :=
  let intersection := Z.of_nat (size (s1 ∩ s2)) in
  let union := Z.of_nat (size (s1 ∪ s2)) in
  if (0 <? union)%Z then py_truediv intersection union else Some (f_of_Q 0).

(** [_calculate_ingredient_similarity] *)
Definition _calculate_ingredient_similarity (ingredients1 ingredients2 : list Ingredient)
  : option F :=
  let names1 := main_ingredient_set ingredients1 in
  let names2 := main_ingredient_set ingredients2 in
  if bool_decide (names1 = ∅) || bool_decide (names2 = ∅) then Some (f_of_Q 0)
  else jaccard names1 names2.

(** [arr / (np.linalg.norm(arr) + 1e-10)] *)
Definition normalize (arr : list F) : option (list F) :=
  let norm := f_sqrt (f_sum (map (fun x => f_mul x x) arr)) in
  let denominator := f_add norm (f_of_Q (1 # 10000000000)) in
  mapM (fun x => checked_div x denominator) arr.

(** [np.dot] *)
Definition dot (a b : list F) : F := f_sum (zip_with f_mul a b).

(** [_calculate_nutrition_similarity] *)
Definition _calculate_nutrition_similarity (nutrition1 nutrition2 : gmap string Q)
  : option F :=
  let values := comparable_values nutrition1 nutrition2 in
  let values1 := map fst values in
  let values2 := map snd values in
  match values1, values2 with
  | [], _ | _, [] => Some (f_of_Q 0)
  | _, _ =>
      norm1 ← normalize (map f_of_Q values1);
      norm2 ← normalize (map f_of_Q values2);
      Some (dot norm1 norm2)
  end.

(** [_calculate_method_similarity] *)
Definition _calculate_method_similarity (recipe1 recipe2 : Recipe) : option F :=
  let method_tags1 := method_tag_set recipe1 in
  let method_tags2 := method_tag_set recipe2 in
  if bool_decide (method_tags1 = ∅) || bool_decide (method_tags2 = ∅) then
    let time1 := total_time recipe1 in
    let time2 := total_time recipe2 in
    if (0 <? time1)%Z && (0 <? time2)%Z then
      time_diff ← py_truediv (Z.abs (time1 - time2)) (Z.max time1 time2);
      Some (f_sub (f_of_Q 1) time_diff)
    else Some (f_of_Q (5 # 10))
  else jaccard method_tags1 method_tags2.

Record Similarity := mkSimilarity {
  title_similarity : F;
  ingredient_similarity : F;
  nutrition_similarity : F;
  method_similarity : F;
  combined_score : F;
  is_duplicate : bool
}.

(** [calculate_similarity] *)
Definition calculate_similarity (recipe1 recipe2 : Recipe) : option Similarity :=
  title_sim ← _calculate_title_similarity (default "" (title recipe1))
                                          (default "" (title recipe2));
  ingredient_sim ← _calculate_ingredient_similarity
                     (default [] (ingredients recipe1))
                     (default [] (ingredients recipe2));
  nutrition_sim ← _calculate_nutrition_similarity
                    (default ∅ (nutrition recipe1))
                    (default ∅ (nutrition recipe2));
  method_sim ← _calculate_method_similarity recipe1 recipe2;
  let combined :=
    f_add (f_add (f_add (f_mul (f_of_Q weight_title) title_sim)
                        (f_mul (f_of_Q weight_ingredients) ingredient_sim))
                 (f_mul (f_of_Q weight_nutrition) nutrition_sim))
          (f_mul (f_of_Q weight_cooking_method) method_sim) in
  Some (mkSimilarity title_sim ingredient_sim nutrition_sim method_sim combined
                     (f_leb (f_of_Q combined_threshold) combined)).

(** an element of the list [find_duplicates] returns *)
Record Match := mkMatch {
  match_recipe : Recipe;
  match_similarity : Similarity;
  match_index : nat
}.

Fixpoint insert_match (m : Match) (l : list Match) : list Match :=
  match l with
  | [] => [m]
  | m' :: l' =>
      if f_leb (combined_score (match_similarity m'))
               (combined_score (match_similarity m))
      then m :: l
      else m' :: insert_match m l'
  end.

(** [duplicates.sort(key=combined_score, reverse=True)] *)
Definition sort_matches (l : list Match) : list Match :=
  fold_right insert_match [] l.

(** [find_duplicates], with the default threshold *)
Definition find_duplicates (d : Detector) (r : Recipe) : option (list Match) :=
  let recipe_title := PyStr.lower (default "" (title r)) in
  let potential_matches :=
    filter (fun '(_, existing) =>
              (70 <? fuzz_ratio recipe_title
                                (PyStr.lower (default "" (title existing))))%Z = true)
           (imap (fun i existing => (i, existing)) (existing_recipes d)) in
  scored ← mapM (fun '(idx, existing) =>
                   similarity ← calculate_similarity r existing;
                   Some (mkMatch existing similarity idx))
                potential_matches;
  Some (sort_matches
          (filter (fun m => f_leb (f_of_Q combined_threshold)
                                  (combined_score (match_similarity m)) = true)
                  scored)).

(** [find_near_duplicates_batch], with the default threshold: each recipe of
    the batch against the ones after it *)
Definition find_near_duplicates_batch (recipes : list Recipe)
  : option (gmap string (list Match)) :=
  foldl (fun acc '(i, recipe1) =>
           near_duplicates ← acc;
           scored ← mapM (fun '(j, recipe2) =>
                            similarity ← calculate_similarity recipe1 recipe2;
                            Some (mkMatch recipe2 similarity j))
                         (imap (fun k recipe2 => ((i + 1 + k)%nat, recipe2))
                               (drop (i + 1) recipes));
           let duplicates :=
             filter (fun m => f_leb (f_of_Q combined_threshold)
                                    (combined_score (match_similarity m)) = true)
                    scored in
           Some (match duplicates with
                 | [] => near_duplicates
                 | _ => <[default "Unknown" (title recipe1) := duplicates]> near_duplicates
                 end))
        (Some ∅) (imap pair recipes).

End Scores.

End DuplicateDetector.


(** ** enhanced_recipe_scraper.py *)

Module Orchestrator.

(** [self.stats] *)
Record ScraperStats := mkScraperStats {
  total_scraped : Z;
  passed_validation : Z;
  failed_validation : Z;
  duplicates_found : Z;
  saved_to_firebase : Z;
  errors : Z
}.

(** the components [EnhancedRecipeScraper] owns and [process_recipe] uses *)
Record State := mkState {
  quality_validator : QualityValidator.ValidationStats;
  recipe_enricher : RecipeEnricher.EnrichmentStats;
  diversity_tracker : DiversityTracker.Tracker;
  duplicate_detector : DuplicateDetector.Detector;
  scraper_stats : ScraperStats
}.

Definition init : State :=
  mkState QualityValidator.initial_stats RecipeEnricher.initial_stats
          DiversityTracker.init DuplicateDetector.init
          (mkScraperStats 0 0 0 0 0 0).

(** the dict with the six keys the orchestrator writes set to the given values *)
Definition annotate (r : Recipe) (pd : option bool) (dof : option string)
    (su : option bool) (sr : option (list string)) (sc : option string)
    (vs : option (bool * list ValidationMsg)) : Recipe :=
  {| title := title r; description := description r;
     ingredients := ingredients r; instructions := instructions r;
     nutrition := nutrition r; prepTime := prepTime r; cookTime := cookTime r;
     tags := tags r; sourceSite := sourceSite r; cuisine := cuisine r;
     seasonalTags := seasonalTags r;
     trimesterSuitability := trimesterSuitability r;
     batchFriendly := batchFriendly r; freezerFriendly := freezerFriendly r;
     shoppingList := shoppingList r; cookingMethods := cookingMethods r;
     timeCategory := timeCategory r;
     potentialDuplicate := pd; duplicateOf := dof;
     surplus := su; surplusReasons := sr;
     scraper := sc; validationStatus := vs |}.

(** [stats[key] += 1] for the three counters [process_recipe] bumps on its
    early exits *)
Definition count_failed (st : ScraperStats) : ScraperStats :=
  mkScraperStats (total_scraped st) (passed_validation st)
                 (failed_validation st + 1) (duplicates_found st)
                 (saved_to_firebase st) (errors st).

Definition count_duplicate (st : ScraperStats) : ScraperStats :=
  mkScraperStats (total_scraped st) (passed_validation st)
                 (failed_validation st) (duplicates_found st + 1)
                 (saved_to_firebase st) (errors st).

Definition count_error (st : ScraperStats) : ScraperStats :=
  mkScraperStats (total_scraped st) (passed_validation st)
                 (failed_validation st) (duplicates_found st)
                 (saved_to_firebase st) (errors st + 1).

Definition count_passed (st : ScraperStats) : ScraperStats :=
  mkScraperStats (total_scraped st) (passed_validation st + 1)
                 (failed_validation st) (duplicates_found st)
                 (saved_to_firebase st) (errors st).

Section Pipeline.

Context {F : Type} {FA : FloatArith F}.
Variables fuzz_ratio fuzz_token_sort_ratio fuzz_partial_ratio
  : string -> string -> Z.
Variable vectorizer_fits : list string -> bool.

(** Step 2 of [process_recipe]: the recipe as flagged and the statistics, or
    [None] when the step raises (a score that cannot be computed, or a best
    match without a title). *)
Definition flag_duplicates (d : DuplicateDetector.Detector) (st : ScraperStats)
    (recipe : Recipe) : ScraperStats * option Recipe :=
  match DuplicateDetector.find_duplicates
          fuzz_ratio fuzz_token_sort_ratio fuzz_partial_ratio d recipe with
  | None => (st, None)
  | Some [] => (st, Some recipe)
  | Some (best :: _) =>
      let st := count_duplicate st in
      match title (DuplicateDetector.match_recipe best) with
      | None => (st, None)
      | Some t =>
          (st, Some (annotate recipe (Some true) (Some t)
                              (surplus recipe) (surplusReasons recipe)
                              (scraper recipe) (validationStatus recipe)))
      end
  end.

(** [process_recipe]: the state afterwards and the processed recipe, [None]
    when the recipe is rejected or a step raised.  The duplicate detector's
    [add_recipe] comes last: when its rebuild raises, the recipe is already
    counted as passed, enriched, tracked and indexed, and the [except]
    branch counts an error and returns nothing.  Step 5 (image download)
    reads and writes only image keys, which the record does not carry. *)
Definition process_recipe (s : State) (recipe : Recipe) (source : string)
  : State * option Recipe :=
  (* 1 *)
  let '(vstats, (is_valid, _, warnings)) :=
    QualityValidator.validate_recipe (quality_validator s) recipe in
  if negb is_valid then
    (mkState vstats (recipe_enricher s) (diversity_tracker s) (duplicate_detector s)
             (count_failed (scraper_stats s)), None)
  else
    (* 2 *)
    match flag_duplicates (duplicate_detector s) (scraper_stats s) recipe with
    | (st, None) =>
        (mkState vstats (recipe_enricher s) (diversity_tracker s)
                 (duplicate_detector s) (count_error st), None)
    | (st, Some recipe) =>
        (* 3 *)
        let outcome := RecipeEnricher.enrich_recipe (recipe_enricher s) recipe in
        let enriched_recipe := RecipeEnricher.enriched outcome in
        (* 4 *)
        let '(tracker, (should_add, reasons)) :=
          DiversityTracker.add_recipe (diversity_tracker s) enriched_recipe in
        let enriched_recipe :=
          if should_add then enriched_recipe
          else annotate enriched_recipe
                        (potentialDuplicate enriched_recipe) (duplicateOf enriched_recipe)
                        (Some true) (Some reasons)
                        (scraper enriched_recipe) (validationStatus enriched_recipe) in
        (* 6 *)
        let enriched_recipe :=
          annotate enriched_recipe
                   (potentialDuplicate enriched_recipe) (duplicateOf enriched_recipe)
                   (surplus enriched_recipe) (surplusReasons enriched_recipe)
                   (Some source) (Some (is_valid, warnings)) in
        let st := count_passed st in
        let '(detector, returned) :=
          DuplicateDetector.add_recipe vectorizer_fits (duplicate_detector s)
                                       enriched_recipe in
        if returned then
          (mkState vstats (RecipeEnricher.stats_after outcome) tracker detector st,
           Some enriched_recipe)
        else
          (mkState vstats (RecipeEnricher.stats_after outcome) tracker detector
                   (count_error st),
           None)
    end.

(** the states a session can hold: the fresh one and those
    [process_recipe] leaves *)
Inductive reachable : State -> Prop :=
| reachable_init : reachable init
| reachable_process s recipe source :
    reachable s -> reachable (process_recipe s recipe source).1.

End Pipeline.

End Orchestrator.


(** ** The title ratios of fuzzywuzzy

    [fuzz.ratio], [fuzz.token_sort_ratio] and [fuzz.partial_ratio] as
    fuzzywuzzy 0.18 computes them with the pure-Python matcher, CPython's
    [difflib.SequenceMatcher], which the package falls back to when
    python-Levenshtein is not installed. *)

Module FuzzyWuzzy.

(** *** difflib.SequenceMatcher(None, a, b) *)

(** [__chain_b]: with [autojunk], an element of a [b] of 200 or more
    elements is dropped from [b2j] when it fills more than 1% of [b], plus one *)
Definition popular (b : list ascii) (c : ascii) : bool :=
  let n := length b in
  (200 <=? n)%nat && (n / 100 + 1 <? count_occ ascii_dec b c)%nat.

(** a block [(i, j, k)]: [a[i:i+k] == b[j:j+k]] *)
Definition Block : Type := nat * nat * nat.

(** [newj2len] for one [i], as the list of its values at [j], [j+1], ...;
    [prev] is [j2len.get(j-1, 0)] and [old] is [j2len] from [j] on *)
Fixpoint new_row (b_all : list ascii) (blo bhi : nat) (a_i : ascii) (j : nat)
    (b : list ascii) (prev : nat) (old : list nat) : list nat :=
  match b with
  | [] => []
  | c :: b' =>
      let k :=
        if Ascii.eqb a_i c && (blo <=? j)%nat && (j <? bhi)%nat && negb (popular b_all c)
        then S prev else 0%nat in
      k :: new_row b_all blo bhi a_i (S j) b' (hd 0%nat old) (tl old)
  end.

(** the update of [besti, bestj, bestsize] along one row *)
Fixpoint best_of_row (i j : nat) (row : list nat) (best : Block) : Block :=
  match row with
  | [] => best
  | k :: row' =>
      let best :=
        if (best.2 <? k)%nat then ((i + 1 - k)%nat, (j + 1 - k)%nat, k) else best in
      best_of_row i (S j) row' best
  end.

(** the loop over [i] in [range(alo, ahi)] *)
Fixpoint scan (b : list ascii) (alo ahi blo bhi : nat) (i : nat) (a : list ascii)
    (j2len : list nat) (best : Block) : Block :=
  match a with
  | [] => best
  | a_i :: a' =>
      if (alo <=? i)%nat && (i <? ahi)%nat then
        let row := new_row b blo bhi a_i 0 b 0%nat j2len in
        scan b alo ahi blo bhi (S i) a' row (best_of_row i 0 row best)
      else scan b alo ahi blo bhi (S i) a' j2len best
  end.

(** the first [while]: the match is extended to the left *)
Fixpoint extend_left (fuel : nat) (a b : list ascii) (alo blo : nat) (best : Block)
  : Block :=
  match fuel with
  | O => best
  | S fuel' =>
      let '(besti, bestj, bestsize) := best in
      if (alo <? besti)%nat && (blo <? bestj)%nat
         && bool_decide (is_Some (a !! (besti - 1)%nat)
                         /\ a !! (besti - 1)%nat = b !! (bestj - 1)%nat)
      then extend_left fuel' a b alo blo ((besti - 1)%nat, (bestj - 1)%nat, S bestsize)
      else best
  end.

(** the second [while]: the match is extended to the right *)
Fixpoint extend_right (fuel : nat) (a b : list ascii) (ahi bhi : nat) (best : Block)
  : Block :=
  match fuel with
  | O => best
  | S fuel' =>
      let '(besti, bestj, bestsize) := best in
      if (besti + bestsize <? ahi)%nat && (bestj + bestsize <? bhi)%nat
         && bool_decide (is_Some (a !! (besti + bestsize)%nat)
                         /\ a !! (besti + bestsize)%nat = b !! (bestj + bestsize)%nat)
      then extend_right fuel' a b ahi bhi (besti, bestj, S bestsize)
      else best
  end.

(** [find_longest_match(alo, ahi, blo, bhi)]; no element is junk, so the two
    last [while] loops do nothing *)
Definition find_longest_match (a b : list ascii) (alo ahi blo bhi : nat) : Block :=
  let best := scan b alo ahi blo bhi 0 a (map (fun _ => 0%nat) b) (alo, blo, 0%nat) in
  let best := extend_left (length a) a b alo blo best in
  extend_right (length a) a b ahi bhi best.

(** the [while queue] loop of [get_matching_blocks]; the head of the list is
    the end of the Python list, and the loop ends within two turns per
    element of [a], plus one *)
Fixpoint blocks_loop (fuel : nat) (a b : list ascii)
    (queue : list (nat * nat * nat * nat)) (matching_blocks : list Block)
  : list Block :=
  match fuel with
  | O => matching_blocks
  | S fuel' =>
      match queue with
      | [] => matching_blocks
      | (alo, ahi, blo, bhi) :: queue =>
          let '(i, j, k) := find_longest_match a b alo ahi blo bhi in
          match k with
          | O => blocks_loop fuel' a b queue matching_blocks
          | _ =>
              let queue :=
                if (alo <? i)%nat && (blo <? j)%nat then (alo, i, blo, j) :: queue
                else queue in
              let queue :=
                if (i + k <? ahi)%nat && (j + k <? bhi)%nat
                then ((i + k)%nat, ahi, (j + k)%nat, bhi) :: queue
                else queue in
              blocks_loop fuel' a b queue (matching_blocks ++ [(i, j, k)])
          end
      end
  end.

(** the order of tuples *)
Definition block_leb (x y : Block) : bool :=
  let '(i1, j1, k1) := x in
  let '(i2, j2, k2) := y in
  (i1 <? i2)%nat
  || ((i1 =? i2)%nat && ((j1 <? j2)%nat || ((j1 =? j2)%nat && (k1 <=? k2)%nat))).

Fixpoint insert_block (x : Block) (l : list Block) : list Block :=
  match l with
  | [] => [x]
  | y :: l' => if block_leb x y then x :: l else y :: insert_block x l'
  end.

(** [matching_blocks.sort()] *)
Definition sort_blocks (l : list Block) : list Block := fold_right insert_block [] l.

(** the loop that merges adjacent blocks: the blocks added so far and the
    pending [(i1, j1, k1)] *)
Definition collapse (l : list Block) : list Block :=
  let '(non_adjacent, (i1, j1, k1)) :=
    foldl (fun '(non_adjacent, (i1, j1, k1)) '(i2, j2, k2) =>
             if (i1 + k1 =? i2)%nat && (j1 + k1 =? j2)%nat
             then (non_adjacent, (i1, j1, (k1 + k2)%nat))
             else ((match k1 with
                    | O => non_adjacent
                    | _ => non_adjacent ++ [(i1, j1, k1)]
                    end),
                   (i2, j2, k2)))
          ([], (0%nat, 0%nat, 0%nat)) l in
  match k1 with
  | O => non_adjacent
  | _ => non_adjacent ++ [(i1, j1, k1)]
  end.

(** [get_matching_blocks()] *)
Definition get_matching_blocks (a b : list ascii) : list Block :=
  let la := length a in
  let lb := length b in
  let matching_blocks := blocks_loop (2 * la + 2) a b [(0%nat, la, 0%nat, lb)] [] in
  collapse (sort_blocks matching_blocks) ++ [(la, lb, 0%nat)].

(** [ratio()]: [2.0 * matches / length], or 1.0 for two empty sequences;
    the float quotient is within one rounding of this exact one *)
Definition matcher_ratio (a b : list ascii) : Q :=
  let matches := foldr (fun '(_, _, k) n => (k + n)%nat) 0%nat (get_matching_blocks a b) in
  let length := (length a + length b)%nat in
  match length with
  | O => 1
  | _ => (2 * inject_Z (Z.of_nat matches) / inject_Z (Z.of_nat length))%Q
  end.

(** *** fuzzywuzzy.fuzz *)

(** [utils.intr]: [int(round(n))], to the nearest integer and to the even
    one of two nearest *)
Definition intr (n : Q) : Z :=
  let lower := (Qnum n / Z.pos (Qden n))%Z in
  let twice_rest := (2 * (Qnum n - lower * Z.pos (Qden n)))%Z in
  match (twice_rest ?= Z.pos (Qden n))%Z with
  | Lt => lower
  | Gt => (lower + 1)%Z
  | Eq => if Z.even lower then lower else (lower + 1)%Z
  end.

(** [fuzz.ratio], under [check_for_equivalence] and [check_empty_string] *)
Definition ratio (s1 s2 : string) : Z :=
  if String.eqb s1 s2 then 100%Z
  else if negb (PyStr.truthy s1) || negb (PyStr.truthy s2) then 0%Z
  else intr (100 * matcher_ratio (list_ascii_of_string s1) (list_ascii_of_string s2)).

(** the scores of the blocks in [partial_ratio], [None] once one of them
    exceeds 0.995 *)
Fixpoint block_scores (shorter longer : list ascii) (blocks : list Block)
  : option (list Q) :=
  match blocks with
  | [] => Some []
  | (i, j, _) :: blocks' =>
      let long_start := (j - i)%nat in
      let long_substr := take (length shorter) (drop long_start longer) in
      let r := matcher_ratio shorter long_substr in
      if Qltb (995 # 1000) r then None
      else option_map (cons r) (block_scores shorter longer blocks')
  end.

(** [fuzz.partial_ratio] *)
Definition partial_ratio (s1 s2 : string) : Z :=
  if String.eqb s1 s2 then 100%Z
  else if negb (PyStr.truthy s1) || negb (PyStr.truthy s2) then 0%Z
  else
    let a := list_ascii_of_string s1 in
    let b := list_ascii_of_string s2 in
    let '(shorter, longer) := if (length a <=? length b)%nat then (a, b) else (b, a) in
    match block_scores shorter longer (get_matching_blocks shorter longer) with
    | None => 100%Z
    | Some scores =>
        intr (100 * foldr (fun r best => if Qltb best r then r else best) 0%Q scores)
    end.

(** the characters [\W] does not match *)
Definition is_word_char (c : ascii) : bool :=
  let n := nat_of_ascii c in
  ((48 <=? n)%nat && (n <=? 57)%nat) || ((65 <=? n)%nat && (n <=? 90)%nat)
  || ((97 <=? n)%nat && (n <=? 122)%nat) || (n =? 95)%nat.

Fixpoint map_chars (f : ascii -> ascii) (s : string) : string :=
  match s with
  | EmptyString => EmptyString
  | String c s' => String (f c) (map_chars f s')
  end.

(** [utils.full_process(s, force_ascii=True)] *)
Definition full_process (s : string) : string :=
  let s := PyStr.filter_chars (fun c => (nat_of_ascii c <? 128)%nat) s in
  let s := map_chars (fun c => if is_word_char c then c else " "%char) s in
  PyStr.strip (PyStr.lower s).

(** [_process_and_sort] *)
Definition _process_and_sort (s : string) : string :=
  PyStr.strip (PyStr.join " " (PyStr.sorted (PyStr.split (full_process s)))).

(** [fuzz.token_sort_ratio] *)
Definition token_sort_ratio (s1 s2 : string) : Z :=
  ratio (_process_and_sort s1) (_process_and_sort s2).

End FuzzyWuzzy.

(** * Properties *)

(** an ingredient given by its name alone *)
Definition ing (n : string) : Ingredient := mkIngredient (Some n) None None.

Lemma Qltb_lt x y : Qltb x y = true <-> (x < y)%Q.
Proof.
  unfold Qltb. rewrite negb_true_iff, <- not_true_iff_false, Qle_bool_iff.
  split; [apply Qnot_le_lt | apply Qlt_not_le].
Qed.

Lemma mem_true_elem_of x l : PyStr.mem x l = true -> x ∈ l.
Proof. unfold PyStr.mem. apply bool_decide_eq_true_1. Qed.

Lemma mem_false_not_elem_of x l : PyStr.mem x l = false -> x ∉ l.
Proof. unfold PyStr.mem. apply bool_decide_eq_false_1. Qed.

Module ValidatorProperties.
Import QualityValidator.

(** Scenario A, with every required field in place *)
Definition scenario_A : Recipe :=
  mkRecipe (Some "Berry Oat Bowl") None
    (Some [ing "rolled oats"; ing "milk"; ing "berries"])
    (Some ["Soak the oats overnight"; "Top with berries"])
    (Some (list_to_map [("calories", 300%Q); ("carbs", 35%Q); ("fiber", 4%Q);
                        ("protein", 12%Q)]))
    (Some 10%Z) (Some 10%Z) (Some ["breakfast"]) None
    None None None None None None None None None None None None None None.

(** a candidate without ingredients whose instructions mention "fresh" *)
Definition no_ingredients_fresh : Recipe :=
  mkRecipe (Some "Garden Plate") None (Some [])
    (Some ["Serve fresh"]) None None None None None
    None None None None None None None None None None None None None None.

(** the blocking errors of [validate], step by step *)
Lemma validate_errors r :
  (validate r).1.2
  = (_validate_required_fields r
     ++ (_validate_nutrition (default ∅ (nutrition r))
                             (guidelines_for (_determine_meal_type r))).1)
    ++ match _estimate_glycemic_index r with
       | GI_is_high => [GlycemicIndexHigh]
       | _ => []
       end.
Proof.
  unfold validate.
  destruct (_validate_nutrition _ _) as [nerrs nwarns]. cbn [fst snd].
  destruct (_estimate_glycemic_index r); rewrite ?app_nil_r; reflexivity.
Qed.

Lemma validate_passed r : (validate r).1.1 = true <-> (validate r).1.2 = [].
Proof.
  unfold validate.
  destruct (_validate_nutrition _ _) as [nerrs nwarns]. cbn [fst snd].
  destruct (match _estimate_glycemic_index r with GI_is_high => _ | _ => _ end);
    split; congruence.
Qed.

(** Scenario A of C4 evaluated: the breakfast candidate with carbs 35,
    fiber 4, protein 12 and 20 minutes is rejected, its only blocking error
    being the fiber minimum of meals. *)
Lemma scenario_A_is_rejected :
  PyStr.mem "breakfast" (default [] (tags scenario_A)) = true
  /\ nutrition_get scenario_A "carbs" 0 = 35%Q
  /\ nutrition_get scenario_A "fiber" 0 = 4%Q
  /\ nutrition_get scenario_A "protein" 0 = 12%Q
  /\ total_time scenario_A = 20%Z
  /\ _validate_required_fields scenario_A = []
  /\ validate scenario_A
     = (false, [FiberTooLow 4 5], [ProteinLow 12 15; ContainsAllergens ["dairy"]]).
Proof. repeat split; vm_compute; reflexivity. Qed.

(** C4 (amended): every candidate tagged breakfast with carbs 35 g, fiber
    4 g, protein 12 g and a total time of 20 minutes fails validation; when
    it is not tagged snack or appetizer it is gated as a meal, the nutrition
    gate reports exactly the fiber error (4 g is below the minimum of 5 g),
    and that error is among the blocking errors. *)
Theorem scenario_A_fiber_gate r n :
  "breakfast" ∈ default [] (tags r) ->
  nutrition r = Some n ->
  n !! "carbs" = Some 35%Q -> n !! "fiber" = Some 4%Q -> n !! "protein" = Some 12%Q ->
  total_time r = 20%Z ->
  (validate r).1.1 = false
  /\ ("snack" ∉ default [] (tags r) -> "appetizer" ∉ default [] (tags r) ->
      _determine_meal_type r = "meals"
      /\ (_validate_nutrition n meals_guidelines).1 = [FiberTooLow 4 5]
      /\ FiberTooLow 4 5 ∈ (validate r).1.2).
Proof.
  intros Hbreakfast Hn Hcarbs Hfiber Hprotein _.
  assert (Hmeals : (_validate_nutrition n meals_guidelines).1 = [FiberTooLow 4 5]).
  { unfold _validate_nutrition. cbn [fst]. rewrite Hcarbs, Hfiber. reflexivity. }
  assert (Hsnacks : (_validate_nutrition n snacks_guidelines).1 = [CarbsTooHigh 35 30]).
  { unfold _validate_nutrition. cbn [fst]. rewrite Hcarbs, Hfiber. reflexivity. }
  assert (Hnutrition : default ∅ (nutrition r) = n) by (rewrite Hn; reflexivity).
  assert (Htype : _determine_meal_type r
                  = if PyStr.mem "snack" (default [] (tags r))
                       || PyStr.mem "appetizer" (default [] (tags r))
                    then "snacks" else "meals").
  { unfold _determine_meal_type.
    destruct (PyStr.mem "snack" _ || PyStr.mem "appetizer" _); [reflexivity |].
    cbn [existsb]. unfold PyStr.mem at 1.
    rewrite (bool_decide_eq_true_2 _ Hbreakfast). reflexivity. }
  split.
  - apply not_true_is_false. intros Hpass. apply validate_passed in Hpass.
    rewrite validate_errors, Hnutrition, Htype in Hpass.
    apply app_eq_nil in Hpass. destruct Hpass as [Hpass _].
    apply app_eq_nil in Hpass. destruct Hpass as [_ Hpass].
    destruct (PyStr.mem "snack" _ || PyStr.mem "appetizer" _).
    + change (guidelines_for "snacks") with snacks_guidelines in Hpass. congruence.
    + change (guidelines_for "meals") with meals_guidelines in Hpass. congruence.
  - intros Hsnack Happetizer.
    assert (Hmeal : _determine_meal_type r = "meals").
    { rewrite Htype. unfold PyStr.mem.
      rewrite (bool_decide_eq_false_2 _ Hsnack), (bool_decide_eq_false_2 _ Happetizer).
      reflexivity. }
    split; [exact Hmeal |]. split; [exact Hmeals |].
    rewrite validate_errors, Hnutrition, Hmeal.
    change (guidelines_for "meals") with meals_guidelines. rewrite Hmeals.
    apply elem_of_app. left. apply elem_of_app. right.
    apply list_elem_of_singleton. reflexivity.
Qed.

Lemma scenario_A_fiber_gate_witness :
  (validate scenario_A).1.1 = false /\ FiberTooLow 4 5 ∈ (validate scenario_A).1.2.
Proof.
  destruct (scenario_A_fiber_gate scenario_A
              (list_to_map [("calories", 300%Q); ("carbs", 35%Q); ("fiber", 4%Q);
                            ("protein", 12%Q)]))
    as [Hrejected Hfiber];
    [apply mem_true_elem_of; vm_compute; reflexivity | reflexivity | vm_compute; reflexivity
    | vm_compute; reflexivity | vm_compute; reflexivity | vm_compute; reflexivity |].
  split; [exact Hrejected |].
  apply Hfiber; apply mem_false_not_elem_of; vm_compute; reflexivity.
Defined.

(** *** Glycemic index *)

(** The estimate of C5 evaluated without ingredients: the instructions
    mention "fresh", the counts of the rule are (1, 0, 0) and its bucket is
    low, yet the validator answers unknown. *)
Lemma estimate_without_ingredients :
  spec_gi_counts [] ["Serve fresh"] = (1, 0, 0)%Z
  /\ spec_estimate_gi [] ["Serve fresh"] = GI_is_low
  /\ _estimate_glycemic_index no_ingredients_fresh = GI_is_unknown.
Proof. repeat split; vm_compute; reflexivity. Qed.

Lemma count_in_nonneg keywords text : (0 <= PyStr.count_in keywords text)%Z.
Proof. unfold PyStr.count_in. lia. Qed.

(** the comparison of the score with a bound, on the integers *)
Lemma score_le (n : Z) (t p q : positive) :
  Qle_bool (inject_Z n / inject_Z (Z.pos t)) (Z.pos p # q)
  = (n * Z.pos q <=? Z.pos p * Z.pos t)%Z.
Proof.
  apply eq_true_iff_eq. rewrite Qle_bool_iff, Z.leb_le.
  unfold Qle, Qdiv, Qmult, Qinv, inject_Z. cbn [Qnum Qden]. lia.
Qed.

(** the bucket of a weighted sum over a total, without any quotient *)
Definition bucket (weighted total : Z) : GI :=
  if (total =? 0)%Z then GI_is_unknown
  else if (2 * weighted <=? 3 * total)%Z then GI_is_low
  else if (2 * weighted <=? 5 * total)%Z then GI_is_medium
  else GI_is_high.

Lemma bucket_of_score (low medium high : Z) (p1 p2 : positive * positive) :
  (0 <= low)%Z -> (0 <= medium)%Z -> (0 <= high)%Z ->
  (Z.pos p1.1 * 2 = 3 * Z.pos p1.2)%Z -> (Z.pos p2.1 * 2 = 5 * Z.pos p2.2)%Z ->
  (let total := (low + medium + high)%Z in
   if (total =? 0)%Z then GI_is_unknown
   else
     let score := (inject_Z (low * 1 + medium * 2 + high * 3) / inject_Z total)%Q in
     if Qle_bool score (Z.pos p1.1 # p1.2) then GI_is_low
     else if Qle_bool score (Z.pos p2.1 # p2.2) then GI_is_medium
     else GI_is_high)
  = bucket (low + 2 * medium + 3 * high) (low + medium + high).
Proof.
  intros Hl Hm Hh H1 H2. cbv zeta. unfold bucket.
  destruct (low + medium + high)%Z as [| t | t] eqn:Et; [reflexivity | | lia].
  cbn [Z.eqb]. rewrite !score_le.
  replace (_ <=? Z.pos p1.1 * _)%Z with (2 * (low + 2 * medium + 3 * high) <=? 3 * Z.pos t)%Z
    by (apply eq_true_iff_eq; rewrite !Z.leb_le; nia).
  replace (_ <=? Z.pos p2.1 * _)%Z with (2 * (low + 2 * medium + 3 * high) <=? 5 * Z.pos t)%Z
    by (apply eq_true_iff_eq; rewrite !Z.leb_le; nia).
  reflexivity.
Qed.

Lemma spec_gi_counts_nonneg ings instrs :
  let '(low, medium, high) := spec_gi_counts ings instrs in
  (0 <= low)%Z /\ (0 <= medium)%Z /\ (0 <= high)%Z.
Proof.
  unfold spec_gi_counts. cbv zeta.
  pose proof (count_in_nonneg GI_low (names_text ings)).
  pose proof (count_in_nonneg GI_medium (names_text ings)).
  pose proof (count_in_nonneg GI_high (names_text ings)).
  repeat split; try assumption; destruct (PyStr.any_in _ _); lia.
Qed.

Lemma spec_estimate_bucket ings instrs :
  spec_estimate_gi ings instrs
  = let '(low, medium, high) := spec_gi_counts ings instrs in
    bucket (low + 2 * medium + 3 * high) (low + medium + high).
Proof.
  unfold spec_estimate_gi. pose proof (spec_gi_counts_nonneg ings instrs) as Hnn.
  destruct (spec_gi_counts ings instrs) as [[low medium] high].
  destruct Hnn as (Hl & Hm & Hh).
  apply (bucket_of_score low medium high (3, 2)%positive (5, 2)%positive); auto.
Qed.

Lemma estimate_bucket r :
  default [] (ingredients r) <> [] ->
  _estimate_glycemic_index r
  = let '(low, medium, high) :=
      spec_gi_counts (default [] (ingredients r)) (default [] (instructions r)) in
    bucket (low + 2 * medium + 3 * high) (low + medium + high).
Proof.
  intros Hne. unfold _estimate_glycemic_index.
  pose proof (spec_gi_counts_nonneg (default [] (ingredients r))
                                    (default [] (instructions r))) as Hnn.
  destruct (default [] (ingredients r)) as [| i l]; [congruence |].
  unfold spec_gi_counts in *. cbv zeta in *.
  cbn [PyStr.any_in existsb] in *. rewrite !orb_false_r in *.
  rewrite (orb_comm (PyStr.contains "deep fry" _)).
  set (names := names_text (i :: l)) in *.
  set (text := PyStr.lower (PyStr.join " " (default [] (instructions r)))) in *.
  destruct Hnn as (Hl & Hm & Hh).
  destruct (PyStr.contains "raw" text || PyStr.contains "fresh" text);
    destruct (PyStr.contains "fried" text || PyStr.contains "deep fry" text);
    rewrite ?Z.add_0_r in *;
    apply (bucket_of_score _ _ _ (15, 10)%positive (25, 10)%positive); auto.
Qed.

(** C5 (amended): without ingredients the estimate is unknown, whatever the
    instructions say; with at least one ingredient it is the estimate of the
    rule: unknown exactly when the three counts sum to zero, low when
    (low*1 + medium*2 + high*3)/total <= 1.5, medium when the quotient is
    above 1.5 and at most 2.5, high above 2.5 (comparisons shown on the
    integers, doubled). *)
Theorem estimate_glycemic_index_rule r :
  let ings := default [] (ingredients r) in
  let instrs := default [] (instructions r) in
  (ings = [] -> _estimate_glycemic_index r = GI_is_unknown)
  /\ (ings <> [] ->
      _estimate_glycemic_index r = spec_estimate_gi ings instrs
      /\ let '(low, medium, high) := spec_gi_counts ings instrs in
         let total := (low + medium + high)%Z in
         let weighted := (low * 1 + medium * 2 + high * 3)%Z in
         (_estimate_glycemic_index r = GI_is_unknown <-> total = 0%Z)
         /\ (_estimate_glycemic_index r = GI_is_low
             <-> total <> 0%Z /\ (2 * weighted <= 3 * total)%Z)
         /\ (_estimate_glycemic_index r = GI_is_medium
             <-> (3 * total < 2 * weighted <= 5 * total)%Z)
         /\ (_estimate_glycemic_index r = GI_is_high
             <-> (5 * total < 2 * weighted)%Z)).
Proof.
  intros ings instrs. split.
  - intros Hempty. unfold _estimate_glycemic_index. fold ings. rewrite Hempty. reflexivity.
  - intros Hne. split.
    + rewrite spec_estimate_bucket. apply estimate_bucket, Hne.
    + rewrite (estimate_bucket r Hne). fold ings instrs.
      pose proof (spec_gi_counts_nonneg ings instrs) as Hnn.
      destruct (spec_gi_counts ings instrs) as [[low medium] high].
      destruct Hnn as (Hl & Hm & Hh). cbv zeta. unfold bucket.
      destruct (Z.eqb_spec (low + medium + high) 0) as [Hz | Hz].
      { repeat split; try discriminate; try tauto; try lia. }
      destruct (Z.leb_spec (2 * (low + 2 * medium + 3 * high)) (3 * (low + medium + high))).
      { repeat split; try discriminate; try tauto; try lia. }
      destruct (Z.leb_spec (2 * (low + 2 * medium + 3 * high)) (5 * (low + medium + high)));
        repeat split; try discriminate; try tauto; try lia.
Qed.

Lemma estimate_glycemic_index_rule_witness :
  _estimate_glycemic_index scenario_A = spec_estimate_gi
    [ing "rolled oats"; ing "milk"; ing "berries"]
    ["Soak the oats overnight"; "Top with berries"]
  /\ _estimate_glycemic_index no_ingredients_fresh = GI_is_unknown.
Proof.
  split.
  - destruct (estimate_glycemic_index_rule scenario_A) as [_ Hsome].
    destruct Hsome as [Heq _]; [discriminate | exact Heq].
  - destruct (estimate_glycemic_index_rule no_ingredients_fresh) as [Hnone _].
    apply Hnone. reflexivity.
Defined.

End ValidatorProperties.

Module EnricherProperties.
Import RecipeEnricher.

(** the sample of [example_usage.py], tagged for lunch *)
Definition chickpea_salad : Recipe :=
  mkRecipe (Some "Mediterranean Chickpea Salad")
    (Some "A fresh summer salad with Mediterranean flavors")
    (Some [ing "chickpeas"; ing "cucumber"; ing "tomatoes"; ing "feta cheese";
           ing "olive oil"; ing "lemon juice"])
    (Some ["Combine all ingredients"; "Toss with dressing"; "Chill and serve"])
    (Some (list_to_map [("calories", 280%Q); ("carbs", 35%Q); ("protein", 12%Q);
                        ("fat", 10%Q); ("fiber", 8%Q)]))
    None None (Some ["lunch"]) None
    None None None None None None None None None None None None None None.

(** a candidate whose nutrition has no carbs entry *)
Definition fatty_no_carbs : Recipe :=
  mkRecipe (Some "Avocado Egg Bowl") None
    (Some [ing "avocado"; ing "eggs"; ing "olive oil"])
    (Some ["Halve the avocado"; "Top with eggs"])
    (Some (list_to_map [("calories", 320%Q); ("fat", 28%Q); ("protein", 14%Q)]))
    (Some 5%Z) (Some 5%Z) (Some ["breakfast"]) None
    None None None None None None None None None None None None None None.

(** C8 (evaluation at the failing input): enriching the sample salad, whose
    tags are [lunch], leaves the caller's dict with the tags [lunch; summer;
    cuisine-mediterranean; 15-min-meals; whole30-compatible]: the input does
    not compare equal to its value before the call. *)
Theorem enrich_recipe_extends_input_tags :
  tags chickpea_salad = Some ["lunch"]
  /\ tags (input_after (enrich_recipe initial_stats chickpea_salad))
     = Some ["lunch"; "summer"; "cuisine-mediterranean"; "15-min-meals";
             "whole30-compatible"]
  /\ input_after (enrich_recipe initial_stats chickpea_salad) <> chickpea_salad.
Proof.
  split; [reflexivity |]. split; [vm_compute; reflexivity |].
  intros Heq. apply (f_equal tags) in Heq. vm_compute in Heq. discriminate.
Qed.

(** a dict without the key gets a list of its own and stays as it was *)
Lemma enrich_recipe_without_tags es r :
  tags r = None -> input_after (enrich_recipe es r) = r.
Proof.
  intros Hnone. unfold enrich_recipe.
  destruct (_assess_trimester_suitability _) as [suitable ttags].
  cbn [input_after]. rewrite Hnone. reflexivity.
Qed.

(** The keto rule of C9 evaluated: the candidate has no carbs entry and 28 g
    of fat, and neither the special-diet step nor the enriched tags carry
    keto-friendly. *)
Lemma absent_carbs_not_keto :
  default ∅ (nutrition fatty_no_carbs) !! "carbs" = None
  /\ Qgtb (nutrition_get fatty_no_carbs "fat" 0) 15 = true
  /\ ("keto-friendly" ∉ _identify_special_diets fatty_no_carbs)
  /\ ("keto-friendly"
      ∉ default [] (tags (enriched (enrich_recipe initial_stats fatty_no_carbs)))).
Proof.
  split; [vm_compute; reflexivity |]. split; [vm_compute; reflexivity |].
  split; apply mem_false_not_elem_of; vm_compute; reflexivity.
Qed.

(** C9 (amended): the special-diet step adds keto-friendly exactly when the
    nutrition mapping holds a carbs value below 10 and the fat value (0 when
    absent) exceeds 15; for a candidate whose mapping omits the carbs key the
    tag is not added, whatever its fat (the check reads an absent carbs
    value as 999). *)
Theorem keto_tag_rule r :
  ("keto-friendly" ∈ _identify_special_diets r
   <-> (exists carbs, default ∅ (nutrition r) !! "carbs" = Some carbs /\ (carbs < 10)%Q)
       /\ (15 < nutrition_get r "fat" 0)%Q)
  /\ (default ∅ (nutrition r) !! "carbs" = None ->
      "keto-friendly" ∉ _identify_special_diets r).
Proof.
  assert (Hiff : "keto-friendly" ∈ _identify_special_diets r
                 <-> Qltb (nutrition_get r "carbs" 999) 10
                     && Qgtb (nutrition_get r "fat" 0) 15 = true).
  { unfold _identify_special_diets.
    rewrite !elem_of_app.
    destruct (Qltb (nutrition_get r "carbs" 999) 10 && Qgtb (nutrition_get r "fat" 0) 15).
    - split; [reflexivity | intros _; left; apply list_elem_of_singleton; reflexivity].
    - split; [| discriminate].
      intros [Hk | [Hp | Hw]].
      + apply elem_of_nil in Hk. contradiction.
      + destruct (_ && _) in Hp;
          [apply list_elem_of_singleton in Hp; discriminate
          | apply elem_of_nil in Hp; contradiction].
      + destruct (negb _) in Hw;
          [apply list_elem_of_singleton in Hw; discriminate
          | apply elem_of_nil in Hw; contradiction]. }
  assert (Hcarbs : Qltb (nutrition_get r "carbs" 999) 10 = true
                   <-> exists carbs, default ∅ (nutrition r) !! "carbs" = Some carbs
                                     /\ (carbs < 10)%Q).
  { unfold nutrition_get. destruct (default ∅ (nutrition r) !! "carbs") as [c |]; simpl.
    - rewrite Qltb_lt. split; [intros Hc; exists c; auto | intros (c' & [= <-] & Hc); exact Hc].
    - split; [intros Hc; vm_compute in Hc; discriminate | intros (c' & [=] & _)]. }
  split.
  - rewrite Hiff, andb_true_iff, Hcarbs. unfold Qgtb. rewrite Qltb_lt. reflexivity.
  - intros Hnone Hin. apply Hiff, andb_true_iff in Hin. destruct Hin as [Hc _].
    apply Hcarbs in Hc. destruct Hc as (c & Hsome & _). congruence.
Qed.

Lemma keto_tag_rule_witness :
  "keto-friendly" ∉ _identify_special_diets fatty_no_carbs.
Proof.
  apply (keto_tag_rule fatty_no_carbs). vm_compute. reflexivity.
Defined.


(** *** Where the tags of an enriched recipe come from *)

Definition fixed_tags : list string :=
  [ "spring"; "summer"; "fall"; "winter"; "year-round";
    "pregnancy-friendly"; "morning-sickness-friendly"; "energy-boost"; "easy-digest";
    "batch-cooking"; "freezer-friendly";
    "15-min-meals"; "30-min-meals"; "quick-meals"; "slow-cooking";
    "keto-friendly"; "paleo-friendly"; "whole30-compatible" ].

Ltac in_fixed := apply list_elem_of_In; simpl; tauto.

Lemma elem_of_map_filter {A B} (f : A -> B) (P : A -> Prop)
    `{forall a, Decision (P a)} (l : list A) (y : B) :
  y ∈ map f (filter P l) -> y ∈ map f l.
Proof.
  rewrite !list_elem_of_In, !in_map_iff.
  intros (a & Hfa & Ha). exists a. split; [exact Hfa |].
  apply list_elem_of_In. apply list_elem_of_In in Ha.
  apply list_elem_of_filter in Ha. tauto.
Qed.

Lemma seasonal_tags_fixed text x : x ∈ _classify_seasonal text -> x ∈ fixed_tags.
Proof.
  unfold _classify_seasonal.
  destruct (map fst (filter _ SEASONAL_INGREDIENTS)) as [| s l] eqn:Es.
  - destruct (3 <=? _)%Z; intros Hx.
    + apply list_elem_of_singleton in Hx. subst x. in_fixed.
    + apply elem_of_nil in Hx. contradiction.
  - rewrite <- Es. intros Hx. apply elem_of_map_filter in Hx.
    apply list_elem_of_In in Hx. simpl in Hx.
    destruct Hx as [<- | [<- | [<- | [<- | []]]]]; in_fixed.
Qed.

Lemma trimester_tags_fixed text x :
  x ∈ (_assess_trimester_suitability text).2 -> x ∈ fixed_tags.
Proof.
  unfold _assess_trimester_suitability. cbn [snd]. unfold PyStr.list_set.
  rewrite elem_of_elements, elem_of_list_to_set.
  destruct (length _ =? 3)%nat.
  - intros Hx. apply list_elem_of_singleton in Hx. subst x. in_fixed.
  - rewrite list_elem_of_In, in_flat_map. intros (t & Ht & Hx).
    apply list_elem_of_In, list_elem_of_filter in Ht. destruct Ht as [_ Ht].
    apply list_elem_of_In in Ht. simpl in Ht.
    destruct Ht as [<- | [<- | [<- | []]]]; simpl in Hx;
      destruct Hx as [<- | []]; in_fixed.
Qed.

Lemma time_category_fixed total c : _categorize_prep_time total = Some c -> c ∈ fixed_tags.
Proof.
  unfold _categorize_prep_time.
  repeat (destruct (_ <=? _)%Z; [intros [= <-]; in_fixed |]).
  discriminate.
Qed.

Lemma diet_tags_fixed r x : x ∈ _identify_special_diets r -> x ∈ fixed_tags.
Proof.
  unfold _identify_special_diets. rewrite !elem_of_app.
  intros [Hx | [Hx | Hx]];
    (destruct (_ : bool) in Hx;
     [apply list_elem_of_singleton in Hx; subst x; in_fixed
     | apply elem_of_nil in Hx; contradiction]).
Qed.

Definition optional_tag (o : option string) : list string :=
  match o with Some c => [c] | None => [] end.

Definition flag_tag (b : bool) (t : string) : list string :=
  if b then [t] else [].

(** the tags steps 1 to 7 add, in order *)
Definition early_tags (r : Recipe) : list string :=
  let text := _get_ingredients_text r in
  let title_l := PyStr.lower (default "" (title r)) in
  let description_l := PyStr.lower (default "" (description r)) in
  let instructions_text := PyStr.lower (PyStr.join " " (default [] (instructions r))) in
  _classify_seasonal text
  ++ optional_tag (option_map (fun c => "cuisine-" +:+ c)
                              (_classify_cuisine text title_l description_l))
  ++ (_assess_trimester_suitability text).2
  ++ flag_tag (_is_batch_friendly title_l instructions_text) "batch-cooking"
  ++ flag_tag (_is_freezer_friendly title_l instructions_text description_l)
              "freezer-friendly"
  ++ map (fun m => "method-" +:+ m) (_extract_cooking_methods instructions_text)
  ++ optional_tag (_categorize_prep_time (total_time r)).

(** the list under ['tags'] when [enrich_recipe] is about to deduplicate it *)
Definition final_tag_list (r : Recipe) : list string :=
  let before_diets := default [] (tags r) ++ early_tags r in
  before_diets ++ _identify_special_diets (with_tags r before_diets).

Lemma enrich_recipe_tags es r :
  tags (enriched (enrich_recipe es r)) = Some (PyStr.list_set (final_tag_list r))
  /\ input_after (enrich_recipe es r)
     = if bool_decide (is_Some (tags r)) then with_tags r (final_tag_list r) else r.
Proof.
  unfold enrich_recipe, final_tag_list, early_tags.
  destruct (_assess_trimester_suitability _) as [suitable ttags].
  cbn [enriched input_after tags snd].
  destruct (_classify_cuisine _ _ _), (_is_batch_friendly _ _),
    (_is_freezer_friendly _ _ _), (_categorize_prep_time _);
    cbn [optional_tag option_map flag_tag];
    rewrite ?app_nil_r, ?app_nil_l, <- ?app_assoc; split; reflexivity.
Qed.

(** every tag of the enriched recipe was a tag of the input, or is one of
    the fixed tags, or a cuisine or method tag *)
Lemma enriched_tags_origin es r x :
  x ∈ default [] (tags (enriched (enrich_recipe es r))) ->
  x ∈ default [] (tags r) \/ x ∈ fixed_tags
  \/ (exists c, x = "cuisine-" +:+ c) \/ (exists m, x = "method-" +:+ m).
Proof.
  rewrite (proj1 (enrich_recipe_tags es r)).
  change (default [] (Some ?l)) with l. unfold PyStr.list_set.
  rewrite elem_of_elements, elem_of_list_to_set. unfold final_tag_list, early_tags.
  rewrite !elem_of_app.
  intros [[Hx | [Hx | [Hx | [Hx | [Hx | [Hx | [Hx | Hx]]]]]]] | Hx].
  - left. exact Hx.
  - right; left. eapply seasonal_tags_fixed; exact Hx.
  - destruct (_classify_cuisine _ _ _) as [c |]; simpl in Hx.
    + apply list_elem_of_singleton in Hx. right; right; left. exists c. exact Hx.
    + apply elem_of_nil in Hx. contradiction.
  - right; left. eapply trimester_tags_fixed; exact Hx.
  - destruct (_is_batch_friendly _ _); simpl in Hx.
    + apply list_elem_of_singleton in Hx. subst x. right; left. in_fixed.
    + apply elem_of_nil in Hx. contradiction.
  - destruct (_is_freezer_friendly _ _ _); simpl in Hx.
    + apply list_elem_of_singleton in Hx. subst x. right; left. in_fixed.
    + apply elem_of_nil in Hx. contradiction.
  - apply list_elem_of_In, in_map_iff in Hx. destruct Hx as (m & <- & _).
    right; right; right. exists m. reflexivity.
  - destruct (_categorize_prep_time _) as [c |] eqn:Etc; simpl in Hx.
    + apply list_elem_of_singleton in Hx. subst x. right; left.
      eapply time_category_fixed; exact Etc.
    + apply elem_of_nil in Hx. contradiction.
  - right; left. eapply diet_tags_fixed; exact Hx.
Qed.

(** the enricher leaves the title, the nutrition and the surplus mark alone *)
Lemma enrich_keeps_candidate es r :
  title (enriched (enrich_recipe es r)) = title r
  /\ nutrition (enriched (enrich_recipe es r)) = nutrition r
  /\ surplus (enriched (enrich_recipe es r)) = surplus r.
Proof.
  unfold enrich_recipe. destruct (_assess_trimester_suitability _).
  repeat split; reflexivity.
Qed.

End EnricherProperties.

Module TrackerProperties.
Import DiversityTracker.

(** a candidate as the enricher hands it over *)
Definition greek_salad : Recipe :=
  mkRecipe (Some "Greek Salad") None
    (Some [ing "feta cheese"; ing "the olives"; ing "a cucumber"])
    (Some ["Mix and serve"])
    (Some (list_to_map [("calories", 300%Q); ("carbs", 35%Q); ("fiber", 6%Q)]))
    (Some 10%Z) (Some 5%Z) (Some ["lunch"; "15-min-meals"]) None
    (Some "mediterranean") (Some ["summer"]) None None None None None
    (Some "15-min-meals") None None None None None None.


Lemma counter_dd_touch m k j : counter (dd_touch m k) j = counter m j.
Proof.
  unfold dd_touch, counter. destruct (m !! k) eqn:Hk; [reflexivity |].
  destruct (decide (k = j)) as [-> | Hne].
  - rewrite lookup_insert_eq, Hk. reflexivity.
  - rewrite lookup_insert_ne by assumption. reflexivity.
Qed.

Lemma row_mx_touch mx k j : row (mx_touch mx k) j = row mx j.
Proof.
  unfold mx_touch, row. destruct (mx !! k) eqn:Hk; [reflexivity |].
  destruct (decide (k = j)) as [-> | Hne].
  - rewrite lookup_insert_eq, Hk. reflexivity.
  - rewrite lookup_insert_ne by assumption. reflexivity.
Qed.

Lemma counter_dd_incr m k j :
  counter (dd_incr m k) j = if decide (k = j) then (counter m k + 1)%Z else counter m j.
Proof.
  unfold dd_incr. unfold counter at 1. rewrite lookup_insert.
  destruct (decide (k = j)); reflexivity.
Qed.

(** the reads of the checks leave every counter as it was *)
Lemma touch_reads_same_counters st m c : same_counters st (touch_reads st m c).
Proof.
  constructor; simpl; intros; try reflexivity.
  - symmetry. apply counter_dd_touch.
  - destruct (PyStr.truthy c); [symmetry; apply counter_dd_touch | reflexivity].
  - destruct (PyStr.truthy m); [rewrite row_mx_touch |]; reflexivity.
Qed.

Lemma add_recipe_decision t r :
  (add_recipe t r).2.1
  = negb (meal_type_full (stats t) (_get_meal_type r))
    && negb (cuisine_full (stats t) (default "other" (cuisine r))).
Proof. unfold add_recipe. destruct (negb _ && negb _); reflexivity. Qed.

Lemma add_recipe_surplus t r :
  (add_recipe t r).2.1 = false ->
  (add_recipe t r).1
  = mkTracker (touch_reads (stats t) (_get_meal_type r) (default "other" (cuisine r)))
              (recipes t).
Proof.
  rewrite add_recipe_decision. unfold add_recipe. intros ->. reflexivity.
Qed.

Lemma add_recipe_accepted t r :
  (add_recipe t r).2.1 = true ->
  (add_recipe t r).1
  = mkTracker
      (_update_stats (touch_reads (stats t) (_get_meal_type r) (default "other" (cuisine r)))
                     r (_get_meal_type r) (default "other" (cuisine r))
                     (default [] (seasonalTags r))
                     (default "quick-meals" (timeCategory r))
                     (default [] (tags r)))
      (recipes t ++ [mkEntry (title r) (_get_meal_type r) (default "other" (cuisine r))
                             (default [] (seasonalTags r))]).
Proof.
  rewrite add_recipe_decision. unfold add_recipe. intros ->. reflexivity.
Qed.



Lemma reachable_iter r n :
  reachable (Nat.iter n (fun t => (add_recipe t r).1) init).
Proof. induction n; simpl; [constructor | constructor; assumption]. Qed.

(** sixty Greek salads fill the mediterranean quota *)
Definition sixty_salads : Tracker :=
  Nat.iter 60 (fun t => (add_recipe t greek_salad).1) init.


(** The idempotence of C2 evaluated: the salad is committed, its signature
    is in the signature set, and processing it again takes the total count
    from 1 to 2. *)
Lemma reprocessing_counts_again :
  let t1 := (add_recipe init greek_salad).1 in
  let t2 := (add_recipe t1 greek_salad).1 in
  (add_recipe init greek_salad).2.1 = true
  /\ check_duplicate t1 greek_salad = true
  /\ total_count (stats t1) = 1%Z
  /\ total_count (stats t2) = 2%Z
  /\ ~ same_counters (stats t1) (stats t2).
Proof.
  repeat split; try (vm_compute; reflexivity).
  intros [Htotal _ _ _ _ _ _ _]. vm_compute in Htotal. discriminate.
Qed.

(** C2 (amended): once a candidate R is committed, [check_duplicate]
    answers true for every candidate with R's signature, and processing such
    a candidate leaves the signature set as it is; [add_recipe] does not
    consult the signature set: the counters and the accepted list stay
    unchanged when the second candidate is marked surplus, and when it is
    admitted the total count and its meal-type counter grow by one. *)
Theorem commit_then_reprocess t r r' :
  (add_recipe t r).2.1 = true ->
  _create_recipe_signature r' = _create_recipe_signature r ->
  let t1 := (add_recipe t r).1 in
  let t2 := (add_recipe t1 r').1 in
  check_duplicate t1 r' = true
  /\ recipe_signatures (stats t2) = recipe_signatures (stats t1)
  /\ ((add_recipe t1 r').2.1 = false ->
      same_counters (stats t1) (stats t2) /\ recipes t2 = recipes t1)
  /\ ((add_recipe t1 r').2.1 = true ->
      total_count (stats t2) = (total_count (stats t1) + 1)%Z
      /\ counter (by_meal_type (stats t2)) (_get_meal_type r')
         = (counter (by_meal_type (stats t1)) (_get_meal_type r') + 1)%Z).
Proof.
  intros Hadm Hsig t1 t2.
  assert (Hin : _create_recipe_signature r' ∈ recipe_signatures (stats t1)).
  { unfold t1. rewrite (add_recipe_accepted _ _ Hadm). simpl. rewrite Hsig.
    apply elem_of_union_r, elem_of_singleton. reflexivity. }
  split; [| split; [| split]].
  - unfold check_duplicate. apply bool_decide_eq_true. exact Hin.
  - unfold t2. destruct ((add_recipe t1 r').2.1) eqn:Hsecond.
    + rewrite (add_recipe_accepted _ _ Hsecond). simpl.
      apply leibniz_equiv. intros y. rewrite elem_of_union, elem_of_singleton.
      split; [intros [Hy | ->]; [exact Hy | exact Hin] | intros Hy; left; exact Hy].
    + rewrite (add_recipe_surplus _ _ Hsecond). reflexivity.
  - intros Hsecond. unfold t2. rewrite (add_recipe_surplus _ _ Hsecond). simpl.
    split; [apply touch_reads_same_counters | reflexivity].
  - intros Hsecond. unfold t2. rewrite (add_recipe_accepted _ _ Hsecond). simpl.
    split; [reflexivity |].
    rewrite counter_dd_incr, decide_True by reflexivity.
    rewrite !counter_dd_touch. reflexivity.
Qed.

Lemma commit_then_reprocess_witness :
  let t1 := (add_recipe init greek_salad).1 in
  check_duplicate t1 greek_salad = true
  /\ total_count (stats (add_recipe t1 greek_salad).1) = (total_count (stats t1) + 1)%Z.
Proof.
  assert (Hadm : (add_recipe init greek_salad).2.1 = true) by (vm_compute; reflexivity).
  destruct (commit_then_reprocess init greek_salad greek_salad Hadm eq_refl)
    as (Hdup & _ & _ & Hcount).
  split; [exact Hdup |].
  apply Hcount. vm_compute. reflexivity.
Defined.






End TrackerProperties.

Module DetectorProperties.
Import DuplicateDetector.

(** whatever the rebuild does, the recipe is appended *)
Lemma add_recipe_appends fits d r :
  existing_recipes (add_recipe fits d r).1 = existing_recipes d ++ [r].
Proof. unfold add_recipe. destruct (_ =? _)%Z; reflexivity. Qed.

(** only the rebuild of every 50th recipe can raise *)
Lemma add_recipe_raises fits d r :
  (add_recipe fits d r).2 = false ->
  (Z.of_nat (length (existing_recipes d ++ [r])) mod 50 = 0)%Z
  /\ _build_index_returns fits (existing_recipes d ++ [r]) = false.
Proof.
  unfold add_recipe. destruct (Z.eqb_spec (Z.of_nat (length (existing_recipes d ++ [r])) mod 50) 0);
    cbn [snd]; [auto | discriminate].
Qed.

Section ScoreFacts.

Context {F : Type} {FA : FloatArith F}.
Variables fuzz_ratio fuzz_token_sort_ratio fuzz_partial_ratio
  : string -> string -> Z.

Local Abbreviation title_sim :=
  (_calculate_title_similarity fuzz_ratio fuzz_token_sort_ratio fuzz_partial_ratio).
Local Abbreviation similarity :=
  (calculate_similarity fuzz_ratio fuzz_token_sort_ratio fuzz_partial_ratio).

(** *** Every score is defined *)

Lemma py_truediv_is_Some (a b : Z) : b <> 0%Z -> is_Some (py_truediv (F:=F) a b).
Proof.
  intros Hb. unfold py_truediv. destruct (Z.eqb_spec b 0); [contradiction | eauto].
Qed.

Lemma title_similarity_is_Some t1 t2 : is_Some (title_sim t1 t2).
Proof. unfold _calculate_title_similarity, py_truediv. cbn. eauto. Qed.

Lemma jaccard_is_Some (s1 s2 : gset string) : is_Some (jaccard (F:=F) s1 s2).
Proof.
  unfold jaccard. destruct (Z.ltb_spec 0 (Z.of_nat (size (s1 ∪ s2)))); [| eauto].
  apply py_truediv_is_Some. lia.
Qed.

Lemma ingredient_similarity_is_Some i1 i2 :
  is_Some (_calculate_ingredient_similarity (F:=F) i1 i2).
Proof.
  unfold _calculate_ingredient_similarity.
  destruct (_ || _); [eauto | apply jaccard_is_Some].
Qed.

Lemma normalize_is_Some (arr : list F) : is_Some (normalize arr).
Proof.
  unfold normalize. apply mapM_is_Some, Forall_forall. intros x _.
  unfold compose, checked_div. rewrite f_norm_nonzero. eauto.
Qed.

Lemma nutrition_similarity_is_Some n1 n2 :
  is_Some (_calculate_nutrition_similarity (F:=F) n1 n2).
Proof.
  unfold _calculate_nutrition_similarity.
  destruct (map fst _) as [| v1 l1]; [eauto |].
  destruct (map snd _) as [| v2 l2]; [eauto |].
  destruct (normalize_is_Some (map f_of_Q (v1 :: l1))) as [a1 ->].
  destruct (normalize_is_Some (map f_of_Q (v2 :: l2))) as [a2 ->].
  cbn. eauto.
Qed.

Lemma method_similarity_is_Some r1 r2 :
  is_Some (_calculate_method_similarity (F:=F) r1 r2).
Proof.
  unfold _calculate_method_similarity.
  destruct (_ || _); [| apply jaccard_is_Some].
  destruct (Z.ltb_spec 0 (total_time r1)); [| cbn; eauto].
  destruct (Z.ltb_spec 0 (total_time r2)); [| cbn; eauto].
  cbn [andb].
  destruct (py_truediv_is_Some (Z.abs (total_time r1 - total_time r2))
                               (Z.max (total_time r1) (total_time r2)))
    as [q ->]; [lia | cbn; eauto].
Qed.

Lemma calculate_similarity_is_Some r1 r2 : is_Some (similarity r1 r2).
Proof.
  unfold calculate_similarity.
  destruct (title_similarity_is_Some (default "" (title r1)) (default "" (title r2)))
    as [t ->].
  destruct (ingredient_similarity_is_Some (default [] (ingredients r1))
                                          (default [] (ingredients r2))) as [i ->].
  destruct (nutrition_similarity_is_Some (default ∅ (nutrition r1))
                                         (default ∅ (nutrition r2))) as [n ->].
  destruct (method_similarity_is_Some r1 r2) as [m ->].
  cbn. eauto.
Qed.

Lemma comparable_values_nil n1 n2 :
  (forall k, k ∈ key_nutrients ->
             (default 0 (n1 !! k) == 0)%Q /\ (default 0 (n2 !! k) == 0)%Q) ->
  comparable_values n1 n2 = [].
Proof.
  unfold comparable_values. generalize key_nutrients as ks.
  induction ks as [| k ks IH]; intros Hzero; [reflexivity |].
  cbn [map]. rewrite filter_cons.
  destruct (Hzero k) as [H1 H2]; [left |].
  rewrite decide_False.
  - apply IH. intros k' Hk'. apply Hzero. right. exact Hk'.
  - unfold Qis_zero. rewrite (proj2 (Qeq_bool_iff _ _) H1), (proj2 (Qeq_bool_iff _ _) H2).
    discriminate.
Qed.

(** C7: the ingredient similarity is 0.0 when either main-ingredient set is
    empty; the nutrition similarity is 0.0 when each of the seven nutrients
    is zero or absent in both recipes; and every component score and the
    combined record are defined for every input: no quotient meets a zero
    divisor. *)
Theorem similarity_total_on_degenerate_inputs r1 r2 :
  (forall i1 i2,
      main_ingredient_set i1 = ∅ \/ main_ingredient_set i2 = ∅ ->
      _calculate_ingredient_similarity (F:=F) i1 i2 = Some (f_of_Q 0))
  /\ (forall n1 n2,
         (forall k, k ∈ key_nutrients ->
                    (default 0 (n1 !! k) == 0)%Q /\ (default 0 (n2 !! k) == 0)%Q) ->
         _calculate_nutrition_similarity (F:=F) n1 n2 = Some (f_of_Q 0))
  /\ (forall t1 t2, is_Some (title_sim t1 t2))
  /\ (forall i1 i2, is_Some (_calculate_ingredient_similarity (F:=F) i1 i2))
  /\ (forall n1 n2, is_Some (_calculate_nutrition_similarity (F:=F) n1 n2))
  /\ is_Some (_calculate_method_similarity (F:=F) r1 r2)
  /\ is_Some (similarity r1 r2).
Proof.
  split; [| split; [| split; [| split; [| split; [| split]]]]].
  - intros i1 i2 Hempty. unfold _calculate_ingredient_similarity.
    assert (Hguard : bool_decide (main_ingredient_set i1 = ∅)
                     || bool_decide (main_ingredient_set i2 = ∅) = true).
    { apply orb_true_iff. rewrite !bool_decide_eq_true. exact Hempty. }
    rewrite Hguard. reflexivity.
  - intros n1 n2 Hzero. unfold _calculate_nutrition_similarity.
    rewrite (comparable_values_nil n1 n2 Hzero). reflexivity.
  - apply title_similarity_is_Some.
  - apply ingredient_similarity_is_Some.
  - apply nutrition_similarity_is_Some.
  - apply method_similarity_is_Some.
  - apply calculate_similarity_is_Some.
Qed.

End ScoreFacts.


Lemma set_intersection_comm (s1 s2 : gset string) : s1 ∩ s2 = s2 ∩ s1.
Proof. apply leibniz_equiv. intros x. rewrite !elem_of_intersection. tauto. Qed.

Lemma set_union_comm (s1 s2 : gset string) : s1 ∪ s2 = s2 ∪ s1.
Proof. apply leibniz_equiv. intros x. rewrite !elem_of_union. tauto. Qed.

Section Symmetry.

Context {F : Type} {FA : FloatArith F}.
Variables fuzz_ratio fuzz_token_sort_ratio fuzz_partial_ratio
  : string -> string -> Z.

Local Abbreviation title_sim :=
  (_calculate_title_similarity fuzz_ratio fuzz_token_sort_ratio fuzz_partial_ratio).
Local Abbreviation similarity :=
  (calculate_similarity fuzz_ratio fuzz_token_sort_ratio fuzz_partial_ratio).

(** each of the three ratios of the library gives the two orders of these
    titles, lower-cased, the same value *)
Definition ratios_agree (title1 title2 : string) : Prop :=
  let t1 := PyStr.lower title1 in
  let t2 := PyStr.lower title2 in
  fuzz_ratio t1 t2 = fuzz_ratio t2 t1
  /\ fuzz_token_sort_ratio t1 t2 = fuzz_token_sort_ratio t2 t1
  /\ fuzz_partial_ratio t1 t2 = fuzz_partial_ratio t2 t1.

Lemma title_similarity_sym t1 t2 :
  ratios_agree t1 t2 -> title_sim t1 t2 = title_sim t2 t1.
Proof.
  intros (Hratio & Htoken & Hpartial). unfold _calculate_title_similarity.
  rewrite Hratio, Htoken, Hpartial. reflexivity.
Qed.

Lemma jaccard_sym (s1 s2 : gset string) : jaccard (F:=F) s1 s2 = jaccard s2 s1.
Proof.
  unfold jaccard.
  rewrite (set_intersection_comm s1 s2), (set_union_comm s1 s2).
  reflexivity.
Qed.

Lemma ingredient_similarity_sym i1 i2 :
  _calculate_ingredient_similarity (F:=F) i1 i2 = _calculate_ingredient_similarity i2 i1.
Proof.
  unfold _calculate_ingredient_similarity.
  rewrite orb_comm, jaccard_sym. reflexivity.
Qed.

Lemma comparable_values_swap n1 n2 :
  map fst (comparable_values n2 n1) = map snd (comparable_values n1 n2)
  /\ map snd (comparable_values n2 n1) = map fst (comparable_values n1 n2).
Proof.
  unfold comparable_values. generalize key_nutrients as ks.
  induction ks as [| k ks [IH1 IH2]]; [split; reflexivity |].
  cbn [map]. rewrite !filter_cons.
  destruct (decide (Qis_zero (default 0%Q (n2 !! k))
                    && Qis_zero (default 0%Q (n1 !! k)) = false)) as [E21 | E21];
    destruct (decide (Qis_zero (default 0%Q (n1 !! k))
                      && Qis_zero (default 0%Q (n2 !! k)) = false)) as [E12 | E12];
    cbn [map fst snd]; rewrite ?IH1, ?IH2; try (split; reflexivity);
    exfalso; rewrite andb_comm in E21; contradiction.
Qed.

Lemma dot_comm (a b : list F) : dot a b = dot b a.
Proof.
  unfold dot. f_equal. revert b.
  induction a as [| x a IH]; intros [| y b]; cbn; [reflexivity .. |].
  rewrite f_mul_comm, IH. reflexivity.
Qed.

Lemma nutrition_similarity_sym n1 n2 :
  _calculate_nutrition_similarity (F:=F) n1 n2 = _calculate_nutrition_similarity n2 n1.
Proof.
  unfold _calculate_nutrition_similarity.
  destruct (comparable_values_swap n1 n2) as [-> ->].
  destruct (map fst (comparable_values n1 n2)) as [| v1 l1];
    destruct (map snd (comparable_values n1 n2)) as [| v2 l2]; try reflexivity.
  destruct (normalize (map f_of_Q (v1 :: l1))) as [a1 |];
    destruct (normalize (map f_of_Q (v2 :: l2))) as [a2 |]; cbn; try reflexivity.
  rewrite dot_comm. reflexivity.
Qed.

Lemma method_similarity_sym r1 r2 :
  _calculate_method_similarity (F:=F) r1 r2 = _calculate_method_similarity r2 r1.
Proof.
  unfold _calculate_method_similarity.
  rewrite orb_comm, jaccard_sym, andb_comm, Z.max_comm.
  replace (Z.abs (total_time r1 - total_time r2))
    with (Z.abs (total_time r2 - total_time r1)) by lia.
  reflexivity.
Qed.

(** the record [calculate_similarity] returns, field by field *)
Lemma calculate_similarity_fields r1 r2 :
  exists s,
    similarity r1 r2 = Some s
    /\ title_sim (default "" (title r1)) (default "" (title r2)) = Some (title_similarity s)
    /\ _calculate_ingredient_similarity (default [] (ingredients r1))
                                        (default [] (ingredients r2))
       = Some (ingredient_similarity s)
    /\ _calculate_nutrition_similarity (default ∅ (nutrition r1)) (default ∅ (nutrition r2))
       = Some (nutrition_similarity s)
    /\ _calculate_method_similarity r1 r2 = Some (method_similarity s).
Proof.
  unfold calculate_similarity.
  destruct (title_similarity_is_Some fuzz_ratio fuzz_token_sort_ratio fuzz_partial_ratio
              (default "" (title r1)) (default "" (title r2))) as [t ->].
  destruct (ingredient_similarity_is_Some (F:=F) (default [] (ingredients r1))
                                          (default [] (ingredients r2))) as [i ->].
  destruct (nutrition_similarity_is_Some (F:=F) (default ∅ (nutrition r1))
                                         (default ∅ (nutrition r2))) as [n ->].
  destruct (method_similarity_is_Some (F:=F) r1 r2) as [m ->].
  cbn. eexists. repeat split; reflexivity.
Qed.

(** C6 (amended): the ingredient, nutrition and cooking-method scores are
    symmetric in their two arguments, as functions and as fields of the
    record [calculate_similarity] returns; the title score is the one of the
    swapped call for every pair of titles on which each of the three ratios
    of the library gives both orders the same value, and for recipes with
    such titles the whole record, combined score and duplicate flag
    included, is the one of the swapped call. *)
Theorem similarity_symmetric_up_to_title_ratios r1 r2 :
  (forall i1 i2, _calculate_ingredient_similarity (F:=F) i1 i2
                 = _calculate_ingredient_similarity i2 i1)
  /\ (forall n1 n2, _calculate_nutrition_similarity (F:=F) n1 n2
                    = _calculate_nutrition_similarity n2 n1)
  /\ _calculate_method_similarity (F:=F) r1 r2 = _calculate_method_similarity r2 r1
  /\ ingredient_similarity <$> similarity r1 r2 = ingredient_similarity <$> similarity r2 r1
  /\ nutrition_similarity <$> similarity r1 r2 = nutrition_similarity <$> similarity r2 r1
  /\ method_similarity <$> similarity r1 r2 = method_similarity <$> similarity r2 r1
  /\ (forall t1 t2, ratios_agree t1 t2 -> title_sim t1 t2 = title_sim t2 t1)
  /\ (ratios_agree (default "" (title r1)) (default "" (title r2)) ->
      similarity r1 r2 = similarity r2 r1
      /\ combined_score <$> similarity r1 r2 = combined_score <$> similarity r2 r1
      /\ is_duplicate <$> similarity r1 r2 = is_duplicate <$> similarity r2 r1).
Proof.
  split; [exact ingredient_similarity_sym |]. split; [exact nutrition_similarity_sym |].
  split; [apply method_similarity_sym |].
  destruct (calculate_similarity_fields r1 r2) as (s12 & E12 & _ & Hi12 & Hn12 & Hm12).
  destruct (calculate_similarity_fields r2 r1) as (s21 & E21 & _ & Hi21 & Hn21 & Hm21).
  rewrite ingredient_similarity_sym in Hi21. rewrite nutrition_similarity_sym in Hn21.
  rewrite method_similarity_sym in Hm21.
  split; [rewrite E12, E21; cbn; congruence |].
  split; [rewrite E12, E21; cbn; congruence |].
  split; [rewrite E12, E21; cbn; congruence |]. split; [exact title_similarity_sym |].
  intros Hagree.
  assert (Hsym : similarity r1 r2 = similarity r2 r1).
  { unfold calculate_similarity.
    rewrite (title_similarity_sym _ _ Hagree),
      (ingredient_similarity_sym (default [] (ingredients r1))),
      (nutrition_similarity_sym (default ∅ (nutrition r1))),
      (method_similarity_sym r1).
    reflexivity. }
  rewrite <- Hsym, E12. repeat split; reflexivity.
Qed.

End Symmetry.

End DetectorProperties.

Module OrchestratorProperties.
Import Orchestrator.

Section PipelineFacts.

Context {F : Type} {FA : FloatArith F}.
Variables fuzz_ratio fuzz_token_sort_ratio fuzz_partial_ratio
  : string -> string -> Z.
Variable vectorizer_fits : list string -> bool.

Local Abbreviation process :=
  (process_recipe fuzz_ratio fuzz_token_sort_ratio fuzz_partial_ratio vectorizer_fits).
Local Abbreviation flag :=
  (flag_duplicates fuzz_ratio fuzz_token_sort_ratio fuzz_partial_ratio).

Lemma flag_duplicates_keeps_surplus d st r st' r' :
  flag d st r = (st', Some r') -> surplus r' = surplus r.
Proof.
  unfold flag_duplicates.
  destruct (DuplicateDetector.find_duplicates _ _ _ d r) as [[| best rest] |];
    [intros [= _ <-]; reflexivity | | discriminate].
  destruct (title (DuplicateDetector.match_recipe best)); [| discriminate].
  intros [= _ <-]. reflexivity.
Qed.

(** C3 (amended): for a candidate as scraped (no surplus mark of its own), a
    candidate that fails validation is not returned and leaves the ledger,
    the accepted list and the reference index as they were.  A run that
    returns a record passed validation and has committed it: the record is
    appended to the reference index, surplus or not; when it is marked
    surplus the ledger counters, the signature set and the accepted list are
    unchanged, otherwise the total count and the accepted list have grown by
    one.  A run that passed validation and returns nothing either stopped in
    the duplicate step, with all three stores as they were, or lost the
    record in the index rebuild of a 50th recipe, after the same commit. *)
Theorem commit_points s recipe source :
  surplus recipe = None ->
  let s' := (process s recipe source).1 in
  let out := (process s recipe source).2 in
  let ledger := DiversityTracker.stats (diversity_tracker s) in
  let ledger' := DiversityTracker.stats (diversity_tracker s') in
  let accepted := DiversityTracker.recipes (diversity_tracker s) in
  let accepted' := DiversityTracker.recipes (diversity_tracker s') in
  let index := DuplicateDetector.existing_recipes (duplicate_detector s) in
  let index' := DuplicateDetector.existing_recipes (duplicate_detector s') in
  let committed e :=
    index' = index ++ [e]
    /\ (surplus e = Some true ->
        DiversityTracker.same_counters ledger ledger'
        /\ DiversityTracker.recipe_signatures ledger'
           = DiversityTracker.recipe_signatures ledger
        /\ accepted' = accepted)
    /\ (surplus e <> Some true ->
        DiversityTracker.total_count ledger'
        = (DiversityTracker.total_count ledger + 1)%Z
        /\ length accepted' = S (length accepted)) in
  ((QualityValidator.validate recipe).1.1 = false ->
   out = None
   /\ diversity_tracker s' = diversity_tracker s
   /\ duplicate_detector s' = duplicate_detector s)
  /\ (forall e, out = Some e ->
        (QualityValidator.validate recipe).1.1 = true /\ committed e)
  /\ (out = None -> (QualityValidator.validate recipe).1.1 = true ->
      (diversity_tracker s' = diversity_tracker s
       /\ duplicate_detector s' = duplicate_detector s)
      \/ ((Z.of_nat (length index') mod 50 = 0)%Z /\ exists e, committed e)).
Proof.
  intros Hraw. cbv zeta. unfold process_recipe, QualityValidator.validate_recipe.
  destruct (QualityValidator.validate recipe) as [[is_valid errs] warnings].
  cbn [fst snd].
  destruct is_valid; cbn [negb fst snd].
  2:{ repeat split; discriminate. }
  destruct (flag (duplicate_detector s) (scraper_stats s) recipe)
    as [st [flagged |]] eqn:Eflag; cbn [fst snd].
  2:{ split; [discriminate |]. split; [discriminate |]. intros _ _. left. split; reflexivity. }
  pose proof (flag_duplicates_keeps_surplus _ _ _ _ _ Eflag) as Hflag.
  destruct (EnricherProperties.enrich_keeps_candidate (recipe_enricher s) flagged)
    as (_ & _ & Henrich).
  remember (RecipeEnricher.enrich_recipe (recipe_enricher s) flagged) as outcome
    eqn:Eoutcome.
  clear Eoutcome. destruct outcome as [input e0 estats]. cbn [RecipeEnricher.enriched
    RecipeEnricher.stats_after] in *.
  pose proof (TrackerProperties.add_recipe_surplus (diversity_tracker s) e0) as Hsurplus.
  pose proof (TrackerProperties.add_recipe_accepted (diversity_tracker s) e0) as Haccepted.
  destruct (DiversityTracker.add_recipe (diversity_tracker s) e0)
    as [tracker [should_add reasons]]. cbn [fst snd] in *.
  match goal with
  | |- context [DuplicateDetector.add_recipe vectorizer_fits ?d ?e] =>
      pose proof (DetectorProperties.add_recipe_appends vectorizer_fits d e) as Happend;
      pose proof (DetectorProperties.add_recipe_raises vectorizer_fits d e) as Hraise;
      remember e as handed eqn:Ehanded;
      destruct (DuplicateDetector.add_recipe vectorizer_fits d handed) as [detector returned]
  end.
  cbn [fst snd] in Happend, Hraise.
  assert (Hcommitted :
            DuplicateDetector.existing_recipes detector
            = DuplicateDetector.existing_recipes (duplicate_detector s) ++ [handed]
            /\ (surplus handed = Some true ->
                DiversityTracker.same_counters
                  (DiversityTracker.stats (diversity_tracker s)) (DiversityTracker.stats tracker)
                /\ DiversityTracker.recipe_signatures (DiversityTracker.stats tracker)
                   = DiversityTracker.recipe_signatures
                       (DiversityTracker.stats (diversity_tracker s))
                /\ DiversityTracker.recipes tracker
                   = DiversityTracker.recipes (diversity_tracker s))
            /\ (surplus handed <> Some true ->
                DiversityTracker.total_count (DiversityTracker.stats tracker)
                = (DiversityTracker.total_count
                     (DiversityTracker.stats (diversity_tracker s)) + 1)%Z
                /\ length (DiversityTracker.recipes tracker)
                   = S (length (DiversityTracker.recipes (diversity_tracker s))))).
  { split; [exact Happend |]. subst handed.
    destruct should_add; cbn [surplus annotate].
    - rewrite Henrich, Hflag, Hraw. split; [discriminate |]. intros _.
      rewrite (Haccepted eq_refl).
      cbn [DiversityTracker.stats DiversityTracker.recipes
           DiversityTracker.total_count DiversityTracker._update_stats
           DiversityTracker.touch_reads].
      split; [reflexivity |]. rewrite length_app. cbn [length]. lia.
    - split; [| intros Hn; contradiction Hn; reflexivity]. intros _.
      rewrite (Hsurplus eq_refl).
      cbn [DiversityTracker.stats DiversityTracker.recipes].
      split; [apply TrackerProperties.touch_reads_same_counters |]. split; reflexivity. }
  clear Ehanded Haccepted Hsurplus.
  destruct returned;
    cbn [fst snd diversity_tracker duplicate_detector].
  - split; [discriminate |]. split; [| discriminate].
    intros e [= <-]. split; [reflexivity | exact Hcommitted].
  - split; [discriminate |]. split; [discriminate |]. intros _ _. right.
    split; [| exists handed; exact Hcommitted].
    destruct (Hraise eq_refl) as [Hmod _]. rewrite (proj1 Hcommitted). exact Hmod.
Qed.

End PipelineFacts.

End OrchestratorProperties.

(** * Runs in exact arithmetic

    The interface of the scores is inhabited: exact rationals, with a
    ten-decimal square root, satisfy its two laws.  The runs below use them.
    The runs of the pipeline take an all-or-nothing stand-in for the three
    title ratios and a stand-in for the vectorizer; the runs of the detector
    on two titles take the ratios of [FuzzyWuzzy]. *)

Module ExactRuns.
Import Orchestrator.

(** ten decimals of the square root *)
Definition Qsqrt_approx (q : Q) : Q :=
  Z.sqrt (Qnum q * 10 ^ 20 / Z.pos (Qden q)) # 10000000000.

Lemma Qmult_comm_eq (x y : Q) : (x * y = y * x)%Q.
Proof.
  destruct x as [a b], y as [c d]. unfold Qmult. cbn [Qnum Qden].
  f_equal; [apply Z.mul_comm | apply Pos.mul_comm].
Qed.

Lemma Qsqrt_approx_nonneg q : (0 <= Qsqrt_approx q)%Q.
Proof.
  unfold Qsqrt_approx, Qle. cbn [Qnum Qden].
  pose proof (Z.sqrt_nonneg (Qnum q * 10 ^ 20 / Z.pos (Qden q))). lia.
Qed.

Lemma Q_norm_nonzero x :
  Qis_zero (Qred (Qsqrt_approx x + Qred (1 # 10000000000))) = false.
Proof.
  apply not_true_is_false. intros Hzero. apply Qeq_bool_eq in Hzero.
  rewrite !Qred_correct in Hzero.
  pose proof (Qsqrt_approx_nonneg x) as Hnn.
  assert (Heps : (0 < 1 # 10000000000)%Q) by reflexivity.
  lra.
Qed.

Definition exact_arith : FloatArith Q := {|
  f_of_Q := Qred;
  f_add x y := Qred (x + y);
  f_sub x y := Qred (x - y);
  f_mul x y := Qred (x * y);
  f_div x y := Qred (x / y);
  f_sqrt := Qsqrt_approx;
  f_leb := Qle_bool;
  f_is_zero := Qis_zero;
  f_mul_comm x y := f_equal Qred (Qmult_comm_eq x y);
  f_norm_nonzero := Q_norm_nonzero
|}.

(** a stand-in for the three fuzzy ratios: 100 on equal strings, else 0 *)
Definition exact_ratio (s1 s2 : string) : Z :=
  if String.eqb s1 s2 then 100%Z else 0%Z.

(** a stand-in for the vectorizer: it fits when some text holds a word of
    two or more characters, the shortest token scikit-learn keeps (its stop
    words are not modelled) *)
Definition exact_fit (texts : list string) : bool :=
  existsb (fun text =>
             existsb (fun word => (2 <=? String.length word)%nat) (PyStr.split text))
          texts.

(** the detector and the pipeline over exact rationals *)
Definition similarity : Recipe -> Recipe -> option DuplicateDetector.Similarity :=
  DuplicateDetector.calculate_similarity (FA:=exact_arith)
    exact_ratio exact_ratio exact_ratio.

Definition process : State -> Recipe -> string -> State * option Recipe :=
  process_recipe (FA:=exact_arith) exact_ratio exact_ratio exact_ratio exact_fit.

(** the two bowls of [example_usage.py] *)
Definition quinoa_bowl : Recipe :=
  mkRecipe (Some "Quinoa Vegetable Bowl") None
    (Some [ing "quinoa"; ing "mixed vegetables"]) None
    (Some (list_to_map [("calories", 320%Q); ("carbs", 45%Q); ("protein", 12%Q)]))
    None None None None
    None None None None None None None None None None None None None None.

Definition veggie_bowl : Recipe :=
  mkRecipe (Some "Veggie Quinoa Bowl") None
    (Some [ing "quinoa"; ing "assorted vegetables"]) None
    (Some (list_to_map [("calories", 310%Q); ("carbs", 43%Q); ("protein", 11%Q)]))
    None None None None
    None None None None None None None None None None None None None None.


(** a dinner no cuisine pattern recognises: it counts under "other" *)
Definition lentil_bowl : Recipe :=
  mkRecipe (Some "Lentil Dinner Bowl") None
    (Some [ing "lentils"; ing "spinach"; ing "brown rice"])
    (Some ["Simmer the lentils"; "Fold in the spinach"])
    (Some (list_to_map [("calories", 380%Q); ("carbs", 40%Q); ("fiber", 9%Q);
                        ("protein", 18%Q); ("fat", 6%Q)]))
    (Some 10%Z) (Some 25%Z) (Some ["dinner"]) None
    None None None None None None None None None None None None None None.

(** one more lentil bowl through the pipeline *)
Definition another_bowl (s : State) : State := (process s lentil_bowl "eatingwell").1.

(** the state once forty of them fill the quota of the cuisine "other" *)
Definition forty_bowls : State := Nat.iter 40 another_bowl init.

(** the verdicts on the forty-first bowl and the sizes of the three stores
    before and after it *)
Definition forty_first_bowl :=
  let '(s', out) := process forty_bowls lentil_bowl "eatingwell" in
  ((QualityValidator.validate lentil_bowl).1.1,
   option_map surplus out,
   DiversityTracker.total_count (DiversityTracker.stats (diversity_tracker forty_bowls)),
   DiversityTracker.total_count (DiversityTracker.stats (diversity_tracker s')),
   length (DiversityTracker.recipes (diversity_tracker forty_bowls)),
   length (DiversityTracker.recipes (diversity_tracker s')),
   length (DuplicateDetector.existing_recipes (duplicate_detector forty_bowls)),
   length (DuplicateDetector.existing_recipes (duplicate_detector s'))).

(** The single mutation point of C3 evaluated: the forty-first bowl passes
    validation and is marked surplus; the ledger total and the accepted list
    stay at 40, and the reference index grows from 40 to 41. *)
Lemma surplus_recipe_is_indexed :
  forty_first_bowl = (true, Some (Some true), 40%Z, 40%Z, 40, 40, 40, 41).
Proof. vm_compute. reflexivity. Qed.

Lemma commit_points_witness :
  surplus lentil_bowl = None
  /\ match (process init lentil_bowl "eatingwell").2 with
     | Some e =>
         DuplicateDetector.existing_recipes
           (duplicate_detector (process init lentil_bowl "eatingwell").1)
         = [e]
     | None => False
     end.
Proof.
  split; [reflexivity |]. unfold process.
  assert (Hout : exists e,
             (process_recipe (FA:=exact_arith) exact_ratio exact_ratio exact_ratio exact_fit
                             init lentil_bowl "eatingwell").2 = Some e).
  { vm_compute. eexists. reflexivity. }
  destruct Hout as [e He]. rewrite He.
  destruct (OrchestratorProperties.commit_points
              (FA:=exact_arith) exact_ratio exact_ratio exact_ratio exact_fit
              init lentil_bowl "eatingwell" eq_refl) as (_ & Hsome & _).
  destruct (Hsome e He) as (_ & Hindex & _). exact Hindex.
Defined.

Lemma similarity_total_witness :
  DuplicateDetector._calculate_ingredient_similarity (FA:=exact_arith) [] [ing "quinoa"]
  = Some 0%Q
  /\ DuplicateDetector._calculate_nutrition_similarity
       (FA:=exact_arith) ∅ {[ "cholesterol" := 30%Q ]}
     = Some 0%Q
  /\ is_Some (similarity quinoa_bowl veggie_bowl).
Proof.
  destruct (DetectorProperties.similarity_total_on_degenerate_inputs
              (FA:=exact_arith) exact_ratio exact_ratio exact_ratio quinoa_bowl veggie_bowl)
    as (Hing & Hnut & _ & _ & _ & _ & Hall).
  split; [| split].
  - apply Hing. left. vm_compute. reflexivity.
  - apply Hnut. intros k Hk. split; [reflexivity |].
    apply list_elem_of_In in Hk. simpl in Hk.
    destruct Hk as [<- | [<- | [<- | [<- | [<- | [<- | [<- | []]]]]]]]; reflexivity.
  - exact Hall.
Defined.


(** a plate whose ingredient names are single letters: no term is left for
    the vectorizer *)
Definition letters_plate : Recipe :=
  mkRecipe (Some "Letters Plate") None
    (Some [ing "a"; ing "b"; ing "c"])
    (Some ["Arrange on a plate"])
    (Some (list_to_map [("calories", 350%Q); ("carbs", 35%Q); ("fiber", 6%Q);
                        ("protein", 16%Q)]))
    (Some 5%Z) (Some 0%Z) (Some ["dinner"]) None
    None None None None None None None None None None None None None None.

(** the session after forty-nine of them *)
Definition forty_nine_plates : State :=
  Nat.iter 49 (fun s => (process s letters_plate "eatingwell").1) init.

(** the verdict on the fiftieth plate, whether it is returned, and the
    counters and the size of the index around the call *)
Definition fiftieth_plate :=
  let '(s', out) := process forty_nine_plates letters_plate "eatingwell" in
  ((QualityValidator.validate letters_plate).1.1,
   bool_decide (out = None),
   passed_validation (scraper_stats s'),
   errors (scraper_stats s'),
   QualityValidator.total_validated (quality_validator s'),
   length (DuplicateDetector.existing_recipes (duplicate_detector forty_nine_plates)),
   length (DuplicateDetector.existing_recipes (duplicate_detector s'))).

(** The rebuild of the fiftieth recipe evaluated: the plate passes
    validation and is indexed, the rebuild finds no vocabulary and raises,
    and the call returns nothing; the plate counts as passed and as an
    error, and the index has grown from 49 to 50. *)
Lemma fiftieth_recipe_is_lost :
  fiftieth_plate = (true, true, 50%Z, 1%Z, 50%Z, 49%nat, 50%nat).
Proof. vm_compute. reflexivity. Qed.

(** the detector over exact rationals with the ratios of fuzzywuzzy *)
Definition fuzzy_similarity : Recipe -> Recipe -> option DuplicateDetector.Similarity :=
  DuplicateDetector.calculate_similarity (FA:=exact_arith)
    FuzzyWuzzy.ratio FuzzyWuzzy.token_sort_ratio FuzzyWuzzy.partial_ratio.

(** two lentil soups with titles of the same length *)
Definition lentil_soup_ii : Recipe :=
  mkRecipe (Some "Lentil Soup II") None
    (Some [ing "lentils"; ing "carrots"; ing "onion"; ing "celery"])
    (Some ["Simmer the lentils with the vegetables"])
    (Some (list_to_map [("calories", 320%Q); ("carbs", 40%Q); ("fiber", 9%Q);
                        ("protein", 18%Q); ("fat", 6%Q)]))
    (Some 10%Z) (Some 20%Z) (Some ["dinner"]) None
    None None None None None None None None None None None None None None.

Definition my_lentil_soup : Recipe :=
  mkRecipe (Some "My Lentil Soup") None
    (Some [ing "lentils"; ing "carrots"; ing "onion"; ing "tomato"])
    (Some ["Simmer everything until soft"])
    (Some (list_to_map [("calories", 320%Q); ("carbs", 40%Q); ("fiber", 9%Q);
                        ("protein", 18%Q); ("fat", 6%Q)]))
    (Some 6%Z) (Some 15%Z) (Some ["dinner"]) None
    None None None None None None None None None None None None None None.

(** The symmetry of C6 evaluated with the ratios of fuzzywuzzy: for two
    titles of equal length [partial_ratio] takes its first argument as the
    shorter string, and gives 88 for (lentil soup ii, my lentil soup) and 79
    for the swapped pair; the title score is 0.808 one way and 0.79 the
    other, the combined scores differ, and the first call says duplicate
    while the second does not. *)
Lemma similarity_depends_on_order :
  FuzzyWuzzy.partial_ratio "lentil soup ii" "my lentil soup" = 88%Z
  /\ FuzzyWuzzy.partial_ratio "my lentil soup" "lentil soup ii" = 79%Z
  /\ option_map (fun s => (DuplicateDetector.title_similarity s,
                           DuplicateDetector.is_duplicate s))
                (fuzzy_similarity lentil_soup_ii my_lentil_soup)
     = Some (101 # 125, true)
  /\ option_map (fun s => (DuplicateDetector.title_similarity s,
                           DuplicateDetector.is_duplicate s))
                (fuzzy_similarity my_lentil_soup lentil_soup_ii)
     = Some (79 # 100, false)
  /\ DuplicateDetector.combined_score <$> fuzzy_similarity lentil_soup_ii my_lentil_soup
     <> DuplicateDetector.combined_score <$> fuzzy_similarity my_lentil_soup lentil_soup_ii.
Proof.
  split; [vm_compute; reflexivity |]. split; [vm_compute; reflexivity |].
  split; [vm_compute; reflexivity |]. split; [vm_compute; reflexivity |].
  intros Heq. vm_compute in Heq. discriminate.
Qed.

Lemma similarity_symmetric_witness :
  DetectorProperties.ratios_agree
    FuzzyWuzzy.ratio FuzzyWuzzy.token_sort_ratio FuzzyWuzzy.partial_ratio
    (default "" (title quinoa_bowl)) (default "" (title veggie_bowl))
  /\ fuzzy_similarity quinoa_bowl veggie_bowl = fuzzy_similarity veggie_bowl quinoa_bowl.
Proof.
  assert (Hagree : DetectorProperties.ratios_agree
                     FuzzyWuzzy.ratio FuzzyWuzzy.token_sort_ratio FuzzyWuzzy.partial_ratio
                     (default "" (title quinoa_bowl)) (default "" (title veggie_bowl))).
  { repeat split; vm_compute; reflexivity. }
  split; [exact Hagree |].
  destruct (DetectorProperties.similarity_symmetric_up_to_title_ratios
              (FA:=exact_arith)
              FuzzyWuzzy.ratio FuzzyWuzzy.token_sort_ratio FuzzyWuzzy.partial_ratio
              quinoa_bowl veggie_bowl) as (_ & _ & _ & _ & _ & _ & _ & Hrecord).
  exact (proj1 (Hrecord Hagree)).
Defined.

End ExactRuns.

(** * Further properties

    ** The validator *)

Module ValidatorFacts.
Import QualityValidator.

Lemma Qltb_false x y : Qltb x y = false <-> (y <= x)%Q.
Proof. unfold Qltb. rewrite negb_false_iff. apply Qle_bool_iff. Qed.

(** the warnings of [validate] end with the ingredient, glycemic-index and
    allergen notes *)
Lemma validate_warnings r :
  exists early,
    (validate r).2
    = ((early ++ _validate_ingredients (default [] (ingredients r)))
       ++ match _estimate_glycemic_index r with
          | GI_is_unknown => [GlycemicIndexUnknown]
          | _ => []
          end)
      ++ match _check_allergens (default [] (ingredients r)) with
         | [] => []
         | allergens => [ContainsAllergens allergens]
         end.
Proof.
  unfold validate.
  destruct (_validate_nutrition _ _) as [nerrs nwarns]. cbn [fst snd].
  eexists.
  destruct (_estimate_glycemic_index r), (_check_allergens _);
    rewrite ?app_nil_r; reflexivity.
Qed.

Lemma field_present_values r :
  field_present r "title" = PyStr.truthy (default "" (title r))
  /\ field_present r "ingredients" = (0 <? length (default [] (ingredients r)))%nat
  /\ field_present r "instructions" = (0 <? length (default [] (instructions r)))%nat
  /\ field_present r "nutrition" = negb (bool_decide (default ∅ (nutrition r) = ∅)).
Proof.
  unfold field_present. cbn [String.eqb Ascii.eqb Bool.eqb].
  split; [destruct (title r) as [[| c t] |]; reflexivity |].
  split; [destruct (ingredients r) as [[| i l] |]; reflexivity |].
  split; [destruct (instructions r) as [[| i l] |]; reflexivity |].
  destruct (nutrition r) as [n |]; [reflexivity |].
  cbn. rewrite bool_decide_eq_true_2 by reflexivity. reflexivity.
Qed.

Lemma required_fields_ok r :
  _validate_required_fields r = []
  <-> PyStr.truthy (default "" (title r)) = true
      /\ (3 <= length (default [] (ingredients r)))%nat
      /\ default [] (instructions r) <> []
      /\ default ∅ (nutrition r) <> ∅.
Proof.
  unfold _validate_required_fields.
  destruct (field_present_values r) as (Ht & Hi & Hs & Hn).
  rewrite !filter_cons, filter_nil, Ht, Hi, Hs, Hn.
  assert (Hinstr : default [] (instructions r) <> []
                   <-> (0 < length (default [] (instructions r)))%nat).
  { destruct (default [] (instructions r)); cbn; split; (congruence || lia). }
  assert (Hnut : default ∅ (nutrition r) <> ∅
                 <-> bool_decide (default ∅ (nutrition r) = ∅) = false).
  { rewrite bool_decide_eq_false. reflexivity. }
  rewrite Hinstr, Hnut. clear Ht Hi Hs Hn Hinstr Hnut.
  generalize (PyStr.truthy (default "" (title r))) as bt.
  generalize (length (default [] (ingredients r))) as li.
  generalize (length (default [] (instructions r))) as ls.
  generalize (bool_decide (default ∅ (nutrition r) = ∅)) as bn.
  intros bn ls li bt.
  destruct bt, bn, (Nat.ltb_spec 0 li), (Nat.ltb_spec li 3), (Nat.ltb_spec 0 ls),
    (Nat.ltb_spec ls 1); cbn;
    split; try discriminate; try (intros (? & ? & ? & ?); first [discriminate | lia]);
    try (intros _; repeat split; first [reflexivity | lia]).
Qed.


Lemma nutrition_gate_ok n g :
  (_validate_nutrition n g).1 = []
  <-> (min_carbs g <= default 0 (n !! "carbs") <= max_carbs g)%Q
      /\ (min_fiber g <= default 0 (n !! "fiber"))%Q.
Proof.
  unfold _validate_nutrition. cbn [fst].
  set (carbs := default 0%Q (n !! "carbs")). set (fiber := default 0%Q (n !! "fiber")).
  unfold Qgtb.
  destruct (Qltb carbs (min_carbs g)) eqn:Elow;
    [| destruct (Qltb (max_carbs g) carbs) eqn:Ehigh];
    destruct (Qltb fiber (min_fiber g)) eqn:Efiber; cbn;
    repeat match goal with
           | H : Qltb _ _ = true |- _ => apply Qltb_lt in H
           | H : Qltb _ _ = false |- _ => apply Qltb_false in H
           end;
    split; try discriminate; try (intros _; repeat split; assumption);
    intros [[Hmin Hmax] Hfib]; exfalso;
    first [ exact (Qlt_not_le _ _ Elow Hmin)
          | exact (Qlt_not_le _ _ Ehigh Hmax)
          | exact (Qlt_not_le _ _ Efiber Hfib) ].
Qed.

(** a recipe that passes has the four required fields *)
Lemma validate_passed_required_fields r :
  (validate r).1.1 = true ->
  PyStr.truthy (default "" (title r)) = true
  /\ (3 <= length (default [] (ingredients r)))%nat
  /\ default [] (instructions r) <> []
  /\ default ∅ (nutrition r) <> ∅.
Proof.
  rewrite ValidatorProperties.validate_passed, ValidatorProperties.validate_errors.
  intros Hnil. apply app_eq_nil in Hnil. destruct Hnil as [Hfirst _].
  apply app_eq_nil in Hfirst. destruct Hfirst as [Hfields _].
  apply required_fields_ok. exact Hfields.
Qed.

(** X1: a recipe passes validation exactly when it has a non-empty title,
    at least three ingredients, at least one instruction and a non-empty
    nutrition mapping, its carbs (0 when absent) lie within the carbs range
    of its meal type's guidelines, its fiber (0 when absent) reaches their
    minimum, and its estimated glycemic index is not high; protein, sugar,
    fat, sodium, the total time, unusual ingredients and allergens never
    block. *)
Theorem validate_passes_iff r :
  let g := guidelines_for (_determine_meal_type r) in
  let n := default ∅ (nutrition r) in
  (validate r).1.1 = true
  <-> PyStr.truthy (default "" (title r)) = true
      /\ (3 <= length (default [] (ingredients r)))%nat
      /\ default [] (instructions r) <> []
      /\ n <> ∅
      /\ (min_carbs g <= default 0 (n !! "carbs") <= max_carbs g)%Q
      /\ (min_fiber g <= default 0 (n !! "fiber"))%Q
      /\ _estimate_glycemic_index r <> GI_is_high.
Proof.
  intros g n.
  rewrite ValidatorProperties.validate_passed, ValidatorProperties.validate_errors.
  fold g n. split.
  - intros Hnil. apply app_eq_nil in Hnil. destruct Hnil as [Hfirst Hgi].
    apply app_eq_nil in Hfirst. destruct Hfirst as [Hfields Hnut].
    apply required_fields_ok in Hfields. apply nutrition_gate_ok in Hnut.
    destruct Hfields as (Ht & Hi & Hs & Hn). destruct Hnut as [Hcarbs Hfiber].
    repeat split; try assumption; try tauto.
    intros Hhigh. rewrite Hhigh in Hgi. discriminate.
  - intros (Ht & Hi & Hs & Hn & Hcarbs & Hfiber & Hgi).
    rewrite (proj2 (required_fields_ok r)) by (repeat split; assumption).
    rewrite (proj2 (nutrition_gate_ok n g)) by (split; assumption).
    destruct (_estimate_glycemic_index r); try reflexivity. contradiction Hgi. reflexivity.
Qed.

(** X2: a recipe with an empty or absent ingredient list never passes:
    the missing field is a blocking error, the warnings hold both the
    no-ingredients and the unknown-glycemic-index notes, and the
    high-glycemic-index error is never raised for it. *)
Theorem validate_without_ingredients r :
  default [] (ingredients r) = [] ->
  (validate r).1.1 = false
  /\ MissingRequiredField "ingredients" ∈ (validate r).1.2
  /\ NoIngredientsFound ∈ (validate r).2
  /\ GlycemicIndexUnknown ∈ (validate r).2
  /\ GlycemicIndexHigh ∉ (validate r).1.2.
Proof.
  intros Hnone.
  assert (Hgi : _estimate_glycemic_index r = GI_is_unknown).
  { unfold _estimate_glycemic_index. rewrite Hnone. reflexivity. }
  assert (Hmissing : MissingRequiredField "ingredients" ∈ _validate_required_fields r).
  { unfold _validate_required_fields.
    assert (Hfield : field_present r "ingredients" = false).
    { unfold field_present. cbn. destruct (ingredients r) as [[| i l] |]; try reflexivity.
      discriminate. }
    rewrite Hfield. cbn [andb].
    assert (Hin : MissingRequiredField "ingredients"
                  ∈ map MissingRequiredField
                      (filter (fun f => field_present r f = false)
                              ["title"; "ingredients"; "instructions"; "nutrition"])).
    { apply list_elem_of_In, in_map, list_elem_of_In, list_elem_of_filter.
      split; [exact Hfield | apply list_elem_of_In; simpl; tauto]. }
    destruct (field_present r "instructions" && _); [apply elem_of_app; left |]; exact Hin. }
  assert (Herrors : MissingRequiredField "ingredients" ∈ (validate r).1.2).
  { rewrite ValidatorProperties.validate_errors.
    apply elem_of_app. left. apply elem_of_app. left. exact Hmissing. }
  split; [| split; [exact Herrors | split; [| split]]].
  - apply not_true_is_false. intros Hpass.
    apply ValidatorProperties.validate_passed in Hpass. rewrite Hpass in Herrors.
    apply elem_of_nil in Herrors. exact Herrors.
  - destruct (validate_warnings r) as [early ->]. rewrite Hnone.
    apply elem_of_app. left. apply elem_of_app. left. apply elem_of_app. right.
    apply list_elem_of_singleton. reflexivity.
  - destruct (validate_warnings r) as [early ->]. rewrite Hgi.
    apply elem_of_app. left. apply elem_of_app. right.
    apply list_elem_of_singleton. reflexivity.
  - rewrite ValidatorProperties.validate_errors, Hgi, app_nil_r.
    intros Hin. apply elem_of_app in Hin. destruct Hin as [Hin | Hin].
    + unfold _validate_required_fields in Hin.
      assert (Hno : forall l, GlycemicIndexHigh ∉ map MissingRequiredField l).
      { intros l Hl. apply list_elem_of_In, in_map_iff in Hl.
        destruct Hl as (f & Hf & _). discriminate. }
      repeat match type of Hin with
             | _ ∈ (if ?b then _ else _) => destruct b
             | _ ∈ _ ++ _ => apply elem_of_app in Hin; destruct Hin as [Hin | Hin]
             | _ ∈ [_] => apply list_elem_of_singleton in Hin; discriminate
             end; exact (Hno _ Hin).
    + unfold _validate_nutrition in Hin. cbn [fst] in Hin.
      repeat match type of Hin with
             | _ ∈ (if ?b then _ else _) => destruct b
             | _ ∈ _ ++ _ => apply elem_of_app in Hin; destruct Hin as [Hin | Hin]
             | _ ∈ [_] => apply list_elem_of_singleton in Hin; discriminate
             | _ ∈ [] => apply elem_of_nil in Hin; contradiction
             end.
Qed.


Lemma validate_without_ingredients_witness :
  default [] (ingredients ValidatorProperties.no_ingredients_fresh) = []
  /\ (validate ValidatorProperties.no_ingredients_fresh).1.1 = false.
Proof.
  assert (Hnone : default [] (ingredients ValidatorProperties.no_ingredients_fresh) = [])
    by reflexivity.
  split; [exact Hnone |].
  exact (proj1 (validate_without_ingredients ValidatorProperties.no_ingredients_fresh Hnone)).
Defined.






(** *** Batches *)

Lemma validate_recipe_verdict vs r : (validate_recipe vs r).2 = validate r.
Proof. unfold validate_recipe. destruct (validate r) as [[v e] w]. reflexivity. Qed.

Lemma validate_recipe_stats vs r :
  let vs' := (validate_recipe vs r).1 in
  total_validated vs' = (total_validated vs + 1)%Z
  /\ (passed vs' + failed vs' = passed vs + failed vs + 1)%Z
  /\ (passed vs' = passed vs + (if (validate r).1.1 then 1 else 0))%Z
  /\ (warned vs <= warned vs' <= warned vs + 1)%Z.
Proof.
  unfold validate_recipe. destruct (validate r) as [[v e] w]. cbn.
  destruct v, w; repeat split; lia.
Qed.

Lemma validate_batch_snoc vs rs r :
  validate_batch vs (rs ++ [r])
  = let '(vs1, results) := validate_batch vs rs in
    ((validate_recipe vs1 r).1, <[default "Unknown" (title r) := validate r]> results).
Proof.
  unfold validate_batch. rewrite foldl_snoc.
  destruct (foldl _ _ rs) as [vs1 results].
  rewrite <- validate_recipe_verdict with (vs := vs1).
  destruct (validate_recipe vs1 r) as [vs2 verdict]. reflexivity.
Qed.

(** X4: after [validate_batch] on n recipes the validator's statistics
    have grown as follows: the validated count by n, passed and failed
    together by n, passed by the number of recipes of the batch that pass,
    and the warned count by at most n. *)
Theorem validation_statistics_add_up vs rs :
  let vs' := (validate_batch vs rs).1 in
  total_validated vs' = (total_validated vs + Z.of_nat (length rs))%Z
  /\ (passed vs' + failed vs' = passed vs + failed vs + Z.of_nat (length rs))%Z
  /\ (passed vs' - passed vs
      = Z.of_nat (length (filter (fun r => (validate r).1.1 = true) rs)))%Z
  /\ (warned vs <= warned vs' <= warned vs + Z.of_nat (length rs))%Z.
Proof.
  induction rs as [| r rs IH] using rev_ind; [cbn; lia |].
  rewrite validate_batch_snoc. cbv zeta in *.
  destruct (validate_batch vs rs) as [vs1 results]. cbn [fst] in *.
  pose proof (validate_recipe_stats vs1 r) as Hstep. cbv zeta in Hstep.
  rewrite filter_app, !length_app, filter_cons, filter_nil.
  destruct ((validate r).1.1); [rewrite decide_True by reflexivity
                               | rewrite decide_False by discriminate]; cbn [length]; lia.
Qed.

(** X5: the results of [validate_batch] are keyed by title (Unknown
    without one): a key holds the verdict of the last recipe of the batch
    with that title, so of several recipes sharing a title only the last
    one is reported, and a title that does not occur has no entry. *)
Theorem validate_batch_keyed_by_title vs rs k :
  (validate_batch vs rs).2 !! k
  = validate <$> last (filter (fun r => default "Unknown" (title r) = k) rs).
Proof.
  induction rs as [| r rs IH] using rev_ind; [reflexivity |].
  rewrite validate_batch_snoc.
  destruct (validate_batch vs rs) as [vs1 results]. cbn [snd] in *.
  rewrite filter_app, filter_cons, filter_nil.
  destruct (decide (default "Unknown" (title r) = k)) as [-> | Hne].
  - rewrite lookup_insert_eq, last_snoc. reflexivity.
  - rewrite lookup_insert_ne by assumption. rewrite app_nil_r. exact IH.
Qed.

End ValidatorFacts.

(** ** The diversity tracker *)

Module TrackerFacts.
Import DiversityTracker.

(** the number of accepted entries a predicate selects *)
Definition entries (P : Entry -> Prop) `{forall e, Decision (P e)} (t : Tracker) : Z :=
  Z.of_nat (length (filter P (recipes t))).

Lemma get_meal_type_cases r :
  _get_meal_type r ∈ ["breakfast"; "lunch"; "dinner"; "snacks"].
Proof.
  unfold _get_meal_type.
  destruct (List.find _ _) as [meal |] eqn:Efind.
  - apply List.find_some in Efind. apply list_elem_of_In. tauto.
  - apply list_elem_of_In. simpl.
    destruct (Qltb _ _); [tauto |]. destruct (_ || _); tauto.
Qed.

Lemma row_mx_incr mx k j k' :
  row (mx_incr mx k j) k' = if decide (k = k') then dd_incr (row mx k) j else row mx k'.
Proof.
  unfold mx_incr. unfold row at 1. rewrite lookup_insert.
  destruct (decide (k = k')); reflexivity.
Qed.

(** what an accepted recipe does to the counters the quotas watch *)
Lemma update_stats_counters st r m c seasons p tags :
  let st' := _update_stats st r m c seasons p tags in
  total_count st' = (total_count st + 1)%Z
  /\ (forall k, counter (by_meal_type st') k
                = if decide (m = k) then (counter (by_meal_type st) m + 1)%Z
                  else counter (by_meal_type st) k)
  /\ (forall k, counter (by_cuisine st') k
                = if decide (PyStr.truthy c = true /\ c = k)
                  then (counter (by_cuisine st) c + 1)%Z
                  else counter (by_cuisine st) k)
  /\ (forall k j, counter (row (cuisine_meal_matrix st') k) j
                  = if decide (PyStr.truthy c = true /\ m = k /\ c = j)
                    then (counter (row (cuisine_meal_matrix st) m) c + 1)%Z
                    else counter (row (cuisine_meal_matrix st) k) j).
Proof.
  cbn. split; [reflexivity |]. split; [| split].
  - intros k. apply TrackerProperties.counter_dd_incr.
  - intros k. destruct (PyStr.truthy c).
    + rewrite TrackerProperties.counter_dd_incr.
      destruct (decide (c = k)); [rewrite decide_True by tauto | rewrite decide_False by tauto];
        reflexivity.
    + rewrite decide_False by (intros [? _]; discriminate). reflexivity.
  - intros k j. destruct (PyStr.truthy c).
    + rewrite row_mx_incr. destruct (decide (m = k)) as [-> | Hk].
      * rewrite TrackerProperties.counter_dd_incr.
        destruct (decide (c = j)); [rewrite decide_True by tauto | rewrite decide_False by tauto];
          reflexivity.
      * rewrite decide_False by tauto. reflexivity.
    + rewrite decide_False by (intros [? _]; discriminate). reflexivity.
Qed.

(** the ledger and the accepted list, side by side *)
Record ledger_matches (t : Tracker) : Prop := mkLedgerMatches {
  matches_total : total_count (stats t) = Z.of_nat (length (recipes t));
  matches_meal_type :
    forall m, counter (by_meal_type (stats t)) m
              = entries (fun e => entry_meal_type e = m) t;
  matches_cuisine :
    forall c, c <> "" ->
              counter (by_cuisine (stats t)) c = entries (fun e => entry_cuisine e = c) t;
  matches_matrix :
    forall m c, c <> "" ->
                counter (row (cuisine_meal_matrix (stats t)) m) c
                = entries (fun e => entry_meal_type e = m /\ entry_cuisine e = c) t;
  matches_known_meals :
    forall e, e ∈ recipes t ->
              entry_meal_type e ∈ ["breakfast"; "lunch"; "dinner"; "snacks"]
}.

Lemma entries_snoc (P : Entry -> Prop) `{forall e, Decision (P e)} st l e :
  entries P (mkTracker st (l ++ [e]))
  = (entries P (mkTracker st l) + if decide (P e) then 1 else 0)%Z.
Proof.
  unfold entries. cbn [recipes]. rewrite filter_app, length_app, filter_cons, filter_nil.
  destruct (decide (P e)); cbn [length]; lia.
Qed.

Lemma entries_stats (P : Entry -> Prop) `{forall e, Decision (P e)} st st' l :
  entries P (mkTracker st l) = entries P (mkTracker st' l).
Proof. reflexivity. Qed.

Lemma truthy_iff c : PyStr.truthy c = true <-> c <> "".
Proof. destruct c; cbn; split; congruence. Qed.

Lemma reachable_ledger_matches t : reachable t -> ledger_matches t.
Proof.
  induction 1 as [| t r Hreach [Htotal Hmeal Hcuisine Hmatrix Hknown]].
  { constructor; try reflexivity. intros e He. apply elem_of_nil in He. contradiction. }
  destruct ((add_recipe t r).2.1) eqn:Hadd.
  - rewrite (TrackerProperties.add_recipe_accepted _ _ Hadd).
    set (m0 := _get_meal_type r) in *. set (c0 := default "other" (cuisine r)) in *.
    set (touched := touch_reads (stats t) m0 c0).
    destruct (TrackerProperties.touch_reads_same_counters (stats t) m0 c0)
      as [Ttotal Tmeal Tcuisine _ _ _ Tmatrix _]. fold touched in Ttotal, Tmeal, Tcuisine, Tmatrix.
    pose proof (update_stats_counters touched r m0 c0 (default [] (seasonalTags r))
                  (default "quick-meals" (timeCategory r)) (default [] (tags r)))
      as (Utotal & Umeal & Ucuisine & Umatrix).
    constructor; cbn [stats recipes].
    + rewrite Utotal, <- Ttotal, Htotal, length_app. cbn [length]. lia.
    + intros m. rewrite Umeal, entries_snoc, <- !Tmeal, !Hmeal. cbn [entry_meal_type].
      unfold entries. cbn [recipes].
      destruct (decide (m0 = m)) as [-> | Hne]; [reflexivity | lia].
    + intros c Hc. rewrite Ucuisine, entries_snoc, <- !Tcuisine. cbn [entry_cuisine].
      unfold entries at 1. cbn [recipes].
      destruct (decide (c0 = c)) as [-> | Hne].
      * rewrite decide_True by (split; [apply truthy_iff; exact Hc | reflexivity]).
        rewrite (Hcuisine c Hc). reflexivity.
      * rewrite decide_False by tauto. rewrite (Hcuisine c Hc). unfold entries. lia.
    + intros m c Hc. rewrite Umatrix, entries_snoc, <- !Tmatrix.
      cbn [entry_cuisine entry_meal_type]. unfold entries at 1. cbn [recipes].
      destruct (decide (m0 = m /\ c0 = c)) as [[-> ->] | Hne].
      * rewrite decide_True by (split; [apply truthy_iff; exact Hc | tauto]).
        rewrite (Hmatrix m c Hc). reflexivity.
      * rewrite decide_False by tauto. rewrite (Hmatrix m c Hc). unfold entries. lia.
    + intros e He. apply elem_of_app in He. destruct He as [He | He]; [exact (Hknown e He) |].
      apply list_elem_of_singleton in He. subst e. cbn. apply get_meal_type_cases.
  - rewrite (TrackerProperties.add_recipe_surplus _ _ Hadd).
    destruct (TrackerProperties.touch_reads_same_counters
                (stats t) (_get_meal_type r) (default "other" (cuisine r)))
      as [Ttotal Tmeal Tcuisine _ _ _ Tmatrix _].
    constructor; cbn [stats recipes].
    + rewrite <- Ttotal. exact Htotal.
    + intros m. rewrite <- Tmeal. apply Hmeal.
    + intros c Hc. rewrite <- Tcuisine. apply Hcuisine, Hc.
    + intros m c Hc. rewrite <- Tmatrix. apply Hmatrix, Hc.
    + exact Hknown.
Qed.


(** both targets are positive, the defaults included *)
Lemma meal_type_target_pos m : (0 < meal_type_target m)%Z.
Proof.
  unfold meal_type_target, targets_by_meal_type.
  destruct (list_to_map _ !! m) as [z |] eqn:E; [| cbn; lia].
  apply elem_of_list_to_map_2 in E.
  repeat (apply elem_of_cons in E; destruct E as [E | E]; [inversion E; cbn; lia |]).
  apply elem_of_nil in E. contradiction.
Qed.

Lemma cuisine_target_pos c : (0 < cuisine_target c)%Z.
Proof.
  unfold cuisine_target, targets_by_cuisine.
  destruct (list_to_map _ !! c) as [z |] eqn:E; [| cbn; lia].
  apply elem_of_list_to_map_2 in E.
  repeat (apply elem_of_cons in E; destruct E as [E | E]; [inversion E; cbn; lia |]).
  apply elem_of_nil in E. contradiction.
Qed.

Record within_quotas (t : Tracker) : Prop := mkWithinQuotas {
  within_meal_type :
    forall m, (counter (by_meal_type (stats t)) m <= meal_type_target m)%Z;
  within_cuisine :
    forall c, (counter (by_cuisine (stats t)) c <= cuisine_target c)%Z
}.

Lemma reachable_within_quotas t : reachable t -> within_quotas t.
Proof.
  induction 1 as [| t r Hreach [Hmeal Hcuisine]].
  { constructor; intros k; unfold counter; cbn [stats init _initialize_stats by_meal_type by_cuisine];
      rewrite lookup_empty; cbn [default].
    - pose proof (meal_type_target_pos k). lia.
    - pose proof (cuisine_target_pos k). lia. }
  destruct ((add_recipe t r).2.1) eqn:Hadd.
  - pose proof Hadd as Hdec. rewrite TrackerProperties.add_recipe_decision in Hdec.
    apply andb_true_iff in Hdec. destruct Hdec as [Hm Hc].
    apply negb_true_iff in Hm, Hc. unfold meal_type_full in Hm. unfold cuisine_full in Hc.
    apply Z.leb_gt in Hm.
    rewrite (TrackerProperties.add_recipe_accepted _ _ Hadd).
    set (m0 := _get_meal_type r) in *. set (c0 := default "other" (cuisine r)) in *.
    set (touched := touch_reads (stats t) m0 c0).
    destruct (TrackerProperties.touch_reads_same_counters (stats t) m0 c0)
      as [_ Tmeal Tcuisine _ _ _ _ _]. fold touched in Tmeal, Tcuisine.
    pose proof (update_stats_counters touched r m0 c0 (default [] (seasonalTags r))
                  (default "quick-meals" (timeCategory r)) (default [] (tags r)))
      as (_ & Umeal & Ucuisine & _).
    constructor; cbn [stats recipes].
    + intros m. rewrite Umeal, <- !Tmeal.
      destruct (decide (m0 = m)) as [<- | _]; [clear - Hm; lia | apply Hmeal].
    + intros c. rewrite Ucuisine, <- !Tcuisine.
      destruct (decide (PyStr.truthy c0 = true /\ c0 = c)) as [[Htruthy <-] | _];
        [| apply Hcuisine].
      rewrite Htruthy in Hc. cbn in Hc. apply Z.leb_gt in Hc. clear - Hc. lia.
  - rewrite (TrackerProperties.add_recipe_surplus _ _ Hadd).
    destruct (TrackerProperties.touch_reads_same_counters
                (stats t) (_get_meal_type r) (default "other" (cuisine r)))
      as [_ Tmeal Tcuisine _ _ _ _ _].
    constructor; cbn [stats recipes]; intros k.
    + rewrite <- Tmeal. apply Hmeal.
    + rewrite <- Tcuisine. apply Hcuisine.
Qed.

(** a list whose keys all lie among four distinct values splits into the
    four classes *)
Lemma length_four_classes {A} (f : A -> string) (a b c d : string) (l : list A) :
  a <> b -> a <> c -> a <> d -> b <> c -> b <> d -> c <> d ->
  (forall x, x ∈ l -> f x ∈ [a; b; c; d]) ->
  length l
  = (length (filter (fun x => f x = a) l) + length (filter (fun x => f x = b) l)
     + length (filter (fun x => f x = c) l) + length (filter (fun x => f x = d) l))%nat.
Proof.
  intros Hab Hac Had Hbc Hbd Hcd Hall. induction l as [| x l IH]; [reflexivity |].
  rewrite !filter_cons. cbn [length].
  rewrite IH by (intros y Hy; apply Hall; right; exact Hy).
  assert (Hx : f x ∈ [a; b; c; d]) by (apply Hall; left).
  clear IH Hall.
  repeat (apply elem_of_cons in Hx; destruct Hx as [Hx | Hx]);
    [.. | apply elem_of_nil in Hx; contradiction];
    rewrite Hx;
    repeat match goal with
           | |- context [decide (?u = ?u)] => rewrite (decide_True (P := u = u)) by reflexivity
           | |- context [decide (?u = ?v)] => rewrite (decide_False (P := u = v)) by congruence
           end; cbn [length]; lia.
Qed.


(** *** the order [sorted] uses *)

Lemma ascii_compare_trans_lt a b c :
  Ascii.compare a b = Lt -> Ascii.compare b c = Lt -> Ascii.compare a c = Lt.
Proof. unfold Ascii.compare. rewrite !N.compare_lt_iff. lia. Qed.

Lemma string_leb_trans s1 s2 s3 :
  String.leb s1 s2 = true -> String.leb s2 s3 = true -> String.leb s1 s3 = true.
Proof.
  unfold String.leb. revert s2 s3.
  induction s1 as [| c1 s1 IH]; intros [| c2 s2] [| c3 s3]; cbn; try congruence.
  destruct (Ascii.compare c1 c2) eqn:E12; try congruence;
    destruct (Ascii.compare c2 c3) eqn:E23; try congruence.
  - apply Ascii.compare_eq_iff in E12, E23. subst.
    replace (Ascii.compare c3 c3) with Eq
      by (symmetry; unfold Ascii.compare; apply N.compare_refl).
    apply IH.
  - apply Ascii.compare_eq_iff in E12. subst. rewrite E23. reflexivity.
  - apply Ascii.compare_eq_iff in E23. subst. rewrite E12. reflexivity.
  - rewrite (ascii_compare_trans_lt _ _ _ E12 E23). reflexivity.
Qed.

Definition string_le (x y : string) : Prop := String.leb x y = true.

#[local] Instance string_le_trans : Transitive string_le.
Proof. intros x y z. apply string_leb_trans. Qed.

#[local] Instance string_le_antisym : AntiSymm eq string_le.
Proof. intros x y. apply String.leb_antisym. Qed.

Lemma insert_sorted_perm x l : PyStr.insert_sorted x l ≡ₚ x :: l.
Proof.
  induction l as [| y l IH]; cbn; [reflexivity |].
  destruct (String.leb x y); [reflexivity |].
  rewrite IH. apply Permutation_swap.
Qed.

Lemma sorted_perm l : PyStr.sorted l ≡ₚ l.
Proof.
  induction l as [| x l IH]; cbn; [reflexivity |].
  rewrite insert_sorted_perm, IH. reflexivity.
Qed.

Lemma insert_sorted_Sorted x l :
  Sorted string_le l -> Sorted string_le (PyStr.insert_sorted x l).
Proof.
  induction 1 as [| y l Hsorted IH Hhd]; cbn; [repeat constructor |].
  destruct (String.leb x y) eqn:E.
  - repeat constructor; assumption.
  - constructor; [exact IH |].
    assert (Hyx : string_le y x).
    { destruct (String.leb_total x y) as [H | H]; [congruence | exact H]. }
    destruct Hhd as [| z l Hyz]; cbn; [repeat constructor; exact Hyx |].
    destruct (String.leb x z); constructor; assumption.
Qed.

Lemma sorted_Sorted l : Sorted string_le (PyStr.sorted l).
Proof.
  induction l as [| x l IH]; cbn; [constructor | apply insert_sorted_Sorted, IH].
Qed.

Lemma sorted_of_perm l1 l2 : l1 ≡ₚ l2 -> PyStr.sorted l1 = PyStr.sorted l2.
Proof.
  intros Hperm. apply (Sorted_unique string_le); try apply sorted_Sorted.
  rewrite !sorted_perm. exact Hperm.
Qed.

(** the name an ingredient contributes to the signature *)
Definition signature_name (i : Ingredient) : string :=
  PyStr.join " " (filter (fun word => PyStr.mem word stop_words = false)
                         (PyStr.split (PyStr.strip (PyStr.lower (ingredient_name i))))).

Lemma create_recipe_signature_eq r :
  _create_recipe_signature r
  = PyStr.join "|" (PyStr.strip (PyStr.lower (default "" (title r)))
                    :: PyStr.sorted (map signature_name
                                         (take 5 (default [] (ingredients r))))).
Proof. reflexivity. Qed.

Lemma accepted_signature_recorded t r :
  (add_recipe t r).2.1 = true ->
  _create_recipe_signature r ∈ recipe_signatures (stats (add_recipe t r).1).
Proof.
  intros Hadd. rewrite (TrackerProperties.add_recipe_accepted _ _ Hadd).
  cbn [stats recipe_signatures _update_stats]. apply elem_of_union_r, elem_of_singleton.
  reflexivity.
Qed.

(** *** [get_next_priorities] *)

Lemma counter_foldl_dd_touch ks m k : counter (foldl dd_touch m ks) k = counter m k.
Proof.
  revert m. induction ks as [| k0 ks IH]; intros m; cbn; [reflexivity |].
  rewrite IH. apply TrackerProperties.counter_dd_touch.
Qed.

Lemma counter_mx_touch_cell mx k j k' j' :
  counter (row (mx_touch_cell mx k j) k') j' = counter (row mx k') j'.
Proof.
  unfold mx_touch_cell. unfold row at 1. rewrite lookup_insert.
  destruct (decide (k = k')) as [-> | Hne]; cbn [default].
  - apply TrackerProperties.counter_dd_touch.
  - reflexivity.
Qed.

Lemma counter_touch_gap_reads mx g k j :
  counter (row (touch_gap_reads mx g) k) j = counter (row mx k) j.
Proof.
  unfold touch_gap_reads. destruct (gap_kind g).
  - transitivity (counter (row (mx_touch mx (gap_value g)) k) j).
    + generalize (mx_touch mx (gap_value g)). generalize (map fst cuisine_quotas).
      intros cs. induction cs as [| c cs IH]; intros mx'; cbn [foldl]; [reflexivity |].
      rewrite IH. apply counter_mx_touch_cell.
    + rewrite TrackerProperties.row_mx_touch. reflexivity.
  - revert mx. generalize (map fst meal_type_quotas).
    intros ms. induction ms as [| m ms IH]; intros mx; cbn [foldl]; [reflexivity |].
    rewrite IH. apply counter_mx_touch_cell.
Qed.

Lemma counter_foldl_touch_gap_reads gs mx k j :
  counter (row (foldl touch_gap_reads mx gs) k) j = counter (row mx k) j.
Proof.
  revert mx. induction gs as [| g gs IH]; intros mx; cbn [foldl]; [reflexivity |].
  rewrite IH. apply counter_touch_gap_reads.
Qed.

Lemma insert_gap_perm g l : insert_gap g l ≡ₚ g :: l.
Proof.
  induction l as [| g' l IH]; cbn; [reflexivity |].
  destruct (Qle_bool _ _); [reflexivity |].
  rewrite IH. apply Permutation_swap.
Qed.

Lemma sort_gaps_perm l : sort_gaps l ≡ₚ l.
Proof.
  induction l as [| g l IH]; cbn; [reflexivity |].
  rewrite insert_gap_perm, IH. reflexivity.
Qed.

(** the quotas a counter has not reached yet *)
Definition unmet (m : gmap string Z) (quotas : list (string * Z)) : list (string * Z) :=
  filter (fun q => (counter m q.1 < q.2)%Z) quotas.

(** a gap reports a quota that is not reached and how far off it is *)
Definition gap_of_quota (st : Stats) (g : Gap) : Prop :=
  match gap_kind g with
  | MealTypeGap =>
      (gap_value g, (counter (by_meal_type st) (gap_value g) + gap_needed g)%Z)
        ∈ meal_type_quotas
  | CuisineGap =>
      (gap_value g, (counter (by_cuisine st) (gap_value g) + gap_needed g)%Z)
        ∈ cuisine_quotas
  end /\ (0 < gap_needed g)%Z.

Lemma meal_gaps_spec st :
  length (meal_gaps st) = length (unmet (by_meal_type st) meal_type_quotas)
  /\ Forall (gap_of_quota st) (meal_gaps st).
Proof.
  unfold meal_gaps, unmet.
  assert (Hsub : forall q, q ∈ meal_type_quotas -> q ∈ meal_type_quotas) by tauto.
  revert Hsub. generalize meal_type_quotas at 1 3 4 5.
  induction l as [| [k target] l IH]; intros Hsub; cbn [omap list_omap]; [split; [reflexivity | constructor] |].
  destruct IH as [IHlen IHall]; [intros q Hq; apply Hsub; right; exact Hq |].
  rewrite filter_cons. cbn [fst snd].
  destruct (Z.ltb_spec (counter (by_meal_type st) k) target) as [Hlt | Hge].
  - rewrite decide_True by exact Hlt. cbn [length]. split; [congruence |].
    constructor; [| exact IHall]. split; cbn; [| lia].
    replace (counter (by_meal_type st) k + (target - counter (by_meal_type st) k))%Z
      with target by lia.
    apply Hsub. left.
  - rewrite decide_False by lia. split; assumption.
Qed.

Lemma cuisine_gaps_spec st :
  length (cuisine_gaps st) = length (unmet (by_cuisine st) cuisine_quotas)
  /\ Forall (gap_of_quota st) (cuisine_gaps st).
Proof.
  unfold cuisine_gaps, unmet.
  assert (Hsub : forall q, q ∈ cuisine_quotas -> q ∈ cuisine_quotas) by tauto.
  revert Hsub. generalize cuisine_quotas at 1 3 4 5.
  induction l as [| [k target] l IH]; intros Hsub; cbn [omap list_omap]; [split; [reflexivity | constructor] |].
  destruct IH as [IHlen IHall]; [intros q Hq; apply Hsub; right; exact Hq |].
  rewrite filter_cons. cbn [fst snd].
  destruct (Z.ltb_spec (counter (by_cuisine st) k) target) as [Hlt | Hge].
  - rewrite decide_True by exact Hlt. cbn [length]. split; [congruence |].
    constructor; [| exact IHall]. split; cbn; [| lia].
    replace (counter (by_cuisine st) k + (target - counter (by_cuisine st) k))%Z
      with target by lia.
    apply Hsub. left.
  - rewrite decide_False by lia. split; assumption.
Qed.


(** X6: whatever sequence of candidates a fresh tracker has processed, no
    meal-type counter exceeds that meal type's target and no cuisine counter
    exceeds that cuisine's target, and the accepted list holds at most the
    target number of entries of any meal type and of any cuisine other than
    the empty string. *)
Theorem accepted_collection_within_quotas t m c :
  reachable t ->
  c <> "" ->
  (counter (by_meal_type (stats t)) m <= meal_type_target m)%Z
  /\ (counter (by_cuisine (stats t)) c <= cuisine_target c)%Z
  /\ (entries (fun e => entry_meal_type e = m) t <= meal_type_target m)%Z
  /\ (entries (fun e => entry_cuisine e = c) t <= cuisine_target c)%Z.
Proof.
  intros Hreach Hc.
  destruct (reachable_within_quotas t Hreach) as [Hmeal Hcuisine].
  destruct (reachable_ledger_matches t Hreach) as [_ Lmeal Lcuisine _ _].
  rewrite <- Lmeal, <- (Lcuisine c Hc). auto.
Qed.

Lemma accepted_collection_within_quotas_witness :
  reachable TrackerProperties.sixty_salads
  /\ "mediterranean" <> ""
  /\ (counter (by_cuisine (stats TrackerProperties.sixty_salads)) "mediterranean"
      <= cuisine_target "mediterranean")%Z.
Proof.
  assert (Hreach : reachable TrackerProperties.sixty_salads)
    by apply TrackerProperties.reachable_iter.
  assert (Hc : "mediterranean" <> "") by discriminate.
  split; [exact Hreach |]. split; [exact Hc |].
  exact (proj1 (proj2 (accepted_collection_within_quotas
                         TrackerProperties.sixty_salads "lunch" "mediterranean" Hreach Hc))).
Defined.

(** X7: after any sequence of [add_recipe] calls on a fresh tracker the
    ledger agrees with the accepted list: the total count is the length of
    the list, each meal-type counter is the number of entries of that meal
    type, and each cuisine counter and each cell of the cuisine by meal-type
    matrix is the number of entries with that (non-empty) cuisine. *)
Theorem ledger_counts_accepted_list t :
  reachable t ->
  total_count (stats t) = Z.of_nat (length (recipes t))
  /\ (forall m, counter (by_meal_type (stats t)) m
                = entries (fun e => entry_meal_type e = m) t)
  /\ (forall c, c <> "" ->
                counter (by_cuisine (stats t)) c
                = entries (fun e => entry_cuisine e = c) t)
  /\ (forall m c, c <> "" ->
                  counter (row (cuisine_meal_matrix (stats t)) m) c
                  = entries (fun e => entry_meal_type e = m /\ entry_cuisine e = c) t).
Proof.
  intros Hreach.
  destruct (reachable_ledger_matches t Hreach) as [Htotal Hmeal Hcuisine Hmatrix _].
  auto.
Qed.

Lemma ledger_counts_accepted_list_witness :
  reachable TrackerProperties.sixty_salads
  /\ total_count (stats TrackerProperties.sixty_salads)
     = Z.of_nat (length (recipes TrackerProperties.sixty_salads)).
Proof.
  assert (Hreach : reachable TrackerProperties.sixty_salads)
    by apply TrackerProperties.reachable_iter.
  split; [exact Hreach |].
  exact (proj1 (ledger_counts_accepted_list TrackerProperties.sixty_salads Hreach)).
Defined.

(** X8: the tracker never accepts more than 360 recipes: every accepted
    entry has one of the four meal types, and each of them is capped at 90. *)
Theorem collection_size_bound t :
  reachable t ->
  (length (recipes t) <= 360)%nat /\ (total_count (stats t) <= 360)%Z.
Proof.
  intros Hreach.
  destruct (reachable_within_quotas t Hreach) as [Hmeal _].
  destruct (reachable_ledger_matches t Hreach) as [Htotal Lmeal _ _ Hknown].
  assert (Hlen : (length (recipes t) <= 360)%nat).
  { rewrite (length_four_classes entry_meal_type "breakfast" "lunch" "dinner" "snacks")
      by (discriminate || exact Hknown).
    pose proof (Hmeal "breakfast") as Hb. pose proof (Hmeal "lunch") as Hl.
    pose proof (Hmeal "dinner") as Hd. pose proof (Hmeal "snacks") as Hs.
    rewrite Lmeal in Hb, Hl, Hd, Hs. unfold entries in Hb, Hl, Hd, Hs.
    change (meal_type_target "breakfast") with 90%Z in Hb.
    change (meal_type_target "lunch") with 90%Z in Hl.
    change (meal_type_target "dinner") with 90%Z in Hd.
    change (meal_type_target "snacks") with 90%Z in Hs.
    clear - Hb Hl Hd Hs. lia. }
  split; [exact Hlen |]. rewrite Htotal. lia.
Qed.

Lemma collection_size_bound_witness :
  reachable TrackerProperties.sixty_salads
  /\ (length (recipes TrackerProperties.sixty_salads) <= 360)%nat.
Proof.
  assert (Hreach : reachable TrackerProperties.sixty_salads)
    by apply TrackerProperties.reachable_iter.
  split; [exact Hreach |].
  exact (proj1 (collection_size_bound TrackerProperties.sixty_salads Hreach)).
Defined.

(** the salad of [TrackerProperties.greek_salad] as another site prints it *)
Definition greek_salad_reordered : Recipe :=
  mkRecipe (Some "  GREEK Salad ") None
    (Some [ing "Olives"; ing "Feta Cheese"; ing "cucumber"])
    (Some ["Toss everything"])
    (Some (list_to_map [("calories", 310%Q); ("carbs", 30%Q); ("fiber", 5%Q)]))
    (Some 15%Z) (Some 0%Z) (Some ["dinner"]) None
    (Some "greek") None None None None None None
    None None None None None None None.

(** X9: the signature of a recipe depends only on its title, lower-cased
    and stripped, and on the multiset of the names of its first five
    ingredients, each lower-cased, stripped and without the six stop words:
    two recipes that agree on these have the same signature whatever the
    order of the ingredients, so once the tracker has accepted one of them
    [check_duplicate] answers true for the other. *)
Theorem signature_ignores_ingredient_order t r1 r2 :
  PyStr.strip (PyStr.lower (default "" (title r1)))
  = PyStr.strip (PyStr.lower (default "" (title r2))) ->
  map signature_name (take 5 (default [] (ingredients r1)))
  ≡ₚ map signature_name (take 5 (default [] (ingredients r2))) ->
  _create_recipe_signature r1 = _create_recipe_signature r2
  /\ ((add_recipe t r1).2.1 = true -> check_duplicate (add_recipe t r1).1 r2 = true).
Proof.
  intros Htitle Hnames.
  assert (Hsig : _create_recipe_signature r1 = _create_recipe_signature r2).
  { rewrite !create_recipe_signature_eq, Htitle, (sorted_of_perm _ _ Hnames). reflexivity. }
  split; [exact Hsig |]. intros Hadd.
  unfold check_duplicate. apply bool_decide_eq_true. rewrite <- Hsig.
  apply accepted_signature_recorded, Hadd.
Qed.

Lemma signature_ignores_ingredient_order_witness :
  PyStr.strip (PyStr.lower (default "" (title TrackerProperties.greek_salad)))
  = PyStr.strip (PyStr.lower (default "" (title greek_salad_reordered)))
  /\ map signature_name (take 5 (default [] (ingredients TrackerProperties.greek_salad)))
     ≡ₚ map signature_name (take 5 (default [] (ingredients greek_salad_reordered)))
  /\ _create_recipe_signature TrackerProperties.greek_salad
     = _create_recipe_signature greek_salad_reordered.
Proof.
  assert (Htitle : PyStr.strip (PyStr.lower (default "" (title TrackerProperties.greek_salad)))
                   = PyStr.strip (PyStr.lower (default "" (title greek_salad_reordered))))
    by (vm_compute; reflexivity).
  assert (Hnames : map signature_name
                       (take 5 (default [] (ingredients TrackerProperties.greek_salad)))
                   ≡ₚ map signature_name
                        (take 5 (default [] (ingredients greek_salad_reordered))))
    by (vm_compute; apply perm_swap).
  split; [exact Htitle |]. split; [exact Hnames |].
  exact (proj1 (signature_ignores_ingredient_order
                  init TrackerProperties.greek_salad greek_salad_reordered Htitle Hnames)).
Defined.

(** X10: [get_next_priorities] only reads the ledger: every counter reads
    the same afterwards, and the accepted list, the signature set and the set
    of ingredient names are the same. *)
Theorem next_priorities_read_only t limit :
  let t' := (get_next_priorities t limit).1 in
  same_counters (stats t) (stats t')
  /\ recipes t' = recipes t
  /\ recipe_signatures (stats t') = recipe_signatures (stats t)
  /\ unique_ingredients (stats t') = unique_ingredients (stats t).
Proof.
  cbn. split; [| auto]. constructor; cbn; intros; try reflexivity.
  - symmetry. exact (counter_foldl_dd_touch (map fst meal_type_quotas) _ _).
  - symmetry. exact (counter_foldl_dd_touch (map fst cuisine_quotas) _ _).
  - symmetry. apply counter_foldl_touch_gap_reads.
Qed.

(** what a recommendation says about the ledger it was computed from *)
Definition reports_unmet_quota (st : Stats) (p : Priority) : Prop :=
  (0 < needed p)%Z
  /\ (length (search_terms p) <= 2)%nat
  /\ exists k,
       (priority p = k +:+ " recipes"
        /\ (k, (counter (by_meal_type st) k + needed p)%Z) ∈ meal_type_quotas)
       \/ (priority p = k +:+ " cuisine recipes"
           /\ (k, (counter (by_cuisine st) k + needed p)%Z) ∈ cuisine_quotas).

(** X11: [get_next_priorities(limit)] returns one recommendation for each
    meal type and cuisine whose counter is below its target, cut to the
    first [limit] in priority order: their number is the smaller of [limit]
    and the number of unmet quotas (none when every quota is met), and each
    one names a meal type or cuisine of the targets, gives as [needed] the
    positive distance of its counter to its target, and carries at most two
    search terms. *)
Theorem next_priorities_report_unmet_quotas t limit :
  let ps := (get_next_priorities t limit).2 in
  length ps
  = (limit `min` (length (unmet (by_meal_type (stats t)) meal_type_quotas)
                  + length (unmet (by_cuisine (stats t)) cuisine_quotas)))%nat
  /\ Forall (reports_unmet_quota (stats t)) ps.
Proof.
  cbn zeta. unfold get_next_priorities. cbn [snd].
  destruct (meal_gaps_spec (stats t)) as [Mlen Mall].
  destruct (cuisine_gaps_spec (stats t)) as [Clen Call].
  split.
  - rewrite length_map, length_take, (Permutation_length (sort_gaps_perm _)), length_app.
    congruence.
  - apply Forall_map, Forall_take.
    rewrite (sort_gaps_perm _). apply Forall_app. split.
    + eapply Forall_impl; [exact Mall |]. intros g [Hquota Hpos].
      unfold reports_unmet_quota, priority_of. destruct (gap_kind g); cbn.
      * split; [exact Hpos |]. split; [rewrite length_map, length_take; lia |].
        exists (gap_value g). left. split; [reflexivity | exact Hquota].
      * split; [exact Hpos |]. split; [rewrite length_map, length_take; lia |].
        exists (gap_value g). right. split; [reflexivity | exact Hquota].
    + eapply Forall_impl; [exact Call |]. intros g [Hquota Hpos].
      unfold reports_unmet_quota, priority_of. destruct (gap_kind g); cbn.
      * split; [exact Hpos |]. split; [rewrite length_map, length_take; lia |].
        exists (gap_value g). left. split; [reflexivity | exact Hquota].
      * split; [exact Hpos |]. split; [rewrite length_map, length_take; lia |].
        exists (gap_value g). right. split; [reflexivity | exact Hquota].
Qed.

End TrackerFacts.

(** ** The enricher *)

Module EnricherFacts.
Import RecipeEnricher.

(** *** the tags of the enriched recipe and of the caller's dict *)

Lemma enriched_tags_kept es r :
  NoDup (default [] (tags (enriched (enrich_recipe es r))))
  /\ forall x, x ∈ default [] (tags r) ->
               x ∈ default [] (tags (enriched (enrich_recipe es r))).
Proof.
  rewrite (proj1 (EnricherProperties.enrich_recipe_tags es r)).
  change (default [] (Some ?l)) with l. unfold PyStr.list_set.
  split; [apply NoDup_elements |]. intros x Hx.
  rewrite elem_of_elements, elem_of_list_to_set.
  unfold EnricherProperties.final_tag_list. rewrite !elem_of_app. tauto.
Qed.

(** X12: the tags of an enriched recipe are pairwise distinct and keep
    every tag of the input; each of them is a tag of the input, one of the
    eighteen fixed tags, or a tag that starts with cuisine- or method-. *)
Theorem enriched_tags_distinct_and_complete es r :
  let out := default [] (tags (enriched (enrich_recipe es r))) in
  NoDup out
  /\ (forall x, x ∈ default [] (tags r) -> x ∈ out)
  /\ (forall x, x ∈ out ->
                x ∈ default [] (tags r) \/ x ∈ EnricherProperties.fixed_tags
                \/ (exists c, x = "cuisine-" +:+ c) \/ (exists m, x = "method-" +:+ m)).
Proof.
  cbn zeta. destruct (enriched_tags_kept es r) as [Hnodup Hkept].
  split; [exact Hnodup |]. split; [exact Hkept |].
  apply EnricherProperties.enriched_tags_origin.
Qed.

Lemma enriched_tags_distinct_and_complete_witness :
  "lunch" ∈ default [] (tags EnricherProperties.chickpea_salad)
  /\ "lunch" ∈ default [] (tags (enriched (enrich_recipe initial_stats
                                                          EnricherProperties.chickpea_salad))).
Proof.
  assert (Hin : "lunch" ∈ default [] (tags EnricherProperties.chickpea_salad))
    by (apply list_elem_of_singleton; reflexivity).
  split; [exact Hin |].
  exact (proj1 (proj2 (enriched_tags_distinct_and_complete
                         initial_stats EnricherProperties.chickpea_salad)) "lunch" Hin).
Defined.

Lemma categorize_prep_time_cases total :
  match _categorize_prep_time total with
  | Some c =>
      (c = "15-min-meals" /\ total <= 15)%Z
      \/ (c = "30-min-meals" /\ 15 < total <= 30)%Z
      \/ (c = "quick-meals" /\ 30 < total <= 45)%Z
      \/ (c = "slow-cooking" /\ 120 <= total)%Z
  | None => (45 < total < 120)%Z
  end.
Proof.
  unfold _categorize_prep_time.
  destruct (Z.leb_spec total 15); [tauto |].
  destruct (Z.leb_spec total 30); [right; left; split; [reflexivity | lia] |].
  destruct (Z.leb_spec total 45); [right; right; left; split; [reflexivity | lia] |].
  destruct (Z.leb_spec 120 total); [tauto | lia].
Qed.

(** X13: when the input has a tags key, [enrich_recipe] appends to the
    caller's own list: afterwards the input's tags are the old tags followed
    by the added ones, in the order of the eight steps, every other key of
    the input is as before, and the enriched recipe's tags are the distinct
    elements of that very list; whenever the total time is at most 45 or at
    least 120 minutes at least one tag was added, so the input has changed. *)
Theorem enrich_recipe_appends_to_input_tags es r old :
  tags r = Some old ->
  let after := input_after (enrich_recipe es r) in
  exists added,
    after = with_tags r (old ++ added)
    /\ (forall x, x ∈ default [] (tags (enriched (enrich_recipe es r)))
                  <-> x ∈ old ++ added)
    /\ ((total_time r <= 45 \/ 120 <= total_time r)%Z -> added <> [] /\ after <> r).
Proof.
  intros Hold after. subst after.
  destruct (EnricherProperties.enrich_recipe_tags es r) as [Htags Hinput].
  rewrite Hinput, Htags. rewrite Hold. change (default [] (Some ?l)) with l.
  rewrite bool_decide_true by (eexists; reflexivity).
  unfold EnricherProperties.final_tag_list. rewrite Hold.
  change (default [] (Some ?l)) with l.
  set (early := EnricherProperties.early_tags r).
  set (diets := _identify_special_diets _).
  exists (early ++ diets). rewrite <- app_assoc. split; [reflexivity |].
  split.
  - intros x. unfold PyStr.list_set. rewrite elem_of_elements, elem_of_list_to_set.
    reflexivity.
  - intros Htime.
    assert (Hearly : early <> []).
    { subst early. unfold EnricherProperties.early_tags.
      pose proof (categorize_prep_time_cases (total_time r)) as Hcases.
      destruct (_categorize_prep_time (total_time r)) as [c |]; [| lia].
      cbn [EnricherProperties.optional_tag]. intros Hnil.
      repeat (apply app_eq_nil in Hnil; destruct Hnil as [_ Hnil]). discriminate. }
    assert (Hadded : early ++ diets <> []).
    { intros Hnil. apply app_eq_nil in Hnil. tauto. }
    split; [exact Hadded |].
    intros Heq. apply (f_equal tags) in Heq. cbn [tags with_tags] in Heq.
    rewrite Hold in Heq. injection Heq as Heq.
    apply (f_equal length) in Heq. rewrite length_app in Heq.
    destruct (early ++ diets); [congruence | cbn [length] in Heq; lia].
Qed.


(** *** the time category and its reader in the tracker *)

Lemma enrich_recipe_appends_to_input_tags_witness :
  tags EnricherProperties.chickpea_salad = Some ["lunch"]
  /\ exists added,
       input_after (enrich_recipe initial_stats EnricherProperties.chickpea_salad)
       = with_tags EnricherProperties.chickpea_salad (["lunch"] ++ added).
Proof.
  assert (Hold : tags EnricherProperties.chickpea_salad = Some ["lunch"]) by reflexivity.
  split; [exact Hold |].
  destruct (enrich_recipe_appends_to_input_tags
              initial_stats EnricherProperties.chickpea_salad ["lunch"] Hold)
    as (added & Hafter & _).
  exists added. exact Hafter.
Defined.

Lemma enrich_time_category es r :
  timeCategory (enriched (enrich_recipe es r))
  = match _categorize_prep_time (total_time r) with
    | Some c => Some c
    | None => timeCategory r
    end.
Proof.
  unfold enrich_recipe. destruct (_assess_trimester_suitability _). reflexivity.
Qed.

(** a candidate that takes an hour *)
Definition one_hour_roast : Recipe :=
  mkRecipe (Some "Roast Chicken Dinner") None
    (Some [ing "chicken"; ing "potatoes"; ing "carrots"])
    (Some ["Roast for 45 minutes"])
    (Some (list_to_map [("calories", 450%Q); ("carbs", 40%Q); ("fiber", 6%Q)]))
    (Some 15%Z) (Some 45%Z) None None
    None None None None None None None None None None None None None None.

(** X14: [_categorize_prep_time] has no category for a total time strictly
    between 45 and 120 minutes, so for a candidate without a time category
    of its own the enriched recipe has none either; the tracker reads the
    missing key as quick-meals, and accepting the enriched recipe adds one to
    the quick-meals counter although the recipe takes more than 45 minutes. *)
Theorem uncategorized_time_counts_as_quick_meal tr es r :
  (45 < total_time r < 120)%Z ->
  timeCategory r = None ->
  let e := enriched (enrich_recipe es r) in
  _categorize_prep_time (total_time r) = None
  /\ timeCategory e = None
  /\ ((DiversityTracker.add_recipe tr e).2.1 = true ->
      DiversityTracker.counter
        (DiversityTracker.by_prep_time
           (DiversityTracker.stats (DiversityTracker.add_recipe tr e).1)) "quick-meals"
      = (DiversityTracker.counter
           (DiversityTracker.by_prep_time (DiversityTracker.stats tr)) "quick-meals" + 1)%Z).
Proof.
  intros Htime Hnone e.
  assert (Hcat : _categorize_prep_time (total_time r) = None).
  { pose proof (categorize_prep_time_cases (total_time r)) as Hcases.
    destruct (_categorize_prep_time (total_time r)); [lia | reflexivity]. }
  assert (He : timeCategory e = None).
  { subst e. rewrite enrich_time_category, Hcat. exact Hnone. }
  split; [exact Hcat |]. split; [exact He |]. intros Hadd.
  rewrite (TrackerProperties.add_recipe_accepted _ _ Hadd).
  cbn [DiversityTracker.stats DiversityTracker._update_stats DiversityTracker.by_prep_time
       DiversityTracker.touch_reads].
  rewrite He. cbn [default PyStr.truthy].
  rewrite TrackerProperties.counter_dd_incr. rewrite decide_True by reflexivity. reflexivity.
Qed.

Lemma uncategorized_time_counts_as_quick_meal_witness :
  (45 < total_time one_hour_roast < 120)%Z
  /\ timeCategory one_hour_roast = None
  /\ timeCategory (enriched (enrich_recipe initial_stats one_hour_roast)) = None.
Proof.
  assert (Htime : (45 < total_time one_hour_roast < 120)%Z) by (vm_compute; split; reflexivity).
  assert (Hnone : timeCategory one_hour_roast = None) by reflexivity.
  split; [exact Htime |]. split; [exact Hnone |].
  exact (proj1 (proj2 (uncategorized_time_counts_as_quick_meal
                         DiversityTracker.init initial_stats one_hour_roast Htime Hnone))).
Defined.

(** *** the shopping list *)

Definition shopping_categories : list string :=
  ["proteins"; "produce"; "grains"; "dairy"; "pantry"; "other"].

Lemma shopping_category_known i : shopping_category i ∈ shopping_categories.
Proof.
  unfold shopping_category, shopping_categories.
  repeat (destruct (PyStr.any_in _ _); [apply list_elem_of_In; simpl; tauto |]).
  apply list_elem_of_In; simpl; tauto.
Qed.

Lemma shopping_categories_NoDup : NoDup shopping_categories.
Proof.
  unfold shopping_categories.
  repeat (apply NoDup_cons; split;
          [rewrite ?elem_of_cons, elem_of_nil; intuition discriminate |]).
  constructor.
Qed.

(** the classes of a key, taken in the order of the keys, rearrange the list *)
Lemma classes_perm {A} (f : A -> string) (cs : list string) (l : list A) :
  NoDup cs ->
  concat (map (fun c => filter (fun x => f x = c) l) cs)
  ≡ₚ filter (fun x => f x ∈ cs) l.
Proof.
  induction 1 as [| c cs Hc Hnd IH]; cbn [map concat].
  - induction l as [| x l IHl]; [reflexivity |].
    rewrite filter_cons, decide_False by apply not_elem_of_nil. exact IHl.
  - rewrite IH. clear IH. induction l as [| x l IHl]; [reflexivity |].
    rewrite !filter_cons.
    destruct (decide (f x = c)) as [Hx | Hx], (decide (f x ∈ cs)) as [Hin | Hout],
      (decide (f x ∈ c :: cs)) as [Hin' | Hout'];
      try (exfalso; rewrite Hx in *; tauto);
      try (exfalso; apply Hout'; rewrite elem_of_cons; tauto);
      try (exfalso; apply elem_of_cons in Hin'; tauto).
    + cbn. rewrite IHl. reflexivity.
    + rewrite <- Permutation_middle, IHl. reflexivity.
    + exact IHl.
Qed.

Lemma filter_all {A} (P : A -> Prop) `{forall x, Decision (P x)} (l : list A) :
  (forall x, x ∈ l -> P x) -> filter P l = l.
Proof.
  induction l as [| x l IH]; intros Hall; [reflexivity |].
  rewrite filter_cons, decide_True by (apply Hall; left).
  rewrite IH by (intros y Hy; apply Hall; right; exact Hy). reflexivity.
Qed.

Lemma concat_nonempty {K A} (l : list (K * list A)) :
  concat (map snd (filter (fun '(_, items) => items <> []) l)) = concat (map snd l).
Proof.
  induction l as [| [k items] l IH]; [reflexivity |].
  rewrite filter_cons. destruct (decide (items <> [])) as [Hne | He]; cbn; [congruence |].
  destruct items; [exact IH | exfalso; apply He; discriminate].
Qed.

(** X15: the shopping list splits the ingredients: each ingredient lands
    in exactly one of the six categories, so the items of all categories
    together are a rearrangement of the ingredients (with amount 0 and unit
    the empty string filled in); no category is listed twice and none is
    empty. *)
Theorem shopping_list_partitions_ingredients ings :
  let sl := _generate_shopping_list ings in
  concat (map snd sl) ≡ₚ map shopping_item ings
  /\ NoDup (map fst sl)
  /\ Forall (fun entry => entry.1 ∈ shopping_categories /\ entry.2 <> []) sl.
Proof.
  cbn zeta. unfold _generate_shopping_list. fold shopping_categories.
  split; [| split].
  - rewrite concat_nonempty, map_map. cbn [snd].
    rewrite <- (map_map (fun c => filter (fun ing => shopping_category ing = c) ings)
                        (map shopping_item)).
    rewrite <- concat_map.
    apply Permutation_map.
    rewrite (classes_perm shopping_category shopping_categories ings)
      by apply shopping_categories_NoDup.
    rewrite filter_all by (intros; apply shopping_category_known). reflexivity.
  - set (raw := map _ shopping_categories).
    assert (Hfst : map fst raw = shopping_categories).
    { subst raw. rewrite map_map. cbn [fst]. apply map_id. }
    assert (Hnd : NoDup (map fst raw)).
    { rewrite Hfst. apply shopping_categories_NoDup. }
    clearbody raw. clear Hfst. induction raw as [| [k items] raw IH]; [constructor |].
    cbn [map fst] in Hnd. apply NoDup_cons in Hnd. destruct Hnd as [Hk Hnd].
    rewrite filter_cons. destruct (decide (items <> [])); [| apply IH, Hnd].
    cbn [map fst]. apply NoDup_cons. split; [| apply IH, Hnd].
    intros Hin. apply Hk. apply list_elem_of_In, in_map_iff in Hin.
    destruct Hin as ([k' items'] & Hk' & Hin). cbn in Hk'. subst k'.
    apply list_elem_of_In, list_elem_of_filter in Hin. destruct Hin as [_ Hin].
    apply list_elem_of_In, in_map_iff. exists (k, items'). split; [reflexivity |].
    apply list_elem_of_In. exact Hin.
  - apply Forall_forall. intros [k items] Hin.
    apply list_elem_of_filter in Hin. destruct Hin as [Hne Hin].
    split; [| exact Hne]. cbn [fst].
    apply list_elem_of_In, in_map_iff in Hin. destruct Hin as (c & [= <- _] & Hc).
    apply list_elem_of_In. exact Hc.
Qed.

(** *** the cuisine *)

(** the score [_classify_cuisine] gives a cuisine on a text *)
Definition cuisine_score (p : CuisinePattern) (text : string) : Z :=
  (PyStr.count_in (pattern_ingredients p) text
   + 3 * PyStr.count_in (pattern_dishes p) text)%Z.

Lemma most_common_top scores c n :
  most_common scores = Some (c, n) ->
  (c, n) ∈ scores /\ forall c' n', (c', n') ∈ scores -> (n' <= n)%Z.
Proof.
  revert c n. induction scores as [| [c0 n0] rest IH]; intros c n; cbn; [discriminate |].
  destruct (most_common rest) as [[c1 n1] |] eqn:Erest.
  - destruct (IH c1 n1 eq_refl) as [Hin Htop].
    destruct (Z.ltb_spec n0 n1); intros [= <- <-].
    + split; [right; exact Hin |]. intros c' n' Hc'.
      apply elem_of_cons in Hc'. destruct Hc' as [[= -> ->] | Hc']; [lia | eauto].
    + split; [left |]. intros c' n' Hc'.
      apply elem_of_cons in Hc'. destruct Hc' as [[= -> ->] | Hc']; [lia |].
      specialize (Htop c' n' Hc'). lia.
  - intros [= <- <-]. split; [left |]. intros c' n' Hc'.
    apply elem_of_cons in Hc'. destruct Hc' as [[= -> ->] | Hc']; [lia |].
    destruct rest as [| [c2 n2] rest']; [apply elem_of_nil in Hc'; contradiction |].
    cbn in Erest. destruct (most_common rest') as [[? ?] |];
      [destruct (_ <? _)%Z |]; discriminate.
Qed.

Lemma most_common_none scores : most_common scores = None -> scores = [].
Proof.
  destruct scores as [| [c n] rest]; [reflexivity |]. cbn.
  destruct (most_common rest) as [[? ?] |]; [destruct (_ <? _)%Z |]; discriminate.
Qed.

(** X16: when [_classify_cuisine] names a cuisine, it is one of the seven
    cuisines of the pattern table, its score on the combined text (one per
    ingredient keyword, three per dish keyword) is at least 3, and no
    cuisine of the table scores higher; when it names none, every cuisine
    scores below 3. *)
Theorem classified_cuisine_has_top_score text title description :
  let combined := text +:+ " " +:+ title +:+ " " +:+ description in
  match _classify_cuisine text title description with
  | Some c =>
      exists p, p ∈ CUISINE_PATTERNS /\ pattern_cuisine p = c
                /\ (3 <= cuisine_score p combined)%Z
                /\ Forall (fun q => (cuisine_score q combined <= cuisine_score p combined)%Z)
                          CUISINE_PATTERNS
  | None => Forall (fun q => (cuisine_score q combined < 3)%Z) CUISINE_PATTERNS
  end.
Proof.
  intros combined. unfold _classify_cuisine. fold combined.
  change (fun p : CuisinePattern =>
            (pattern_cuisine p,
             (PyStr.count_in (pattern_ingredients p) combined
              + 3 * PyStr.count_in (pattern_dishes p) combined)%Z))
    with (fun p => (pattern_cuisine p, cuisine_score p combined)).
  generalize CUISINE_PATTERNS. intros patterns.
  set (scores := filter _ _).
  assert (Hscores : forall q, q ∈ patterns ->
                    (cuisine_score q combined <= 0)%Z
                    \/ (pattern_cuisine q, cuisine_score q combined) ∈ scores).
  { intros q Hq. destruct (Z.ltb_spec 0 (cuisine_score q combined)) as [Hpos | Hle];
      [right | left; exact Hle].
    subst scores. apply list_elem_of_filter. split; [apply Z.ltb_lt; exact Hpos |].
    apply list_elem_of_In, in_map_iff. exists q. split; [reflexivity |].
    apply list_elem_of_In. exact Hq. }
  destruct (most_common scores) as [[top score] |] eqn:Etop.
  - destruct (most_common_top _ _ _ Etop) as [Hin Hmax].
    assert (Hall : forall q, q ∈ patterns -> (0 < score)%Z ->
                             (cuisine_score q combined <= score)%Z).
    { intros q Hq Hpos. destruct (Hscores q Hq) as [Hle | Hq']; [lia | eauto]. }
    subst scores. apply list_elem_of_filter in Hin. destruct Hin as [Hpos Hin].
    apply Z.ltb_lt in Hpos.
    apply list_elem_of_In, in_map_iff in Hin. destruct Hin as (p & [= Hname Hscore] & Hp).
    apply list_elem_of_In in Hp.
    destruct (Z.leb_spec 3 score) as [Hthree | Hlow].
    + exists p. rewrite Hscore. repeat split; try assumption.
      apply Forall_forall. intros q Hq. apply Hall; assumption.
    + apply Forall_forall. intros q Hq. specialize (Hall q Hq Hpos). lia.
  - apply most_common_none in Etop. apply Forall_forall. intros q Hq.
    destruct (Hscores q Hq) as [Hle | Hq']; [lia |].
    rewrite Etop in Hq'. apply elem_of_nil in Hq'. contradiction.
Qed.

(** *** the keys and the tags *)

Lemma enrich_fields es r :
  let text := _get_ingredients_text r in
  let title_l := PyStr.lower (default "" (title r)) in
  let description_l := PyStr.lower (default "" (description r)) in
  let instructions_text := PyStr.lower (PyStr.join " " (default [] (instructions r))) in
  let e := enriched (enrich_recipe es r) in
  seasonalTags e = Some (_classify_seasonal text)
  /\ cuisine e = match _classify_cuisine text title_l description_l with
                 | Some c => Some c
                 | None => cuisine r
                 end
  /\ trimesterSuitability e = Some (_assess_trimester_suitability text).1
  /\ batchFriendly e = Some (_is_batch_friendly title_l instructions_text)
  /\ freezerFriendly e = Some (_is_freezer_friendly title_l instructions_text description_l)
  /\ shoppingList e = Some (_generate_shopping_list (default [] (ingredients r)))
  /\ cookingMethods e = Some (_extract_cooking_methods instructions_text).
Proof.
  cbv zeta. unfold enrich_recipe.
  destruct (_assess_trimester_suitability _). repeat split; reflexivity.
Qed.

(** X23: the keys [enrich_recipe] sets and the tags it adds agree: every
    season of seasonalTags is a tag, cookingMethods holds at most three
    methods and each is a tag with the prefix method-, a recipe flagged
    batchFriendly or freezerFriendly carries the tag batch-cooking or
    freezer-friendly, a classified cuisine becomes the cuisine key and a
    cuisine- tag while an unclassified recipe keeps the cuisine it came
    with, and a time category becomes both the timeCategory key and a
    tag. *)
Theorem enriched_keys_agree_with_tags es r :
  let e := enriched (enrich_recipe es r) in
  let tag_list := default [] (tags e) in
  Forall (fun season => season ∈ tag_list) (default [] (seasonalTags e))
  /\ (length (default [] (cookingMethods e)) <= 3)%nat
  /\ Forall (fun method => "method-" +:+ method ∈ tag_list) (default [] (cookingMethods e))
  /\ (batchFriendly e = Some true -> "batch-cooking" ∈ tag_list)
  /\ (freezerFriendly e = Some true -> "freezer-friendly" ∈ tag_list)
  /\ match _classify_cuisine (_get_ingredients_text r)
                             (PyStr.lower (default "" (title r)))
                             (PyStr.lower (default "" (description r))) with
     | Some c => cuisine e = Some c /\ "cuisine-" +:+ c ∈ tag_list
     | None => cuisine e = cuisine r
     end
  /\ match _categorize_prep_time (total_time r) with
     | Some c => timeCategory e = Some c /\ c ∈ tag_list
     | None => timeCategory e = timeCategory r
     end.
Proof.
  cbv zeta.
  pose proof (enrich_fields es r) as Hfields. cbv zeta in Hfields.
  destruct Hfields as (Hseason & Hcuisine & _ & Hbatch & Hfreezer & _ & Hmethods).
  rewrite Hseason, Hmethods, Hcuisine, Hbatch, Hfreezer, enrich_time_category.
  rewrite (proj1 (EnricherProperties.enrich_recipe_tags es r)).
  change (default [] (Some ?l)) with l.
  assert (Hearly : forall x, x ∈ EnricherProperties.early_tags r ->
                             x ∈ PyStr.list_set (EnricherProperties.final_tag_list r)).
  { intros x Hx. unfold PyStr.list_set. rewrite elem_of_elements, elem_of_list_to_set.
    unfold EnricherProperties.final_tag_list. rewrite !elem_of_app. tauto. }
  unfold EnricherProperties.early_tags in Hearly.
  split; [| split; [| split; [| split; [| split; [| split]]]]].
  - apply Forall_forall. intros x Hx. apply Hearly. rewrite !elem_of_app. tauto.
  - unfold _extract_cooking_methods. rewrite length_take. lia.
  - apply Forall_forall. intros x Hx. apply Hearly. rewrite !elem_of_app.
    do 5 right. left. apply list_elem_of_In, in_map, list_elem_of_In. exact Hx.
  - intros [= Hb]. apply Hearly. rewrite !elem_of_app, Hb. do 3 right. left. left.
  - intros [= Hf]. apply Hearly. rewrite !elem_of_app, Hf. do 4 right. left. left.
  - destruct (_classify_cuisine _ _ _) as [c |]; [| reflexivity].
    split; [reflexivity |]. apply Hearly. rewrite !elem_of_app. right. left. left.
  - destruct (_categorize_prep_time _) as [c |]; [| reflexivity].
    split; [reflexivity |]. apply Hearly. rewrite !elem_of_app. do 6 right. left.
Qed.

End EnricherFacts.

(** ** The duplicate detector *)

Module DetectorFacts.
Import DuplicateDetector.

(** *** the title index *)

(** the key of a recipe in the title index *)
Definition index_key (r : Recipe) : string := PyStr.lower (default "" (title r)).

Lemma build_index_snoc rs r :
  _build_index (rs ++ [r])
  = <[index_key r := Z.of_nat (length rs)]> (_build_index rs).
Proof.
  unfold _build_index. rewrite imap_app, foldl_app. cbn.
  rewrite Nat.add_0_r. reflexivity.
Qed.

Lemma reachable_index_rebuilt fits d :
  reachable fits d -> recipe_index d = _build_index (existing_recipes d).
Proof.
  induction 1 as [existing d Hmake | d r Hreach IH].
  - unfold make in Hmake. destruct (_build_index_returns fits existing); [| discriminate].
    injection Hmake as <-. reflexivity.
  - unfold add_recipe.
    destruct (_ =? _)%Z; cbn [fst recipe_index existing_recipes]; [reflexivity |].
    rewrite build_index_snoc, IH. unfold index_key. f_equal.
    rewrite length_app. cbn [length]. lia.
Qed.

(** an entry of the index points at the last recipe of that title *)
Definition points_at_last (rs : list Recipe) (k : string) (i : Z) : Prop :=
  exists n r,
    i = Z.of_nat n /\ rs !! n = Some r /\ index_key r = k
    /\ forall j r', (n < j)%nat -> rs !! j = Some r' -> index_key r' <> k.

Lemma build_index_points_at_last rs k i :
  _build_index rs !! k = Some i -> points_at_last rs k i.
Proof.
  revert i. induction rs as [| r rs IH] using rev_ind; intros i.
  { unfold _build_index. cbn. rewrite lookup_empty. discriminate. }
  rewrite build_index_snoc. destruct (decide (index_key r = k)) as [Hk | Hk].
  - rewrite Hk, lookup_insert_eq. intros [= <-].
    exists (length rs), r. split; [reflexivity |].
    split; [apply list_lookup_middle; reflexivity |]. split; [exact Hk |].
    intros j r' Hj Hr'. apply lookup_lt_Some in Hr'.
    rewrite length_app in Hr'. cbn [length] in Hr'. lia.
  - rewrite lookup_insert_ne by exact Hk. intros Hi.
    destruct (IH i Hi) as (n & r0 & -> & Hn & Hkey & Hlast).
    exists n, r0. split; [reflexivity |].
    split; [apply lookup_app_l_Some; exact Hn |]. split; [exact Hkey |].
    intros j r' Hj Hr'. apply lookup_app_Some in Hr'.
    destruct Hr' as [Hr' | [Hlen Hr']]; [eauto |].
    destruct (j - length rs)%nat; cbn in Hr'; [| discriminate].
    injection Hr' as <-. exact Hk.
Qed.

Lemma build_index_covers rs r :
  r ∈ rs -> is_Some (_build_index rs !! index_key r).
Proof.
  induction rs as [| r0 rs IH] using rev_ind; intros Hr.
  { apply elem_of_nil in Hr. contradiction. }
  rewrite build_index_snoc.
  destruct (decide (index_key r0 = index_key r)) as [Hk | Hk].
  - rewrite Hk, lookup_insert_eq. eauto.
  - rewrite lookup_insert_ne by exact Hk. apply IH.
    apply elem_of_app in Hr. destruct Hr as [Hr | Hr]; [exact Hr |].
    apply list_elem_of_singleton in Hr. subst r0. contradiction.
Qed.

(** X17: however a detector was built (from a list of existing recipes,
    then grown by [add_recipe]), its title index is the one [_build_index]
    computes from its recipe list, so the rebuild of every 50th [add_recipe]
    changes nothing in it, whether it returns or raises; every recipe's
    lower-cased title is a key, and a key maps to the position of the last
    recipe with that lower-cased title. *)
Theorem title_index_points_at_last_recipe fits d :
  reachable fits d ->
  recipe_index d = _build_index (existing_recipes d)
  /\ (forall r, r ∈ existing_recipes d -> is_Some (recipe_index d !! index_key r))
  /\ (forall k i, recipe_index d !! k = Some i -> points_at_last (existing_recipes d) k i).
Proof.
  intros Hreach. pose proof (reachable_index_rebuilt fits d Hreach) as Hindex.
  split; [exact Hindex |]. rewrite Hindex. split.
  - apply build_index_covers.
  - apply build_index_points_at_last.
Qed.

(** a detector built from the two bowls and grown by one of them *)
Definition three_bowls : Detector :=
  (add_recipe ExactRuns.exact_fit
              (mkDetector [ExactRuns.quinoa_bowl; ExactRuns.veggie_bowl]
                          (_build_index [ExactRuns.quinoa_bowl; ExactRuns.veggie_bowl]))
              ExactRuns.quinoa_bowl).1.

Lemma title_index_points_at_last_recipe_witness :
  reachable ExactRuns.exact_fit three_bowls
  /\ recipe_index three_bowls = _build_index (existing_recipes three_bowls).
Proof.
  assert (Hreach : reachable ExactRuns.exact_fit three_bowls).
  { apply reachable_add.
    apply (reachable_make ExactRuns.exact_fit [ExactRuns.quinoa_bowl; ExactRuns.veggie_bowl]).
    vm_compute. reflexivity. }
  split; [exact Hreach |].
  exact (proj1 (title_index_points_at_last_recipe _ _ Hreach)).
Defined.

(** *** [find_duplicates] *)

Section Matches.

Context {F : Type} {FA : FloatArith F}.
Variables fuzz_ratio fuzz_token_sort_ratio fuzz_partial_ratio
  : string -> string -> Z.

Local Abbreviation similarity :=
  (calculate_similarity fuzz_ratio fuzz_token_sort_ratio fuzz_partial_ratio).
Local Abbreviation duplicates :=
  (find_duplicates fuzz_ratio fuzz_token_sort_ratio fuzz_partial_ratio).

Lemma insert_match_perm (m : Match (F:=F)) l : insert_match m l ≡ₚ m :: l.
Proof.
  induction l as [| m' l IH]; cbn; [reflexivity |].
  destruct (f_leb _ _); [reflexivity |].
  rewrite IH. apply Permutation_swap.
Qed.

Lemma sort_matches_perm (l : list (Match (F:=F))) : sort_matches l ≡ₚ l.
Proof.
  induction l as [| m l IH]; cbn; [reflexivity |].
  rewrite insert_match_perm, IH. reflexivity.
Qed.

Lemma mapM_elem_of {A B} (f : A -> option B) (l : list A) (k : list B) (y : B) :
  mapM f l = Some k -> (y ∈ k <-> exists x, x ∈ l /\ f x = Some y).
Proof.
  rewrite mapM_Some. induction 1 as [| x y' l k Hxy Hrest IH].
  - split; [intros Hy; apply elem_of_nil in Hy; contradiction |].
    intros (x & Hx & _). apply elem_of_nil in Hx. contradiction.
  - rewrite elem_of_cons, IH. split.
    + intros [-> | (x' & Hx' & Hy)]; [exists x; split; [left | exact Hxy] |].
      exists x'. split; [right; exact Hx' | exact Hy].
    + intros (x' & Hx' & Hy). apply elem_of_cons in Hx'.
      destruct Hx' as [-> | Hx']; [left; congruence | right; eauto].
Qed.

(** what [find_duplicates] reports is in the collection, above both bars *)
Lemma find_duplicates_sound d r ms m :
  duplicates d r = Some ms ->
  m ∈ ms ->
  existing_recipes d !! match_index m = Some (match_recipe m)
  /\ (70 < fuzz_ratio (index_key r) (index_key (match_recipe m)))%Z
  /\ similarity r (match_recipe m) = Some (match_similarity m)
  /\ f_leb (f_of_Q combined_threshold) (combined_score (match_similarity m)) = true.
Proof.
  unfold find_duplicates. fold (index_key r).
  destruct (mapM _ _) as [scored |] eqn:Hscored; [| discriminate].
  cbn [mbind option_bind]. intros [= <-].
  rewrite (sort_matches_perm _), list_elem_of_filter.
  rewrite (mapM_elem_of _ _ _ m Hscored).
  intros (Hthreshold & [idx existing] & Hin & Hm).
  apply list_elem_of_filter in Hin. destruct Hin as [Hfuzz Hin].
  apply elem_of_lookup_imap in Hin. destruct Hin as (i & x & [= -> ->] & Hlookup).
  destruct (similarity r x) as [sim |] eqn:Esim; [| discriminate].
  cbn in Hm. injection Hm as <-. cbn [match_index match_recipe match_similarity] in *.
  split; [exact Hlookup |]. split; [apply Z.ltb_lt; exact Hfuzz |].
  split; [exact Esim | exact Hthreshold].
Qed.

Lemma find_duplicates_is_Some d r : is_Some (duplicates d r).
Proof.
  unfold find_duplicates.
  set (potential := filter _ _).
  set (score := fun '(idx, existing) => _).
  assert (Hscore : is_Some (mapM score potential)).
  { apply mapM_is_Some, Forall_forall. intros [idx existing] _. subst score.
    unfold compose. cbn beta iota.
    destruct (DetectorProperties.calculate_similarity_is_Some
                fuzz_ratio fuzz_token_sort_ratio fuzz_partial_ratio r existing) as [sim ->].
    cbn. eauto. }
  destruct Hscore as [scored ->]. cbn. eauto.
Qed.

(** X18: [find_duplicates] always returns, and it reports exactly the
    existing recipes whose lower-cased title has a fuzzy ratio above 70 with
    the candidate's and whose combined score reaches the threshold of 0.75,
    each with its position in the collection and its similarity record; in
    particular it reports nothing while the collection is empty. *)
Theorem find_duplicates_reports_exactly_the_matches d r :
  exists ms,
    duplicates d r = Some ms
    /\ (forall m,
          m ∈ ms <->
          existing_recipes d !! match_index m = Some (match_recipe m)
          /\ (70 < fuzz_ratio (index_key r) (index_key (match_recipe m)))%Z
          /\ similarity r (match_recipe m) = Some (match_similarity m)
          /\ f_leb (f_of_Q combined_threshold) (combined_score (match_similarity m)) = true)
    /\ (existing_recipes d = [] -> ms = []).
Proof.
  destruct (find_duplicates_is_Some d r) as [ms Hms]. exists ms.
  split; [exact Hms |]. split.
  - intros m. split; [apply (find_duplicates_sound d r ms m Hms) |].
    revert Hms. unfold find_duplicates. fold (index_key r).
    destruct (mapM _ _) as [scored |] eqn:Hscored; [| discriminate].
    cbn [mbind option_bind]. intros [= <-].
    intros (Hlookup & Hfuzz & Hsim & Hthreshold).
    rewrite (sort_matches_perm _), list_elem_of_filter.
    split; [exact Hthreshold |].
    apply (mapM_elem_of _ _ _ m Hscored).
    exists (match_index m, match_recipe m). split.
    + apply list_elem_of_filter. split; [apply Z.ltb_lt; exact Hfuzz |].
      apply elem_of_lookup_imap. eauto.
    + cbn beta iota. rewrite Hsim. cbn. destruct m. reflexivity.
  - intros Hempty. revert Hms. unfold find_duplicates. rewrite Hempty. cbn.
    intros [= <-]. reflexivity.
Qed.

End Matches.

Lemma find_duplicates_reports_exactly_the_matches_witness :
  existing_recipes init = []
  /\ find_duplicates (FA:=ExactRuns.exact_arith)
       ExactRuns.exact_ratio ExactRuns.exact_ratio ExactRuns.exact_ratio
       init ExactRuns.quinoa_bowl
     = Some [].
Proof.
  split; [reflexivity |].
  destruct (find_duplicates_reports_exactly_the_matches
              (FA:=ExactRuns.exact_arith)
              ExactRuns.exact_ratio ExactRuns.exact_ratio ExactRuns.exact_ratio
              init ExactRuns.quinoa_bowl) as (ms & Hms & _ & Hempty).
  rewrite Hms, (Hempty eq_refl). reflexivity.
Defined.

(** *** [find_near_duplicates_batch] *)

Section Batch.

Context {F : Type} {FA : FloatArith F}.
Variables fuzz_ratio fuzz_token_sort_ratio fuzz_partial_ratio
  : string -> string -> Z.

Local Abbreviation similarity :=
  (calculate_similarity fuzz_ratio fuzz_token_sort_ratio fuzz_partial_ratio).
Local Abbreviation near_duplicates :=
  (find_near_duplicates_batch fuzz_ratio fuzz_token_sort_ratio fuzz_partial_ratio).

(** an entry of the batch report: the later recipes that resemble a recipe
    of that title *)
Definition later_matches (recipes : list Recipe) (k : string)
    (ms : list (Match (F:=F))) : Prop :=
  ms <> []
  /\ exists i recipe1,
       recipes !! i = Some recipe1
       /\ default "Unknown" (title recipe1) = k
       /\ Forall (fun m =>
                    (i < match_index m)%nat
                    /\ recipes !! match_index m = Some (match_recipe m)
                    /\ similarity recipe1 (match_recipe m) = Some (match_similarity m)
                    /\ f_leb (f_of_Q combined_threshold)
                             (combined_score (match_similarity m)) = true)
                 ms.

(** X22: [find_near_duplicates_batch] always returns, and every entry of
    its report is sound: the key is the title of a recipe of the batch
    (Unknown without one) and the value is a non-empty list of recipes that
    come later in the batch, each with its position and its similarity to
    that recipe, whose combined score reaches the threshold of 0.75; no
    recipe is reported against itself or against an earlier one. *)
Theorem near_duplicates_batch_reports_later_matches recipes :
  exists report,
    near_duplicates recipes = Some report
    /\ forall k ms, report !! k = Some ms -> later_matches recipes k ms.
Proof.
  unfold find_near_duplicates_batch.
  assert (Hvalid : forall i r, (i, r) ∈ imap pair recipes -> recipes !! i = Some r).
  { intros i r Hin. apply elem_of_lookup_imap in Hin.
    destruct Hin as (i' & r' & [= -> ->] & Hlookup). exact Hlookup. }
  assert (Hstart : forall k ms, (∅ : gmap string (list (Match (F:=F)))) !! k = Some ms
                                -> later_matches recipes k ms).
  { intros k ms Hk. rewrite lookup_empty in Hk. discriminate. }
  revert Hvalid Hstart. generalize (∅ : gmap string (list (Match (F:=F)))) as report.
  generalize (imap pair recipes) as pairs.
  induction pairs as [| [i recipe1] pairs IH]; intros report Hvalid Hreport.
  { exists report. split; [reflexivity | exact Hreport]. }
  cbn [foldl mbind option_bind].
  set (later := imap _ (drop (i + 1) recipes)).
  set (score := fun '(j, recipe2) => _).
  assert (Hscore : is_Some (mapM score later)).
  { apply mapM_is_Some, Forall_forall. intros [j recipe2] _. subst score.
    unfold compose. cbn beta iota.
    destruct (DetectorProperties.calculate_similarity_is_Some
                fuzz_ratio fuzz_token_sort_ratio fuzz_partial_ratio recipe1 recipe2)
      as [sim ->].
    cbn. eauto. }
  destruct Hscore as [scored Hscored]. rewrite Hscored. cbn [option_bind].
  apply IH; [intros j r Hin; apply Hvalid; right; exact Hin |].
  set (duplicates := filter _ scored).
  assert (Hdup : Forall (fun m =>
                           (i < match_index m)%nat
                           /\ recipes !! match_index m = Some (match_recipe m)
                           /\ similarity recipe1 (match_recipe m) = Some (match_similarity m)
                           /\ f_leb (f_of_Q combined_threshold)
                                    (combined_score (match_similarity m)) = true)
                        duplicates).
  { apply Forall_forall. intros m Hm. subst duplicates.
    apply list_elem_of_filter in Hm. destruct Hm as [Hthreshold Hm].
    apply (mapM_elem_of _ _ _ m Hscored) in Hm. destruct Hm as ([j recipe2] & Hin & Hm).
    subst later. apply elem_of_lookup_imap in Hin.
    destruct Hin as (n & x & [= -> ->] & Hlookup). rewrite lookup_drop in Hlookup.
    subst score. cbn beta iota in Hm.
    destruct (similarity recipe1 x) as [sim |] eqn:Esim; [| discriminate].
    cbn in Hm. injection Hm as <-. cbn [match_index match_recipe match_similarity].
    split; [lia |]. split; [exact Hlookup |]. split; [exact Esim | exact Hthreshold]. }
  clearbody duplicates. destruct duplicates as [| m ms']; [exact Hreport |].
  intros k ms Hk. destruct (decide (default "Unknown" (title recipe1) = k)) as [Hkey | Hkey].
  - rewrite Hkey, lookup_insert_eq in Hk. injection Hk as <-.
    split; [discriminate |]. exists i, recipe1.
    split; [apply Hvalid; left |]. split; [exact Hkey | exact Hdup].
  - rewrite lookup_insert_ne in Hk by exact Hkey. apply Hreport, Hk.
Qed.

End Batch.

End DetectorFacts.

(** ** The session *)

Module OrchestratorFacts.
Import Orchestrator.

(** the keys of a recipe the validator reads, tags apart *)
Record same_content (r1 r2 : Recipe) : Prop := mkSameContent {
  same_title : title r1 = title r2;
  same_description : description r1 = description r2;
  same_ingredients : ingredients r1 = ingredients r2;
  same_instructions : instructions r1 = instructions r2;
  same_nutrition : nutrition r1 = nutrition r2;
  same_prepTime : prepTime r1 = prepTime r2;
  same_cookTime : cookTime r1 = cookTime r2;
  same_sourceSite : sourceSite r1 = sourceSite r2
}.

Lemma same_content_refl r : same_content r r.
Proof. constructor; reflexivity. Qed.

Lemma same_content_trans r1 r2 r3 :
  same_content r1 r2 -> same_content r2 r3 -> same_content r1 r3.
Proof. intros [] []. constructor; congruence. Qed.

Lemma annotate_same_content r pd dof su sr sc vs :
  same_content (annotate r pd dof su sr sc vs) r.
Proof. constructor; reflexivity. Qed.

Lemma enrich_same_content es r :
  same_content (RecipeEnricher.enriched (RecipeEnricher.enrich_recipe es r)) r.
Proof.
  unfold RecipeEnricher.enrich_recipe.
  destruct (RecipeEnricher._assess_trimester_suitability _). constructor; reflexivity.
Qed.

Lemma enrich_total_enriched es r :
  RecipeEnricher.total_enriched
    (RecipeEnricher.stats_after (RecipeEnricher.enrich_recipe es r))
  = (RecipeEnricher.total_enriched es + 1)%Z.
Proof.
  unfold RecipeEnricher.enrich_recipe.
  destruct (RecipeEnricher._assess_trimester_suitability _). reflexivity.
Qed.

(** the words [_determine_meal_type] looks for among the tags *)
Definition meal_tags : list string :=
  ["snack"; "appetizer"; "breakfast"; "lunch"; "dinner"; "main"].

Lemma determine_meal_type_ext r1 r2 :
  nutrition r1 = nutrition r2 ->
  (forall x, x ∈ meal_tags -> x ∈ default [] (tags r1) <-> x ∈ default [] (tags r2)) ->
  QualityValidator._determine_meal_type r1 = QualityValidator._determine_meal_type r2.
Proof.
  intros Hn Htags. unfold QualityValidator._determine_meal_type, nutrition_get.
  rewrite Hn. cbn [existsb]. unfold PyStr.mem.
  assert (Hmem : forall x, x ∈ meal_tags ->
                           bool_decide (x ∈ default [] (tags r1))
                           = bool_decide (x ∈ default [] (tags r2))).
  { intros x Hx. apply bool_decide_ext, Htags, Hx. }
  rewrite !(Hmem "snack"), !(Hmem "appetizer"), !(Hmem "breakfast"), !(Hmem "lunch"),
    !(Hmem "dinner"), !(Hmem "main")
    by (apply list_elem_of_In; cbn; tauto).
  reflexivity.
Qed.

Lemma validate_ext r1 r2 :
  same_content r1 r2 ->
  (forall x, x ∈ meal_tags -> x ∈ default [] (tags r1) <-> x ∈ default [] (tags r2)) ->
  QualityValidator.validate r1 = QualityValidator.validate r2.
Proof.
  intros [Ht _ Hi Hs Hn Hp Hc _] Htags.
  pose proof (determine_meal_type_ext r1 r2 Hn Htags) as Hmeal.
  unfold QualityValidator.validate. rewrite Hmeal.
  unfold QualityValidator._validate_required_fields, QualityValidator.field_present,
    QualityValidator._estimate_glycemic_index, total_time.
  rewrite Ht, Hi, Hs, Hn, Hp, Hc. reflexivity.
Qed.

(** the tags the enricher adds are none of the meal words *)
Lemma enriched_meal_tags es r x :
  x ∈ meal_tags ->
  x ∈ default [] (tags (RecipeEnricher.enriched (RecipeEnricher.enrich_recipe es r)))
  <-> x ∈ default [] (tags r).
Proof.
  intros Hx. split.
  - intros Hin. apply EnricherProperties.enriched_tags_origin in Hin.
    destruct Hin as [Hin | [Hin | [[c ->] | [m ->]]]]; [exact Hin | exfalso.. ].
    + apply list_elem_of_In in Hx, Hin. cbn in Hx, Hin.
      repeat (destruct Hx as [<- | Hx]; [intuition discriminate |]). contradiction.
    + apply list_elem_of_In in Hx. cbn in Hx. intuition discriminate.
    + apply list_elem_of_In in Hx. cbn in Hx. intuition discriminate.
  - intros Hin. rewrite (proj1 (EnricherProperties.enrich_recipe_tags es r)).
    change (default [] (Some ?l)) with l. unfold PyStr.list_set.
    rewrite elem_of_elements, elem_of_list_to_set.
    unfold EnricherProperties.final_tag_list. rewrite !elem_of_app. tauto.
Qed.

Section SessionFacts.

Context {F : Type} {FA : FloatArith F}.
Variables fuzz_ratio fuzz_token_sort_ratio fuzz_partial_ratio
  : string -> string -> Z.
Variable vectorizer_fits : list string -> bool.

Local Abbreviation process :=
  (process_recipe fuzz_ratio fuzz_token_sort_ratio fuzz_partial_ratio vectorizer_fits).
Local Abbreviation flag :=
  (flag_duplicates fuzz_ratio fuzz_token_sort_ratio fuzz_partial_ratio).
Local Abbreviation session :=
  (reachable fuzz_ratio fuzz_token_sort_ratio fuzz_partial_ratio vectorizer_fits).
Local Abbreviation duplicates :=
  (DuplicateDetector.find_duplicates fuzz_ratio fuzz_token_sort_ratio fuzz_partial_ratio).

(** the recipe steps 4 and 6 of [process_recipe] leave *)
Definition finish (e : Recipe) (verdict : bool * list string) (source : string)
    (warnings : list ValidationMsg) : Recipe :=
  let e :=
    if verdict.1 then e
    else annotate e (potentialDuplicate e) (duplicateOf e) (Some true) (Some verdict.2)
                  (scraper e) (validationStatus e) in
  annotate e (potentialDuplicate e) (duplicateOf e) (surplus e) (surplusReasons e)
           (Some source) (Some (true, warnings)).

Lemma finish_same_content e verdict source warnings :
  same_content (finish e verdict source warnings) e
  /\ tags (finish e verdict source warnings) = tags e.
Proof. unfold finish. destruct verdict as [[] reasons]; split; constructor; reflexivity. Qed.

(** the four ways through [process_recipe] *)
Lemma process_recipe_cases s recipe source :
  let vstats := (QualityValidator.validate_recipe (quality_validator s) recipe).1 in
  let verdict := QualityValidator.validate recipe in
  (verdict.1.1 = false
   /\ process s recipe source
      = (mkState vstats (recipe_enricher s) (diversity_tracker s) (duplicate_detector s)
                 (count_failed (scraper_stats s)), None))
  \/ (verdict.1.1 = true
      /\ exists st,
           flag (duplicate_detector s) (scraper_stats s) recipe = (st, None)
           /\ process s recipe source
              = (mkState vstats (recipe_enricher s) (diversity_tracker s)
                         (duplicate_detector s) (count_error st), None))
  \/ (verdict.1.1 = true
      /\ exists st flagged,
           flag (duplicate_detector s) (scraper_stats s) recipe = (st, Some flagged)
           /\ let outcome := RecipeEnricher.enrich_recipe (recipe_enricher s) flagged in
              let added :=
                DiversityTracker.add_recipe (diversity_tracker s)
                                            (RecipeEnricher.enriched outcome) in
              let out := finish (RecipeEnricher.enriched outcome) added.2 source verdict.2 in
              let indexed :=
                DuplicateDetector.add_recipe vectorizer_fits (duplicate_detector s) out in
              (indexed.2 = true
               /\ process s recipe source
                  = (mkState vstats (RecipeEnricher.stats_after outcome) added.1 indexed.1
                             (count_passed st),
                     Some out))
              \/ (indexed.2 = false
                  /\ process s recipe source
                     = (mkState vstats (RecipeEnricher.stats_after outcome) added.1 indexed.1
                                (count_error (count_passed st)),
                        None))).
Proof.
  cbv zeta. unfold process_recipe, QualityValidator.validate_recipe.
  destruct (QualityValidator.validate recipe) as [[is_valid errs] warnings].
  cbn [fst snd]. destruct is_valid; cbn [negb]; [right | left; split; reflexivity].
  destruct (flag (duplicate_detector s) (scraper_stats s) recipe) as [st [flagged |]].
  - right. split; [reflexivity |]. exists st, flagged. split; [reflexivity |].
    remember (RecipeEnricher.enrich_recipe (recipe_enricher s) flagged) as outcome.
    destruct (DiversityTracker.add_recipe _ _) as [tracker [should_add reasons]].
    unfold finish. cbn [fst snd].
    destruct should_add;
      match goal with
      | |- context [DuplicateDetector.add_recipe vectorizer_fits ?d ?e] =>
          destruct (DuplicateDetector.add_recipe vectorizer_fits d e) as [detector returned]
      end;
      destruct returned; cbn [fst snd]; [left | right | left | right]; split; reflexivity.
  - left. split; [reflexivity |]. exists st. split; reflexivity.
Qed.

Lemma flag_duplicates_stats d st r :
  (flag d st r).1 = st \/ (flag d st r).1 = count_duplicate st.
Proof.
  unfold flag_duplicates.
  destruct (duplicates d r) as [[| best rest] |]; [left | | left]; try reflexivity.
  destruct (title _); right; reflexivity.
Qed.

Lemma flag_duplicates_same_content d st r st' r' :
  flag d st r = (st', Some r') -> same_content r' r /\ tags r' = tags r.
Proof.
  unfold flag_duplicates.
  destruct (duplicates d r) as [[| best rest] |]; [| | discriminate].
  - intros [= _ <-]. split; [apply same_content_refl | reflexivity].
  - destruct (title _); [| discriminate]. intros [= _ <-].
    split; [constructor |]; reflexivity.
Qed.

(** *** what the index holds *)

(** a record as [process_recipe] hands it to the duplicate detector *)
Definition processed (r : Recipe) : Prop :=
  PyStr.truthy (default "" (title r)) = true
  /\ (3 <= length (default [] (ingredients r)))%nat
  /\ is_Some (scraper r)
  /\ exists warnings, validationStatus r = Some (true, warnings).

Lemma finish_processed recipe st flagged es d st0 e verdict source :
  (QualityValidator.validate recipe).1.1 = true ->
  flag d st0 recipe = (st, Some flagged) ->
  e = RecipeEnricher.enriched (RecipeEnricher.enrich_recipe es flagged) ->
  processed (finish e verdict source (QualityValidator.validate recipe).2).
Proof.
  intros Hok Hflag ->.
  destruct (ValidatorFacts.validate_passed_required_fields recipe Hok) as (Ht & Hi & _).
  destruct (flag_duplicates_same_content _ _ _ _ _ Hflag) as [[Ft _ Fi _ _ _ _ _] _].
  destruct (enrich_same_content es flagged) as [Et _ Ei _ _ _ _ _].
  match goal with
  | |- processed (finish ?e ?v ?src ?w) =>
      destruct (finish_same_content e v src w) as [[Nt _ Ni _ _ _ _ _] _];
      unfold processed; rewrite Nt, Ni, Et, Ei, Ft, Fi
  end.
  split; [exact Ht |]. split; [exact Hi |].
  unfold finish. cbn [scraper validationStatus annotate]. split; eauto.
Qed.

Lemma flag_duplicates_finds_title d st r :
  Forall processed (DuplicateDetector.existing_recipes d) -> is_Some (flag d st r).2.
Proof.
  intros Hindex. unfold flag_duplicates.
  destruct (DetectorFacts.find_duplicates_is_Some
              fuzz_ratio fuzz_token_sort_ratio fuzz_partial_ratio d r) as [ms Hms].
  rewrite Hms. destruct ms as [| best rest]; [cbn; eauto |].
  destruct (DetectorFacts.find_duplicates_sound
              fuzz_ratio fuzz_token_sort_ratio fuzz_partial_ratio d r (best :: rest) best Hms)
    as [Hlookup _]; [left |].
  apply list_elem_of_lookup_2 in Hlookup.
  rewrite Forall_forall in Hindex. destruct (Hindex _ Hlookup) as [Htitle _].
  destruct (title (DuplicateDetector.match_recipe best)); [cbn; eauto | discriminate].
Qed.

(** *** what a session keeps in balance *)

Record balanced (s : State) : Prop := mkBalanced {
  balanced_index_processed :
    Forall processed (DuplicateDetector.existing_recipes (duplicate_detector s));
  balanced_total :
    QualityValidator.total_validated (quality_validator s)
    = (passed_validation (scraper_stats s) + failed_validation (scraper_stats s))%Z;
  balanced_failed :
    QualityValidator.failed (quality_validator s) = failed_validation (scraper_stats s);
  balanced_passed :
    QualityValidator.passed (quality_validator s) = passed_validation (scraper_stats s);
  balanced_enriched :
    RecipeEnricher.total_enriched (recipe_enricher s) = passed_validation (scraper_stats s);
  balanced_index :
    Z.of_nat (length (DuplicateDetector.existing_recipes (duplicate_detector s)))
    = passed_validation (scraper_stats s);
  balanced_tracker :
    (DiversityTracker.total_count (DiversityTracker.stats (diversity_tracker s))
     <= passed_validation (scraper_stats s))%Z;
  balanced_duplicates :
    (0 <= duplicates_found (scraper_stats s) <= passed_validation (scraper_stats s))%Z;
  balanced_errors :
    (0 <= 50 * errors (scraper_stats s) <= passed_validation (scraper_stats s))%Z
}.

Lemma tracker_total_step t r :
  (DiversityTracker.total_count (DiversityTracker.stats (DiversityTracker.add_recipe t r).1)
   <= DiversityTracker.total_count (DiversityTracker.stats t) + 1)%Z.
Proof.
  destruct ((DiversityTracker.add_recipe t r).2.1) eqn:Hadd.
  - rewrite (TrackerProperties.add_recipe_accepted _ _ Hadd). cbn. lia.
  - rewrite (TrackerProperties.add_recipe_surplus _ _ Hadd). cbn. lia.
Qed.

Ltac tally :=
  cbn [fst snd quality_validator recipe_enricher diversity_tracker duplicate_detector
       scraper_stats count_failed count_error count_passed count_duplicate
       total_scraped passed_validation failed_validation duplicates_found
       saved_to_firebase errors];
  lia.

Lemma session_balanced s : session s -> balanced s.
Proof.
  induction 1
    as [| s recipe source Hreach
          [Hprocessed Htotal Hfailed Hpassed Henriched Hindex Htracker Hdups Herr]].
  { constructor; cbn; try lia. constructor. }
  pose proof (ValidatorFacts.validate_recipe_stats (quality_validator s) recipe) as Hv.
  cbv zeta in Hv. destruct Hv as (Vtotal & Vsum & Vpassed & _).
  pose proof (flag_duplicates_finds_title (duplicate_detector s) (scraper_stats s) recipe
                Hprocessed) as Hfound.
  destruct (process_recipe_cases s recipe source)
    as [[Hbad ->] | [(Hok & st & Hflag & ->) | (Hok & st & flagged & Hflag & Hrun)]].
  - rewrite Hbad in Vpassed. constructor; try tally. exact Hprocessed.
  - rewrite Hflag in Hfound. destruct Hfound as [x [=]].
  - cbv zeta in Hrun. rewrite Hok in Vpassed.
    pose proof (flag_duplicates_stats (duplicate_detector s) (scraper_stats s) recipe) as Hst.
    rewrite Hflag in Hst. cbn [fst] in Hst.
    pose proof (enrich_total_enriched (recipe_enricher s) flagged) as He.
    pose proof (tracker_total_step (diversity_tracker s)
                  (RecipeEnricher.enriched
                     (RecipeEnricher.enrich_recipe (recipe_enricher s) flagged))) as Ht.
    set (e := RecipeEnricher.enriched
                (RecipeEnricher.enrich_recipe (recipe_enricher s) flagged)) in *.
    set (added := DiversityTracker.add_recipe (diversity_tracker s) e) in *.
    set (out := finish e added.2 source (QualityValidator.validate recipe).2) in *.
    assert (Hout : processed out)
      by (eapply finish_processed with (es := recipe_enricher s);
          [exact Hok | exact Hflag | reflexivity]).
    pose proof (DetectorProperties.add_recipe_appends
                  vectorizer_fits (duplicate_detector s) out) as Happend.
    pose proof (DetectorProperties.add_recipe_raises
                  vectorizer_fits (duplicate_detector s) out) as Hraise.
    assert (Hlen : Z.of_nat (length (DuplicateDetector.existing_recipes
                                       (DuplicateDetector.add_recipe
                                          vectorizer_fits (duplicate_detector s) out).1))
                   = (Z.of_nat (length (DuplicateDetector.existing_recipes
                                          (duplicate_detector s))) + 1)%Z).
    { rewrite Happend, length_app. cbn [length]. lia. }
    assert (Hall : Forall processed
                     (DuplicateDetector.existing_recipes
                        (DuplicateDetector.add_recipe
                           vectorizer_fits (duplicate_detector s) out).1)).
    { rewrite Happend. apply Forall_app. split; [exact Hprocessed |].
      constructor; [exact Hout | constructor]. }
    destruct Hrun as [[Hreturned ->] | [Hraised ->]].
    + constructor; try (destruct Hst as [-> | ->]; tally). exact Hall.
    + destruct (Hraise Hraised) as [Hmod _]. rewrite <- Happend in Hmod.
      assert (Hfifty : (50 <> 0)%Z) by discriminate.
      match type of Hmod with
      | (?n mod 50 = 0)%Z =>
          pose proof (Z.div_mod n 50 Hfifty) as Hq; rewrite Hmod in Hq;
          generalize dependent (n / 50)%Z; intros q Hq
      end.
      constructor; try (destruct Hst as [-> | ->]; tally). exact Hall.
Qed.

(** X19: in a session that starts fresh, after any sequence of
    [process_recipe] calls the counters agree: every validated recipe counts
    as passed or as failed, the validator's passed and failed counts are the
    session's, the enricher has enriched and the duplicate detector has
    indexed exactly the recipes that passed, the tracker has accepted at
    most that many, at most that many were flagged as duplicates, and an
    error is counted only for a recipe that passed and was lost in the index
    rebuild of a 50th recipe, so errors are at most a fiftieth of the
    passed. *)
Theorem session_counters_balance s :
  reachable fuzz_ratio fuzz_token_sort_ratio fuzz_partial_ratio vectorizer_fits s ->
  let st := scraper_stats s in
  QualityValidator.total_validated (quality_validator s)
  = (passed_validation st + failed_validation st)%Z
  /\ QualityValidator.passed (quality_validator s) = passed_validation st
  /\ QualityValidator.failed (quality_validator s) = failed_validation st
  /\ RecipeEnricher.total_enriched (recipe_enricher s) = passed_validation st
  /\ Z.of_nat (length (DuplicateDetector.existing_recipes (duplicate_detector s)))
     = passed_validation st
  /\ (DiversityTracker.total_count (DiversityTracker.stats (diversity_tracker s))
      <= passed_validation st)%Z
  /\ (0 <= duplicates_found st <= passed_validation st)%Z
  /\ (0 <= 50 * errors st <= passed_validation st)%Z.
Proof.
  intros Hreach. destruct (session_balanced s Hreach). cbv zeta. auto 10.
Qed.

(** X20: in a session that starts with an empty index, every record the
    duplicate detector holds has passed through [process_recipe]: it has a
    non-empty title, at least three ingredients, the name of its scraper and
    a validation status that says valid.  So the title of the best match is
    always there when the duplicate step reads it.  A recipe that fails
    validation is not returned; one that passes is returned unless it is a
    50th recipe of the index and the rebuild raises, in which case it
    stays in the index and nothing is returned. *)
Theorem session_index_holds_processed_recipes s recipe source :
  reachable fuzz_ratio fuzz_token_sort_ratio fuzz_partial_ratio vectorizer_fits s ->
  let index := DuplicateDetector.existing_recipes (duplicate_detector s) in
  let index' :=
    DuplicateDetector.existing_recipes (duplicate_detector (process s recipe source).1) in
  Forall processed index
  /\ Forall processed index'
  /\ is_Some (flag (duplicate_detector s) (scraper_stats s) recipe).2
  /\ ((QualityValidator.validate recipe).1.1 = false ->
      (process s recipe source).2 = None /\ index' = index)
  /\ ((QualityValidator.validate recipe).1.1 = true ->
      length index' = S (length index)
      /\ (is_Some (process s recipe source).2
          \/ ((process s recipe source).2 = None
              /\ (Z.of_nat (length index') mod 50 = 0)%Z
              /\ DuplicateDetector._build_index_returns vectorizer_fits index' = false))).
Proof.
  intros Hreach. cbv zeta.
  pose proof (balanced_index_processed _ (session_balanced s Hreach)) as Hindex.
  pose proof (balanced_index_processed _
                (session_balanced _ (reachable_process _ _ _ _ s recipe source Hreach)))
    as Hindex'.
  pose proof (flag_duplicates_finds_title (duplicate_detector s) (scraper_stats s) recipe Hindex)
    as Hflagged.
  split; [exact Hindex |]. split; [exact Hindex' |]. split; [exact Hflagged |].
  destruct (process_recipe_cases s recipe source)
    as [[Hbad ->] | [(Hok & st & Hflag & ->) | (Hok & st & flagged & Hflag & Hrun)]].
  - rewrite Hbad. cbn [fst snd duplicate_detector]. split; [auto | discriminate].
  - rewrite Hflag in Hflagged. destruct Hflagged as [x [=]].
  - cbv zeta in Hrun. rewrite Hok. split; [discriminate |]. intros _.
    match type of Hrun with
    | context [DuplicateDetector.add_recipe vectorizer_fits ?d ?out] =>
        pose proof (DetectorProperties.add_recipe_appends vectorizer_fits d out) as Happend;
        pose proof (DetectorProperties.add_recipe_raises vectorizer_fits d out) as Hraise
    end.
    destruct Hrun as [[Hreturned ->] | [Hraised ->]]; cbn [fst snd duplicate_detector].
    + split; [rewrite Happend, length_app; cbn [length]; lia | left; eauto].
    + split; [rewrite Happend, length_app; cbn [length]; lia | right].
      split; [reflexivity |]. rewrite Happend. exact (Hraise Hraised).
Qed.

(** *** what [process_recipe] returns *)

Lemma enrich_keeps_marks es r :
  potentialDuplicate (RecipeEnricher.enriched (RecipeEnricher.enrich_recipe es r))
  = potentialDuplicate r
  /\ duplicateOf (RecipeEnricher.enriched (RecipeEnricher.enrich_recipe es r))
     = duplicateOf r.
Proof.
  unfold RecipeEnricher.enrich_recipe.
  destruct (RecipeEnricher._assess_trimester_suitability _). split; reflexivity.
Qed.

Lemma flag_duplicates_marks d st r st' r' :
  flag d st r = (st', Some r') ->
  (st' = st /\ r' = r /\ duplicates d r = Some [])
  \/ (st' = count_duplicate st
      /\ potentialDuplicate r' = Some true
      /\ exists best rest,
           duplicates d r = Some (best :: rest)
           /\ duplicateOf r' = title (DuplicateDetector.match_recipe best)).
Proof.
  unfold flag_duplicates.
  destruct (duplicates d r) as [[| best rest] |]; [| | discriminate].
  - intros [= <- <-]. left. auto.
  - destruct (title _) eqn:Etitle; [| discriminate]. intros [= <- <-]. right.
    split; [reflexivity |]. split; [reflexivity |]. exists best, rest.
    split; [reflexivity |]. cbn. congruence.
Qed.

(** X21: the record [process_recipe] returns carries the title, the
    description, the ingredients, the instructions, the nutrition, the times
    and the source site of the recipe it was given, and every tag of it,
    without repetition; its scraper is the source it was called with and its
    validation status says valid and lists the warnings of the validation;
    the validator gives it the verdict it gave the input; and when the
    duplicate step found matches the record is marked as potential duplicate
    of the title of a record that was in the index. *)
Theorem processed_recipe_keeps_content s recipe source out :
  (process s recipe source).2 = Some out ->
  same_content out recipe
  /\ (forall x, x ∈ default [] (tags recipe) -> x ∈ default [] (tags out))
  /\ NoDup (default [] (tags out))
  /\ scraper out = Some source
  /\ validationStatus out = Some (true, (QualityValidator.validate recipe).2)
  /\ QualityValidator.validate out = QualityValidator.validate recipe
  /\ (duplicates (duplicate_detector s) recipe <> Some [] ->
      potentialDuplicate out = Some true
      /\ exists earlier,
           earlier ∈ DuplicateDetector.existing_recipes (duplicate_detector s)
           /\ duplicateOf out = title earlier).
Proof.
  destruct (process_recipe_cases s recipe source)
    as [[Hbad ->] | [(Hok & st & Hflag & ->) | (Hok & st & flagged & Hflag & Hrun)]];
    [discriminate | discriminate |].
  cbv zeta in Hrun. destruct Hrun as [[_ ->] | [_ ->]]; [| discriminate].
  cbn [snd]. intros Hout. apply (inj Some) in Hout. subst out.
  destruct (flag_duplicates_same_content _ _ _ _ _ Hflag) as [Fcontent Ftags].
  pose proof (enrich_same_content (recipe_enricher s) flagged) as Econtent.
  destruct (enrich_keeps_marks (recipe_enricher s) flagged) as [Epd Edof].
  pose proof (EnricherFacts.enriched_tags_kept (recipe_enricher s) flagged) as (Enodup & Ekeeps).
  set (e := RecipeEnricher.enriched (RecipeEnricher.enrich_recipe (recipe_enricher s) flagged))
    in *.
  set (added := DiversityTracker.add_recipe (diversity_tracker s) e).
  destruct (finish_same_content e added.2 source (QualityValidator.validate recipe).2)
    as [Ncontent Ntags].
  assert (Hcontent : same_content
                       (finish e added.2 source (QualityValidator.validate recipe).2) recipe).
  { eapply same_content_trans; [exact Ncontent |].
    eapply same_content_trans; [exact Econtent | exact Fcontent]. }
  split; [exact Hcontent |]. rewrite Ntags.
  split; [intros x Hx; apply Ekeeps; rewrite Ftags; exact Hx |].
  split; [exact Enodup |].
  split; [unfold finish; destruct (added.2.1); reflexivity |].
  split; [unfold finish; destruct (added.2.1); reflexivity |].
  split.
  - apply validate_ext; [exact Hcontent |]. intros x Hx. rewrite Ntags.
    subst e. rewrite (enriched_meal_tags _ _ x Hx), Ftags. reflexivity.
  - intros Hfound.
    assert (Hmarks : potentialDuplicate
                       (finish e added.2 source (QualityValidator.validate recipe).2)
                     = potentialDuplicate flagged
                     /\ duplicateOf
                          (finish e added.2 source (QualityValidator.validate recipe).2)
                        = duplicateOf flagged).
    { unfold finish.
      destruct (added.2.1); cbn [potentialDuplicate duplicateOf annotate];
        rewrite Epd, Edof; split; reflexivity. }
    destruct Hmarks as [-> ->].
    destruct (flag_duplicates_marks _ _ _ _ _ Hflag)
      as [(_ & _ & Hnone) | (_ & Hpd & best & rest & Hms & Hdof)]; [contradiction |].
    split; [exact Hpd |]. exists (DuplicateDetector.match_recipe best).
    split; [| exact Hdof].
    destruct (DetectorFacts.find_duplicates_sound
                fuzz_ratio fuzz_token_sort_ratio fuzz_partial_ratio
                (duplicate_detector s) recipe (best :: rest) best Hms) as [Hlookup _]; [left |].
    apply list_elem_of_lookup_2 in Hlookup. exact Hlookup.
Qed.

End SessionFacts.

(** the session after one lentil bowl *)
Definition one_bowl : State := ExactRuns.another_bowl init.

Lemma one_bowl_session :
  reachable (FA:=ExactRuns.exact_arith)
    ExactRuns.exact_ratio ExactRuns.exact_ratio ExactRuns.exact_ratio ExactRuns.exact_fit
    one_bowl.
Proof. apply reachable_process, reachable_init. Qed.

Lemma session_counters_balance_witness :
  reachable (FA:=ExactRuns.exact_arith)
    ExactRuns.exact_ratio ExactRuns.exact_ratio ExactRuns.exact_ratio ExactRuns.exact_fit
    one_bowl
  /\ RecipeEnricher.total_enriched (recipe_enricher one_bowl)
     = passed_validation (scraper_stats one_bowl).
Proof.
  split; [exact one_bowl_session |].
  exact (proj1 (proj2 (proj2 (proj2 (session_counters_balance
                                       (FA:=ExactRuns.exact_arith)
                                       ExactRuns.exact_ratio ExactRuns.exact_ratio
                                       ExactRuns.exact_ratio ExactRuns.exact_fit
                                       one_bowl one_bowl_session))))).
Defined.

Lemma session_index_holds_processed_recipes_witness :
  reachable (FA:=ExactRuns.exact_arith)
    ExactRuns.exact_ratio ExactRuns.exact_ratio ExactRuns.exact_ratio ExactRuns.exact_fit
    one_bowl
  /\ Forall processed (DuplicateDetector.existing_recipes (duplicate_detector one_bowl)).
Proof.
  split; [exact one_bowl_session |].
  exact (proj1 (session_index_holds_processed_recipes
                  (FA:=ExactRuns.exact_arith)
                  ExactRuns.exact_ratio ExactRuns.exact_ratio ExactRuns.exact_ratio
                  ExactRuns.exact_fit
                  one_bowl ExactRuns.lentil_bowl "eatingwell" one_bowl_session)).
Defined.

Lemma processed_recipe_keeps_content_witness :
  match (ExactRuns.process init ExactRuns.lentil_bowl "eatingwell").2 with
  | Some out => scraper out = Some "eatingwell"
  | None => False
  end.
Proof.
  unfold ExactRuns.process.
  assert (Hout : exists out,
             (process_recipe (FA:=ExactRuns.exact_arith)
                ExactRuns.exact_ratio ExactRuns.exact_ratio ExactRuns.exact_ratio
                ExactRuns.exact_fit
                init ExactRuns.lentil_bowl "eatingwell").2 = Some out).
  { vm_compute. eexists. reflexivity. }
  destruct Hout as [out Hout]. rewrite Hout.
  exact (proj1 (proj2 (proj2 (proj2 (processed_recipe_keeps_content
                                       (FA:=ExactRuns.exact_arith)
                                       ExactRuns.exact_ratio ExactRuns.exact_ratio
                                       ExactRuns.exact_ratio ExactRuns.exact_fit
                                       init ExactRuns.lentil_bowl "eatingwell" out Hout))))).
Defined.

End OrchestratorFacts.
